(** * capital-laughs: ticket-sales analytics, specification against code

    A shallow embedding of the analysis code under [src/]:

    - [basic_analysis.py]      (module [BasicAnalysis])
    - [show_insights.py]       (module [ShowInsights])
    - [show_level_analysis.py] (module [ShowLevelAnalysis])
    - [dashboard.py]           (module [Dashboard])
    - [advanced_time_series.py] (module [AdvancedTimeSeries])

    together with the parts of Python, pandas, numpy and scipy those files
    call ([Py], [Pandas], [Scipy]).  Definitions come first, theorems after. *)

From Stdlib Require Import ZArith QArith Bool List Ascii String Floats Uint63 Lia.
From stdpp Require Import base option list gmap strings pretty sorting.

Open Scope string_scope.
Open Scope Z_scope.

(* ===================================================================== *)
(** * Part I: definitions                                                  *)
(* ===================================================================== *)

(** ** Python: exceptions, strings, paths *)
Module Py.

  (** The exceptions the modelled code can raise. *)
Inductive exn : Type :=
  | ValueError | TypeError | KeyError | ZeroDivisionError | IndexError.

  (** A computation either returns a value or raises. *)
Inductive result (A : Type) : Type :=
  | Ok (a : A)
  | Raise (e : exn).
Arguments Ok {A} a.
Arguments Raise {A} e.

Definition bind {A B} (m : result A) (k : A -> result B) : result B :=
    match m with
    | Ok a => k a
    | Raise e => Raise e
    end.

  (** [try: m  except (e1, e2, ...): h] *)
Definition try_except {A} (m : result A) (caught : exn -> bool) (h : result A)
    : result A :=
    match m with
    | Ok a => Ok a
    | Raise e => if caught e then h else Raise e
    end.

  (** Run an effectful function over a list, left to right; the first
      exception aborts the traversal (a generator consumed by [sum]). *)
Fixpoint mapM {A B} (f : A -> result B) (l : list A) : result (list B) :=
    match l with
    | [] => Ok []
    | x :: xs =>
        bind (f x) (fun y => bind (mapM f xs) (fun ys => Ok (y :: ys)))
    end.

  (** *** Characters and strings (ASCII; [str.lower] on other code points is
      not modelled) *)

Definition is_upper (c : ascii) : bool :=
    let n := nat_of_ascii c in (65 <=? n)%nat && (n <=? 90)%nat.

Definition lower_ascii (c : ascii) : ascii :=
    if is_upper c then ascii_of_nat (nat_of_ascii c + 32) else c.

  (** [s.lower()] *)
Fixpoint lower (s : string) : string :=
    match s with
    | EmptyString => EmptyString
    | String c s' => String (lower_ascii c) (lower s')
    end.

  (** [s.startswith(p)] *)
Definition startswith (s p : string) : bool := String.prefix p s.

  (** [p in s] *)
Fixpoint contains (p s : string) : bool :=
    String.prefix p s ||
    match s with
    | EmptyString => false
    | String _ s' => contains p s'
    end.

  (** [s.endswith(suf)] *)
Fixpoint endswith (s suf : string) : bool :=
    String.eqb s suf ||
    match s with
    | EmptyString => false
    | String _ s' => endswith s' suf
    end.

  (** [s.replace(old, new)] for a non-empty [old]: occurrences are replaced
      left to right and do not overlap; [skip] counts the characters of an
      occurrence still to be passed over. *)
Fixpoint replace_go (old new : string) (skip : nat) (s : string) : string :=
    match s with
    | EmptyString => EmptyString
    | String c s' =>
        match skip with
        | S k => replace_go old new k s'
        | O =>
            if String.prefix old s
            then new +:+ replace_go old new (String.length old - 1) s'
            else String c (replace_go old new 0 s')
        end
    end.

Definition replace (s old new : string) : string := replace_go old new 0 s.

  (** [bool(s)]: a string is truthy unless empty. *)
Definition truthy (s : string) : bool :=
    match s with EmptyString => false | _ => true end.

  (** *** Numbers *)

  (** A Python number: [int] or [float]. *)
Inductive pynum : Type :=
  | PInt (z : Z)
  | PFloat (f : float).

  (** [float(z)] for an [int]: exact below 2^53, which counts, hours and day
      differences never reach. *)
Definition float_of_Z (z : Z) : float :=
    match z with
    | Z0 => 0%float
    | Zpos _ => PrimFloat.of_uint63 (Uint63.of_Z z)
    | Zneg _ => PrimFloat.opp (PrimFloat.of_uint63 (Uint63.of_Z (- z)))
    end.

  (** [a / b] on two [int]s: true division, [ZeroDivisionError] on [b = 0]. *)
Definition truediv (a b : Z) : result pynum :=
    if b =? 0 then Raise ZeroDivisionError
    else Ok (PFloat (PrimFloat.div (float_of_Z a) (float_of_Z b))).

  (** [str.isspace] on ASCII. *)
Definition is_space (c : ascii) : bool :=
    let n := nat_of_ascii c in
    (n =? 32)%nat || ((9 <=? n)%nat && (n <=? 13)%nat)
    || ((28 <=? n)%nat && (n <=? 31)%nat).

Fixpoint lstrip (s : string) : string :=
    match s with
    | EmptyString => EmptyString
    | String c s' => if is_space c then lstrip s' else s
    end.

Fixpoint rstrip (s : string) : string :=
    match s with
    | EmptyString => EmptyString
    | String c s' =>
        let r := rstrip s' in
        match r with
        | EmptyString => if is_space c then EmptyString else String c r
        | _ => String c r
        end
    end.

  (** [s.strip()] *)
Definition strip (s : string) : string := lstrip (rstrip s).

Definition is_digit (c : ascii) : bool :=
    let n := nat_of_ascii c in (48 <=? n)%nat && (n <=? 57)%nat.

Definition digit_val (c : ascii) : Z := Z.of_nat (nat_of_ascii c) - 48.

  (** The digit part of an integer literal: digits, with single underscores
      between digits.  [prev] tells whether the previous character was a
      digit. *)
Fixpoint digits_go (acc : Z) (prev : bool) (s : string) : option Z :=
    match s with
    | EmptyString => if prev then Some acc else None
    | String c s' =>
        if is_digit c then digits_go (10 * acc + digit_val c) true s'
        else if Ascii.eqb c "_"%char && prev then digits_go acc false s'
        else None
    end.

  (** [int(s)] for a [str] (base 10, ASCII digits): surrounding white space,
      an optional sign, then the digit part; anything else is a
      [ValueError]. *)
Definition int_of_str (s : string) : result Z :=
    let of_opt (sign : Z) (o : option Z) :=
      match o with Some n => Ok (sign * n) | None => Raise ValueError end in
    match strip s with
    | String "+"%char r => of_opt 1 (digits_go 0 false r)
    | String "-"%char r => of_opt (-1) (digits_go 0 false r)
    | r => of_opt 1 (digits_go 0 false r)
    end.

  (** *** [os.path] (posixpath) *)

Definition sep : ascii := "/"%char.

Definition is_sep (c : ascii) : bool := Ascii.eqb c sep.

  (** A string without a path separator. *)
Fixpoint no_sep (s : string) : bool :=
    match s with
    | EmptyString => true
    | String c s' => negb (is_sep c) && no_sep s'
    end.

  (** [os.path.join(a, b)] *)
Definition path_join (a b : string) : string :=
    if startswith b "/" then b
    else if negb (truthy a) || endswith a "/" then a +:+ b
    else a +:+ "/" +:+ b.

  (** [head, tail = p[:i], p[i:]] with [i = p.rfind('/') + 1] *)
Fixpoint rsplit_sep (p : string) : string * string :=
    match p with
    | EmptyString => (EmptyString, EmptyString)
    | String c p' =>
        let '(h, t) := rsplit_sep p' in
        if truthy h then (String c h, t)
        else if is_sep c then (String c EmptyString, t)
        else (EmptyString, String c t)
    end.

  (** [s.rstrip('/')] *)
Fixpoint rstrip_sep (s : string) : string :=
    match s with
    | EmptyString => EmptyString
    | String c s' =>
        let r := rstrip_sep s' in
        if is_sep c && negb (truthy r) then EmptyString else String c r
    end.

  (** [os.path.split(p)]: the head loses its trailing slashes unless it
      consists of slashes only. *)
Definition path_split (p : string) : string * string :=
    let '(head, tail) := rsplit_sep p in
    if truthy head && truthy (rstrip_sep head) then (rstrip_sep head, tail)
    else (head, tail).

  (** [os.path.basename(p)] *)
Definition basename (p : string) : string := snd (rsplit_sep p).

  (** [glob.has_magic]: the pattern characters of [glob]. *)
Definition has_magic (s : string) : bool :=
    contains "*" s || contains "?" s || contains "[" s.

  (** [glob.glob(os.path.join(folder, '*.csv'))] for a [folder] that is a
      literal directory ([has_magic folder = false]) whose listing is
      [names]: hidden names are skipped, [fnmatch] keeps the names that end
      in [.csv], and every match is joined to the pattern's directory part. *)
Definition ishidden (name : string) : bool := startswith name ".".

Definition glob_csv (folder : string) (names : list string) : list string :=
    let '(dirname, _) := path_split (path_join folder "*.csv") in
    map (path_join dirname)
        (filter (fun x => negb (ishidden x) && endswith x ".csv") names).

  (** A directory entry's name is not empty and holds no separator. *)
Definition entry_name (name : string) : bool :=
    truthy name && negb (contains "/" name).

  (** *** [dict]: insertion-ordered, one entry per key *)
Section Dict.
Context {K V : Type} `{EqDecision K}.

    (** [d.get(k)] *)
Fixpoint dict_get (k : K) (d : list (K * V)) : option V :=
      match d with
      | [] => None
      | (k', v) :: d' => if decide (k = k') then Some v else dict_get k d'
      end.

    (** [d[k] = v]: an existing key keeps its place. *)
Fixpoint dict_set (k : K) (v : V) (d : list (K * V)) : list (K * V) :=
      match d with
      | [] => [(k, v)]
      | (k', v') :: d' =>
          if decide (k = k') then (k, v) :: d' else (k', v') :: dict_set k v d'
      end.

    (** [dict(pairs)] *)
Definition dict_of_pairs (pairs : list (K * V)) : list (K * V) :=
      fold_left (fun d kv => dict_set kv.1 kv.2 d) pairs [].
End Dict.

  (** [c[k] += 1] on a [Counter] or a [defaultdict(int)] *)
Definition counter_incr {K} `{EqDecision K} (k : K) (c : list (K * Z))
    : list (K * Z) :=
    dict_set k (default 0 (dict_get k c) + 1) c.

  (** [Counter(iterable)] *)
Definition Counter {K} `{EqDecision K} (l : list K) : list (K * Z) :=
    fold_left (fun c k => counter_incr k c) l [].

End Py.

#[global] Instance result_ret : MRet Py.result := @Py.Ok.
#[global] Instance result_bind : MBind Py.result := fun A B k m => Py.bind m k.



(** ** pandas: columns with missing values, [cut], [groupby] *)
Module Pandas.

  (** A float64 cell; NaN is the missing marker. *)
Definition isna (x : float) : bool := negb (PrimFloat.eqb x x).

  (** [Series.dropna()] *)
Definition dropna (l : list float) : list float :=
    filter (fun x => negb (isna x)) l.

  (** [Series.sum()] ([skipna=True], [min_count=0]): missing cells count as
      nothing and an empty selection sums to 0.  (numpy adds pairwise; the
      order of the additions is not modelled.) *)
Definition sum (l : list float) : float :=
    fold_left PrimFloat.add (dropna l) 0%float.

  (** [Series.count()]: the number of cells that are not missing. *)
Definition count {A} (l : list (option A)) : nat :=
    length (filter (fun o => bool_decide (is_Some o)) l).

  (** [Series.nunique()]: the number of distinct values, missing ones apart. *)
Definition nunique {A} `{EqDecision A} (l : list (option A)) : nat :=
    length (remove_dups (omap id l)).

  (** [Series.mean()] of an integer column with missing cells. *)
Definition mean_int (l : list (option Z)) : float :=
    let xs := omap id l in
    PrimFloat.div (Py.float_of_Z (foldr Z.add 0 xs))
                  (Py.float_of_Z (Z.of_nat (length xs))).

  (** *** [pd.cut] *)

  (** A bin edge: a number or [float('inf')]. *)
Inductive edge : Type :=
  | Fin (z : Z)
  | Inf.

Definition edge_ltb (e : edge) (x : Z) : bool :=
    match e with
    | Fin b => b <? x
    | Inf => false
    end.

  (** [bins.searchsorted(x, side='left')] on increasing bins: the index of
      the first edge that is not below [x]. *)
Fixpoint searchsorted_left (bins : list edge) (x : Z) : nat :=
    match bins with
    | [] => O
    | b :: bs => if edge_ltb b x then S (searchsorted_left bs x) else O
    end.

  (** [pd.cut(x, bins=bins, labels=labels)] ([right=True],
      [include_lowest=False]) on one cell: bin [i] is the interval
      [(bins[i], bins[i+1]]]; a missing cell, a value at or below the first
      edge and a value above the last edge get no label (NaN). *)
Definition cut (bins : list edge) (labels : list string) (x : option Z)
    : option string :=
    match x with
    | None => None
    | Some v =>
        let ids := searchsorted_left bins v in
        if (ids =? 0)%nat || (ids =? length bins)%nat then None
        else labels !! (ids - 1)%nat
    end.

  (** *** [groupby] *)
Section GroupBy.
Context {Row K : Type} `{EqDecision K}.
    (** The grouping column; [None] is a missing key. *)
Variable key : Row -> option K.
    (** The order the group keys are sorted in. *)
Variable le : K -> K -> Prop.
Context `{!RelDecision le}.

    (** The rows of one group, in frame order. *)
Definition group_rows (df : list Row) (k : K) : list Row :=
      filter (fun r => key r = Some k) df.

    (** [df.groupby(key)] ([sort=True], [dropna=True]): one group per key
        value that occurs, keys sorted; rows whose key is missing belong to
        no group. *)
Definition groupby (df : list Row) : list (K * list Row) :=
      map (fun k => (k, group_rows df k))
          (merge_sort le (remove_dups (omap key df))).

    (** [df.groupby(c, observed=observed)] for a categorical grouper [c]
        with the given categories: with [observed=False] every category is a
        group, with [observed=True] only the categories that occur. *)
Definition groupby_categorical (categories : list K) (observed : bool)
        (df : list Row) : list (K * list Row) :=
      map (fun k => (k, group_rows df k))
          (if observed
           then filter (fun k => Some k ∈ map key df) categories
           else categories).
End GroupBy.

  (** Before pandas 3.0 a [groupby] that is given a categorical grouper and
      no [observed] argument uses [observed=False]; the code base was written
      against that default ([dashboard.py] passes [observed=True] where it
      wants the other behaviour). *)
Definition observed_default : bool := false.

  (** [df.nlargest(n, col)] ([keep='first']): the first [n] rows of the frame
      sorted by [col], largest first, ties in frame order. *)
Definition nlargest {Row} (n : nat) (col : Row -> float) (df : list Row)
    : list Row :=
    take n (merge_sort (fun a b => Is_true (PrimFloat.leb (col b) (col a))) df).

  (** [df.nsmallest(n, col)] *)
Definition nsmallest {Row} (n : nat) (col : Row -> float) (df : list Row)
    : list Row :=
    take n (merge_sort (fun a b => Is_true (PrimFloat.leb (col a) (col b))) df).

  (** Orders of the key types used below. *)
Definition str_le (a b : string) : Prop := Is_true (String.leb a b).

Definition pair_le (a b : Z * string) : Prop :=
    a.1 < b.1 \/ (a.1 = b.1 /\ str_le a.2 b.2).

Definition triple_le (a b : Z * string * string) : Prop :=
    a.1 <> b.1 /\ pair_le a.1 b.1 \/ (a.1 = b.1 /\ str_le a.2 b.2).

#[global] Instance str_le_dec : RelDecision str_le.
  Proof. intros a b; unfold str_le; apply _. Defined.

#[global] Instance pair_le_dec : RelDecision pair_le.
  Proof. intros a b; unfold pair_le; apply _. Defined.

#[global] Instance triple_le_dec : RelDecision triple_le.
  Proof. intros a b; unfold triple_le; apply _. Defined.

End Pandas.

(** ** The transaction table of the pandas modules *)
Module Frame.

  (** A cell of a CSV column that mixes numbers and text. *)
Inductive cell : Type :=
  | CNum (f : float)
  | CStr (s : string).

  (** A row as [pd.read_csv] delivers it, tagged with its file's day.  Dates
      are given by the instant they parse to, in seconds ([pd.to_datetime]'s
      own parsing is the library's); [None] is an empty cell. *)
Record csv_row : Type := {
    csv_Order_ID : option string;
    csv_Order_date : option Z;
    csv_Event_start_date : option Z;
    csv_Event_name : option string;
    csv_Buyer_email : option string;
    csv_Purchaser_city : option string;
    csv_Purchaser_state : option string;
    csv_Payment_type : option string;
    csv_Ticket_quantity : float;
    csv_Gross_sales : cell;
    csv_day_of_week : string }.

  (** A row of [self.df] after [prepare_data] (the columns the modelled
      functions read). *)
Record row : Type := {
    Order_ID : option string;
    Order_date : option Z;
    Event_start_date : option Z;
    Event_name : option string;
    Buyer_email : option string;
    Purchaser_city : option string;
    Purchaser_state : option string;
    Payment_type : option string;
    Ticket_quantity : float;
    Gross_sales : float;
    day_of_week : string;
    days_before_event : option Z;
    customer_id : option string }.

Definition set_day (day : string) (r : csv_row) : csv_row :=
    {| csv_Order_ID := csv_Order_ID r;
       csv_Order_date := csv_Order_date r;
       csv_Event_start_date := csv_Event_start_date r;
       csv_Event_name := csv_Event_name r;
       csv_Buyer_email := csv_Buyer_email r;
       csv_Purchaser_city := csv_Purchaser_city r;
       csv_Purchaser_state := csv_Purchaser_state r;
       csv_Payment_type := csv_Payment_type r;
       csv_Ticket_quantity := csv_Ticket_quantity r;
       csv_Gross_sales := csv_Gross_sales r;
       csv_day_of_week := day |}.

  (** [pd.to_numeric(col, errors='coerce')] on one cell, for the library's
      number parser [parse]: text that does not parse becomes NaN. *)
Definition to_numeric_coerce (parse : string -> option float) (c : cell)
    : float :=
    match c with
    | CNum f => f
    | CStr s => match parse s with Some f => f | None => nan end
    end.

  (** [(Event start date - Order date).dt.days]: whole days, rounded down;
      missing when either date is. *)
Definition days_between (event order : option Z) : option Z :=
    match event, order with
    | Some e, Some o => Some ((e - o) / 86400)
    | _, _ => None
    end.

  (** [pd.concat(dataframes, ignore_index=True)] *)
Definition concat {A} (dataframes : list (list A)) : Py.result (list A) :=
    match dataframes with
    | [] => Py.Raise Py.ValueError
    | _ => Py.Ok (List.concat dataframes)
    end.

End Frame.

(** ** show_insights.py *)
Module ShowInsights.
Import Frame.

Section Load.
    (** [pd.read_csv] by path, and the number parser of [pd.to_numeric]. *)
Variable read_csv : string -> list csv_row.
Variable parse : string -> option float.

    (** [prepare_data], one row. *)
Definition prepare_row (r : csv_row) : row :=
      {| Order_ID := csv_Order_ID r;
         Order_date := csv_Order_date r;
         Event_start_date := csv_Event_start_date r;
         Event_name := csv_Event_name r;
         Buyer_email := csv_Buyer_email r;
         Purchaser_city := csv_Purchaser_city r;
         Purchaser_state := csv_Purchaser_state r;
         Payment_type := csv_Payment_type r;
         Ticket_quantity := csv_Ticket_quantity r;
         Gross_sales := to_numeric_coerce parse (csv_Gross_sales r);
         day_of_week := csv_day_of_week r;
         days_before_event :=
           days_between (csv_Event_start_date r) (csv_Order_date r);
         customer_id := Py.lower <$> csv_Buyer_email r |}.

Definition prepare_data (df : list csv_row) : list row :=
      map prepare_row df.

    (** The files [load_data] reads: the loop's test is applied to each path
        [glob] returns. *)
Definition selected_files (data_folder : string) (names : list string)
      : list string :=
      filter (fun file => Py.endswith file ".csv"
                          && negb (Py.contains "eda" (Py.lower file)))
             (Py.glob_csv data_folder names).

    (** [load_data], for a data folder whose listing is [names]. *)
Definition load_data (data_folder : string) (names : list string)
      : Py.result (list row) :=
      let dataframes :=
        map (fun file =>
               let day_name := Py.replace (Py.basename file) ".csv" "" in
               map (set_day day_name) (read_csv file))
            (selected_files data_folder names) in
      df ← concat dataframes;
      mret (prepare_data df).
End Load.

  (** One entry of [show_results]. *)
Record show_result : Type := {
    date : Z;
    day : string;
    orders : Z;
    revenue : float;
    customers : nat;
    avg_days_before : float;
    same_day_rate : Py.pynum;
    free_rate : Py.pynum }.

  (** The body of the loop of [analyze_individual_shows] for one group. *)
Definition show_entry (event_date : Z) (day_of_week : string)
      (show_data : list row) : Py.result show_result :=
    let total_orders := Z.of_nat (length show_data) in
    let total_revenue := Pandas.sum (map Gross_sales show_data) in
    let unique_customers := Pandas.nunique (map customer_id show_data) in
    let avg_days_before := Pandas.mean_int (map days_before_event show_data) in
    let same_day_purchases :=
      Z.of_nat (length (filter (fun r => days_before_event r = Some 0) show_data)) in
    let free_tickets :=
      Z.of_nat (length (filter (fun r => Payment_type r = Some "Free") show_data)) in
    same_day ← (if 0 <? total_orders
                then Py.truediv same_day_purchases total_orders
                else mret (Py.PInt 0));
    free ← (if 0 <? total_orders
            then Py.truediv free_tickets total_orders
            else mret (Py.PInt 0));
    mret {| date := event_date; day := day_of_week; orders := total_orders;
            revenue := total_revenue; customers := unique_customers;
            avg_days_before := avg_days_before;
            same_day_rate := same_day; free_rate := free |}.

  (** The order of [show_results.sort(key=orders, reverse=True)]. *)
Definition more_orders (a b : show_result) : Prop := orders b <= orders a.

#[global] Instance more_orders_dec : RelDecision more_orders.
  Proof. intros a b; unfold more_orders; apply _. Defined.

Definition show_key (r : row) : option (Z * string) :=
    d ← Event_start_date r; Some (d, day_of_week r).

  (** [analyze_individual_shows]: the list it returns, sorted by orders,
      largest first (the printing is not modelled). *)
Definition analyze_individual_shows (df : list row)
    : Py.result (list show_result) :=
    show_results ← Py.mapM (fun g => show_entry g.1.1 g.1.2 g.2)
                           (Pandas.groupby show_key Pandas.pair_le df);
    mret (merge_sort more_orders show_results).

  (** One row of [customer_analysis] in [repeat_customer_case_studies]. *)
Record customer : Type := {
    cust_id : string;
    total_orders : nat;
    total_tickets : float;
    total_spent : float;
    first_order : option Z;
    last_order : option Z;
    days_attended : list string;
    state : option string;
    city : option string }.

  (** min / max of a date column, missing cells apart. *)
Definition date_min (l : list (option Z)) : option Z :=
    match omap id l with
    | [] => None
    | x :: xs => Some (foldr Z.min x xs)
    end.

Definition date_max (l : list (option Z)) : option Z :=
    match omap id l with
    | [] => None
    | x :: xs => Some (foldr Z.max x xs)
    end.

  (** ['first']: the first cell that is not missing. *)
Definition first {A} (l : list (option A)) : option A :=
    head (omap id l).

Definition customer_entry (g : string * list row) : customer :=
    {| cust_id := g.1;
       total_orders := Pandas.count (map Order_ID g.2);
       total_tickets := Pandas.sum (map Ticket_quantity g.2);
       total_spent := Pandas.sum (map Gross_sales g.2);
       first_order := date_min (map Event_start_date g.2);
       last_order := date_max (map Event_start_date g.2);
       days_attended := remove_dups (map day_of_week g.2);
       state := first (map Purchaser_state g.2);
       city := first (map Purchaser_city g.2) |}.

Definition customer_analysis (df : list row) : list customer :=
    map customer_entry (Pandas.groupby customer_id Pandas.str_le df).

  (** [repeat_customers] of [repeat_customer_case_studies]: the customers
      the case studies are drawn from ("3+ orders"). *)
Definition repeat_customers (df : list row) : list customer :=
    filter (fun c => (3 <= total_orders c)%nat) (customer_analysis df).

Definition top_spenders (df : list row) : list customer :=
    Pandas.nlargest 3 total_spent (repeat_customers df).

Definition most_frequent (df : list row) : list customer :=
    Pandas.nlargest 3 (fun c => Py.float_of_Z (Z.of_nat (total_orders c)))
                    (repeat_customers df).

  (** The labels and edges of the booking windows. *)
Definition booking_bins : list Pandas.edge :=
    [Pandas.Fin (-1); Pandas.Fin 0; Pandas.Fin 1; Pandas.Fin 3; Pandas.Fin 7;
     Pandas.Fin 14; Pandas.Fin 30; Pandas.Inf].

Definition booking_labels : list string :=
    ["Same Day"; "1 Day"; "2-3 Days"; "4-7 Days"; "1-2 Weeks"; "2-4 Weeks";
     "1+ Month"].

  (** [booking_windows] of [controllable_variables_analysis], one cell. *)
Definition booking_window (d : option Z) : option string :=
    Pandas.cut booking_bins booking_labels d.

Definition booking_windows (df : list row) : list (option string) :=
    map (fun r => booking_window (days_before_event r)) df.

  (** One row of [booking_analysis]. *)
Record booking_row : Type := {
    window : string;
    window_orders : nat;
    window_gross : float }.

Definition booking_entry (g : string * list row) : booking_row :=
    {| window := g.1;
       window_orders := Pandas.count (map Order_ID g.2);
       window_gross := Pandas.sum (map Gross_sales g.2) |}.

  (** [booking_analysis]: [self.df.groupby(booking_windows).agg(...)], the
      grouper being the categorical [pd.cut] returns; no [observed]
      argument is given. *)
Definition booking_analysis (df : list row) : list booking_row :=
    map booking_entry
        (Pandas.groupby_categorical
           (fun r => booking_window (days_before_event r))
           booking_labels Pandas.observed_default df).

(** Customer acquisition against retention in
    [controllable_variables_analysis]: [customer_orders] is the
    [value_counts] of [customer_id]. *)
Definition customer_order_counts (df : list row) : list (string * Z) :=
  Py.Counter (omap id (map customer_id df)).

Definition new_customers (df : list row) : Z :=
  Z.of_nat (length (filter (fun kv => kv.2 = 1) (customer_order_counts df))).

Definition returning_customers (df : list row) : Z :=
  Z.of_nat (length (filter (fun kv => 1 < kv.2) (customer_order_counts df))).

(** The two shares the function prints,
    [new_customers/(new_customers+returning_customers)*100] and the same
    for the returning customers. *)
Definition customer_shares (df : list row) : Py.result (float * float) :=
  let total := new_customers df + returning_customers df in
  let percent (q : Py.pynum) : float :=
    match q with
    | Py.PFloat f => PrimFloat.mul f 100%float
    | Py.PInt z => Py.float_of_Z (z * 100)
    end in
  a ← Py.truediv (new_customers df) total;
  b ← Py.truediv (returning_customers df) total;
  mret (percent a, percent b).

End ShowInsights.

(** ** show_level_analysis.py *)
Module ShowLevelAnalysis.
Import Frame.

Section Load.
Variable read_csv : string -> list csv_row.
Variable parse : string -> option float.

    (** [prepare_data]: on the modelled columns it computes what
        [ShowInsights.prepare_data] computes (the calendar columns and
        [show_id] it adds are read by no modelled function). *)
Definition prepare_data (df : list csv_row) : list row :=
      map (ShowInsights.prepare_row parse) df.

Definition selected_files (data_folder : string) (names : list string)
      : list string :=
      filter (fun file => Py.endswith file ".csv"
                          && negb (Py.contains "eda" (Py.lower file)))
             (Py.glob_csv data_folder names).

Definition load_data (data_folder : string) (names : list string)
      : Py.result (list row) :=
      let dataframes :=
        map (fun file =>
               let day_name := Py.replace (Py.basename file) ".csv" "" in
               map (set_day day_name) (read_csv file))
            (selected_files data_folder names) in
      df ← concat dataframes;
      mret (prepare_data df).
End Load.

  (** An entry of [show_analysis] (the geographic fields [top_state] and
      [state_concentration] are left out). *)
Record show_metrics : Type := {
    event_date : Z;
    show_day : string;
    event_name : string;
    total_orders : Z;
    total_tickets : float;
    total_revenue : float;
    unique_customers : Z;
    avg_order_value : Py.pynum;
    tickets_per_order : Py.pynum;
    avg_days_before : float;
    same_day_purchases : Z;
    same_day_rate : Py.pynum;
    advance_purchases : Z;
    advance_rate : Py.pynum;
    repeat_customers : Z;
    repeat_rate : Py.pynum;
    free_tickets : Z;
    free_rate : Py.pynum;
    paid_tickets : Z }.

  (** [value_counts()]: the distinct values with their counts, missing
      values apart. *)
Definition value_counts (l : list (option string)) : list (string * Z) :=
    Py.Counter (omap id l).

Definition ge_opt (n : Z) (d : option Z) : bool :=
    match d with Some v => n <=? v | None => false end.

  (** The body of the loop of [analyze_individual_shows] for one group. *)
Definition show_entry (key : Z * string * string) (show_data : list row)
    : Py.result show_metrics :=
    let total_orders := Z.of_nat (length show_data) in
    let total_tickets := Pandas.sum (map Ticket_quantity show_data) in
    let total_revenue := Pandas.sum (map Gross_sales show_data) in
    let unique_customers :=
      Z.of_nat (Pandas.nunique (map customer_id show_data)) in
    let avg_days_before := Pandas.mean_int (map days_before_event show_data) in
    let same_day_purchases :=
      Z.of_nat (length (filter (fun r => days_before_event r = Some 0) show_data)) in
    let advance_purchases :=
      Z.of_nat (length (filter (fun r => ge_opt 7 (days_before_event r)) show_data)) in
    let customer_orders := value_counts (map customer_id show_data) in
    let repeat_customers_for_show :=
      Z.of_nat (length (filter (fun kv => 1 <? kv.2) customer_orders)) in
    let free_tickets :=
      Z.of_nat (length (filter (fun r => Payment_type r = Some "Free") show_data)) in
    let paid_tickets := total_orders - free_tickets in
    let per_order (x : float) : Py.pynum :=
      if 0 <? total_orders
      then Py.PFloat (PrimFloat.div x (Py.float_of_Z total_orders))
      else Py.PInt 0 in
    same_day ← (if 0 <? total_orders
                then Py.truediv same_day_purchases total_orders
                else mret (Py.PInt 0));
    advance ← (if 0 <? total_orders
               then Py.truediv advance_purchases total_orders
               else mret (Py.PInt 0));
    repeat ← (if 0 <? unique_customers
              then Py.truediv repeat_customers_for_show unique_customers
              else mret (Py.PInt 0));
    free ← (if 0 <? total_orders
            then Py.truediv free_tickets total_orders
            else mret (Py.PInt 0));
    mret {| event_date := key.1.1; show_day := key.1.2; event_name := key.2;
            total_orders := total_orders; total_tickets := total_tickets;
            total_revenue := total_revenue;
            unique_customers := unique_customers;
            avg_order_value := per_order total_revenue;
            tickets_per_order := per_order total_tickets;
            avg_days_before := avg_days_before;
            same_day_purchases := same_day_purchases;
            same_day_rate := same_day;
            advance_purchases := advance_purchases;
            advance_rate := advance;
            repeat_customers := repeat_customers_for_show;
            repeat_rate := repeat;
            free_tickets := free_tickets;
            free_rate := free;
            paid_tickets := paid_tickets |}.

Definition show_key (r : row) : option (Z * string * string) :=
    d ← Event_start_date r; n ← Event_name r; Some (d, day_of_week r, n).

  (** [analyze_individual_shows]: the dict [show_analysis], keyed by event
      date and day (a later group with the same date and day replaces an
      earlier one). *)
Definition analyze_individual_shows (df : list row)
    : Py.result (list (Z * string * show_metrics)) :=
    entries ← Py.mapM (fun g => m ← show_entry g.1 g.2; mret (g.1.1, m))
                      (Pandas.groupby show_key Pandas.triple_le df);
    mret (Py.dict_of_pairs entries).

  (** [repeat_customers] of [identify_repeat_customer_case_studies]. *)
Definition repeat_customers_table (df : list row) : list ShowInsights.customer :=
    filter (fun c => (3 <= ShowInsights.total_orders c)%nat)
           (ShowInsights.customer_analysis df).

  (** One row of [booking_analysis]. *)
Record booking_row : Type := {
    window : string;
    window_orders : nat;
    window_tickets : float;
    window_gross : float }.

Definition booking_entry (g : string * list row) : booking_row :=
    {| window := g.1;
       window_orders := Pandas.count (map Order_ID g.2);
       window_tickets := Pandas.sum (map Ticket_quantity g.2);
       window_gross := Pandas.sum (map Gross_sales g.2) |}.

Definition booking_window (d : option Z) : option string :=
    Pandas.cut
      [Pandas.Fin (-1); Pandas.Fin 0; Pandas.Fin 1; Pandas.Fin 3; Pandas.Fin 7;
       Pandas.Fin 14; Pandas.Fin 30; Pandas.Inf]
      ["Same Day"; "1 Day"; "2-3 Days"; "4-7 Days"; "1-2 Weeks"; "2-4 Weeks";
       "1+ Month"] d.

  (** [booking_analysis] of [controllable_variables_analysis]; no
      [observed] argument is given. *)
Definition booking_analysis (df : list row) : list booking_row :=
    map booking_entry
        (Pandas.groupby_categorical
           (fun r => booking_window (days_before_event r))
           ShowInsights.booking_labels Pandas.observed_default df).

(** [self.df['customer_id'] == row['customer_id']] on one cell: a missing
    value equals nothing, itself included. *)
Definition cell_eq (a b : option string) : bool :=
  match a, b with
  | Some x, Some y => String.eqb x y
  | _, _ => false
  end.

Inductive customer_type : Type :=
| New
| Returning.

(** The body of the loop over [self.df.iterrows()] in
    [controllable_variables_analysis]: the label of one row. *)
Definition customer_type_of (df : list row) (r : row) : customer_type :=
  let customer_orders :=
    length (filter (fun r' => cell_eq (customer_id r') (customer_id r)) df) in
  if (customer_orders =? 1)%nat then New else Returning.

(** The column [customer_type]. *)
Definition customer_types (df : list row) : list customer_type :=
  map (customer_type_of df) df.

End ShowLevelAnalysis.

(** ** dashboard.py *)
Module Dashboard.
Import Frame.

  (** One row of [booking_analysis] in [show_overview_analysis]. *)
Record booking_row : Type := {
    window : string;
    window_orders : nat;
    window_gross : float;
    avg_order_value : float }.

Definition booking_entry (g : string * list row) : booking_row :=
    let n := Pandas.count (map Order_ID g.2) in
    let gross := Pandas.sum (map Gross_sales g.2) in
    {| window := g.1;
       window_orders := n;
       window_gross := gross;
       avg_order_value := PrimFloat.div gross (Py.float_of_Z (Z.of_nat n)) |}.

  (** [booking_analysis] of [show_overview_analysis]:
      [groupby(booking_windows, observed=True)]. *)
Definition booking_analysis (df : list row) : list booking_row :=
    map booking_entry
        (Pandas.groupby_categorical
           (fun r => ShowInsights.booking_window (days_before_event r))
           ShowInsights.booking_labels true df).

  (** [repeat_customers] of [show_customer_analysis]. *)
Definition repeat_customers (df : list row) : list ShowInsights.customer :=
    filter (fun c => (3 <= ShowInsights.total_orders c)%nat)
           (ShowInsights.customer_analysis df).

  (** The "Repeat Rate" metric: [len(repeat_customers) / total_customers * 100]. *)
Definition repeat_rate (df : list row) : Py.result float :=
    let total_customers := Z.of_nat (Pandas.nunique (map customer_id df)) in
    q ← Py.truediv (Z.of_nat (length (repeat_customers df))) total_customers;
    match q with
    | Py.PFloat f => mret (PrimFloat.mul f 100%float)
    | Py.PInt z => mret (Py.float_of_Z (z * 100))
    end.

End Dashboard.

(** ** numpy and scipy: the routines [advanced_time_series.py] calls *)
Module Scipy.

  (** *** float64 arrays *)

  (** [a.mean()] and [a.std()] ([ddof=0]); numpy sums pairwise, the order of
      the additions is not modelled. *)
Definition np_sum (a : list float) : float :=
    fold_left PrimFloat.add a 0%float.

Definition np_mean (a : list float) : float :=
    PrimFloat.div (np_sum a) (Py.float_of_Z (Z.of_nat (length a))).

Definition np_std (a : list float) : float :=
    let mn := np_mean a in
    PrimFloat.sqrt
      (np_mean (map (fun x => let d := PrimFloat.sub x mn in PrimFloat.mul d d) a)).

  (** [np.minimum] on two cells: a NaN wins. *)
Definition fmin (x y : float) : float :=
    if Pandas.isna x then x
    else if Pandas.isna y then y
    else if PrimFloat.ltb y x then y else x.

  (** [a.min()] of an array that is not empty. *)
Definition np_min (a : list float) : float :=
    match a with
    | [] => nan
    | x :: xs => fold_left fmin xs x
    end.

  (** [scipy.stats.zmap(scores, compare)] ([axis=0], [ddof=0],
      [nan_policy='propagate']): an empty [compare] gives an empty result;
      when all of [compare] equals its minimum the deviation is set to 1 and
      every output to NaN. *)
Definition zmap (scores compare : list float) : list float :=
    match compare with
    | [] => []
    | _ =>
        let mn := np_mean compare in
        let std := np_std compare in
        let a0 := np_min compare in
        let isconst := forallb (fun x => PrimFloat.eqb x a0) compare in
        let std := if isconst then 1%float else std in
        let z := map (fun s => PrimFloat.div (PrimFloat.sub s mn) std) scores in
        if isconst then map (fun _ => nan) z else z
    end.

  (** [scipy.stats.zscore(a)] *)
Definition zscore (a : list float) : list float := zmap a a.

  (** *** The Savitzky-Golay filter in exact arithmetic

      [savgol_filter(x, window_length, polyorder)] ([mode='interp']) replaces
      each value by the value there of the least-squares polynomial through
      the window around it; the first and last half-windows use the fit
      through the first and the last [window_length] points.  scipy computes
      this in float64; the definition below is its real-number meaning, over
      [Q]. *)

Definition sumQ (l : list Q) : Q := fold_right (fun x acc => Qred (x + acc)) 0%Q l.

Definition dotQ (a b : list Q) : Q := sumQ (zip_with Qmult a b).

  (** Gaussian elimination on the augmented rows of a system whose pivots do
      not vanish (normal equations are positive definite). *)
Fixpoint solve (n : nat) (rows : list (list Q)) : list Q :=
    match n, rows with
    | S n', (p :: r) :: rs =>
        let r_norm := map (fun a => Qred (a / p)) r in
        let rs' :=
          map (fun row =>
                 match row with
                 | a :: row' => zip_with (fun x y => Qred (x - a * y)) row' r_norm
                 | [] => []
                 end) rs in
        let sol := solve n' rs' in
        Qred (List.last r_norm 0%Q - dotQ (removelast r_norm) sol) :: sol
    | _, _ => []
    end.

Definition zpow (t : Z) (k : nat) : Q := inject_Z (t ^ Z.of_nat k).

  (** [np.polyfit(range(len(ys)), ys, deg)], coefficients from the constant
      term upwards. *)
Definition polyfit (ys : list Q) (deg : nat) : list Q :=
    let ts := map Z.of_nat (seq 0 (length ys)) in
    let row (j : nat) :=
      (map (fun k => sumQ (map (fun t => zpow t (j + k)%nat) ts)) (seq 0 (S deg))
       ++ [sumQ (zip_with (fun t y => (zpow t j * y)%Q) ts ys)])%list in
    solve (S deg) (map row (seq 0 (S deg))).

Definition polyval (coeffs : list Q) (t : Z) : Q :=
    sumQ (imap (fun k c => (c * zpow t k)%Q) coeffs).

  (** The filter, with the argument checks of scipy ([polyorder] below the
      window, window within the data); a window that is not odd is refused
      as scipy did before 1.11 (later an even window is centred between two
      samples, which the dashboard's odd slider never asks for). *)
Definition savgol_filter (x : list Q) (window_length polyorder : Z)
    : Py.result (list Q) :=
    let n := Z.of_nat (length x) in
    if negb (Z.odd window_length) || (window_length <=? 0) then Py.Raise Py.ValueError
    else if window_length <=? polyorder then Py.Raise Py.ValueError
    else if n <? window_length then Py.Raise Py.ValueError
    else
      let half := window_length / 2 in
      Py.Ok (map (fun i =>
                    let i := Z.of_nat i in
                    let s := Z.max 0 (Z.min (i - half) (n - window_length)) in
                    let ys := take (Z.to_nat window_length) (drop (Z.to_nat s) x) in
                    polyval (polyfit ys (Z.to_nat polyorder)) (i - s))
                 (seq 0 (length x))).

End Scipy.

(** ** advanced_time_series.py *)
Module AdvancedTimeSeries.
Import Frame.

  (** A [pd.Series]: values with their index labels. *)
Definition series (A : Type) : Type := list (Z * A).

Definition index {A} (data : series A) : list Z := map fst data.
Definition values {A} (data : series A) : list A := map snd data.

  (** [pd.Series(arr, index=idx)]: the lengths have to agree. *)
Definition mk_series {A} (arr : list A) (idx : list Z) : Py.result (series A) :=
    if (length arr =? length idx)%nat then Py.Ok (zip idx arr)
    else Py.Raise Py.ValueError.

Section Smoothing.
    (** The element type and the library's smoothers. *)
Context {A P : Type}.
Variable rolling_mean : series A -> Z -> Py.result (series A).
Variable ewm_mean : series A -> P -> Py.result (series A).
Variable savgol_filter : list A -> Z -> Z -> Py.result (list A).

    (** [apply_smoothing(data, method, window, alpha)] *)
Definition apply_smoothing (data : series A) (method : string)
        (window : Z) (alpha : P) : Py.result (series A) :=
      if String.eqb method "rolling" then rolling_mean data window
      else if String.eqb method "exponential" then ewm_mean data alpha
      else if String.eqb method "savgol" then
        if window <? Z.of_nat (length data)
        then arr ← savgol_filter (values data) window 3;
             mk_series arr (index data)
        else mret data
      else mret data.
End Smoothing.

  (** [detect_anomalies(data, threshold)]: the mask over the entries of
      [data] that are not missing. *)
Definition detect_anomalies (data : list float) (threshold : float)
    : list bool :=
    let z_scores := map PrimFloat.abs (Scipy.zscore (Pandas.dropna data)) in
    map (fun z => PrimFloat.ltb threshold z) z_scores.

  (** One row of [customer_analysis] in [create_customer_lifecycle_gantt]. *)
Record customer : Type := {
    cust_id : string;
    first_order : option Z;
    last_order : option Z;
    total_orders : nat;
    total_spent : float;
    days_attended : list string }.

Definition customer_entry (g : string * list row) : customer :=
    {| cust_id := g.1;
       first_order := ShowInsights.date_min (map Order_date g.2);
       last_order := ShowInsights.date_max (map Order_date g.2);
       total_orders := Pandas.count (map Order_date g.2);
       total_spent := Pandas.sum (map Gross_sales g.2);
       days_attended := remove_dups (map day_of_week g.2) |}.

  (** [top_customers] of [create_customer_lifecycle_gantt(top_n, order)]:
      the customers the chart draws. *)
Definition create_customer_lifecycle_gantt (df : list row) (top_n : nat)
      (order : string) : list customer :=
    let customer_analysis :=
      map customer_entry (Pandas.groupby customer_id Pandas.str_le df) in
    let repeat_customers :=
      filter (fun c => (3 <= total_orders c)%nat) customer_analysis in
    if String.eqb order "top"
    then Pandas.nlargest top_n total_spent repeat_customers
    else Pandas.nsmallest top_n total_spent repeat_customers.

  (** [show_gantt_customer_subheader]: the chart over the frame filtered by
      the chosen show day. *)
Definition show_gantt_customer_subheader (df : list row)
      (show_filter : string) (top_n : nat) : list customer :=
    let filtered_df :=
      if negb (String.eqb show_filter "All Shows")
      then filter (fun r => day_of_week r = show_filter) df
      else df in
    create_customer_lifecycle_gantt filtered_df top_n "top".

  (** [st.sidebar.slider("Savitzky-Golay Window", 5, 21, 7, step=2)] in
      [show_advanced_time_series_tab]: the windows the slider can return. *)
Definition savgol_window_choices : list Z :=
    map (fun k => 5 + 2 * Z.of_nat k) (seq 0 9).

End AdvancedTimeSeries.

(** ** basic_analysis.py *)
Module BasicAnalysis.

  (** A row of [csv.DictReader]: column name to text. *)
Abbreviation pyrow := (gmap string string).

  (** [row.get(k, '')] *)
Definition get_str (row : pyrow) (k : string) : string :=
    default "" (row !! k).

  (** [row[k]] *)
Definition getitem (row : pyrow) (k : string) : Py.result string :=
    match row !! k with
    | Some v => Py.Ok v
    | None => Py.Raise Py.KeyError
    end.

Section Load.
    (** The rows [csv.DictReader] reads from the file at a path. *)
Variable read_rows : string -> list pyrow.

    (** [csv_files]: the test reads the file name alone. *)
Definition csv_files (names : list string) : list string :=
      filter (fun f => Py.endswith f ".csv"
                       && negb (Py.contains "eda" (Py.lower f)))
             names.

    (** [load_csv_data(data_folder)] for a folder whose listing
        ([os.listdir]) is [names]. *)
Definition load_csv_data (data_folder : string) (names : list string)
      : list pyrow :=
      flat_map
        (fun filename =>
           let filepath := Py.path_join data_folder filename in
           let day_name := Py.replace filename ".csv" "" in
           map (fun row => <["day_of_week" := day_name]> row)
               (read_rows filepath))
        (csv_files names).
End Load.

  (** *** The result dictionary *)

Inductive key : Type :=
  | KStr (s : string)
  | KInt (z : Z).

#[global] Instance key_eq_dec : EqDecision key.
  Proof. solve_decision. Defined.

Inductive scalar : Type :=
  | SNone
  | SInt (z : Z)
  | SFloat (f : float).

Inductive value : Type :=
  | Scalar (x : scalar)
  | Dict (d : list (key * scalar)).

  (** [results]: a dict from names to scalars and flat dicts. *)
Definition results : Type := list (string * value).

Definition of_num (n : Py.pynum) : scalar :=
    match n with
    | Py.PInt z => SInt z
    | Py.PFloat f => SFloat f
    end.

Definition counts_dict {K} (mk : K -> key) (c : list (K * Z)) : value :=
    Dict (map (fun kv => (mk kv.1, SInt kv.2)) c).

  (** [int(row.get('Ticket quantity', d))] *)
Definition ticket_quantity (d : Z) (row : pyrow) : Py.result Z :=
    match row !! "Ticket quantity" with
    | Some s => Py.int_of_str s
    | None => Py.Ok d
    end.

  (** [results['total_tickets']] *)
Definition total_tickets (data : list pyrow) : Py.result Z :=
    qs ← Py.mapM (ticket_quantity 0) data;
    mret (foldr Z.add 0 qs).

  (** [results['unique_customers']] *)
Definition unique_customers (data : list pyrow) : Z :=
    Z.of_nat (length (remove_dups
      (map (fun row => Py.lower (get_str row "Buyer email"))
           (filter (fun row => Py.truthy (get_str row "Buyer email")) data)))).

  (** [email = row.get('Buyer email', '').lower()] *)
Definition buyer_email (row : pyrow) : string :=
    Py.lower (get_str row "Buyer email").

  (** One pass of the customer loop over [customer_orders]. *)
Definition count_order (acc : list (string * Z)) (row : pyrow)
    : list (string * Z) :=
    let email := buyer_email row in
    if Py.truthy email then Py.counter_incr email acc else acc.

  (** [customer_orders] after the customer loop. *)
Definition customer_orders (data : list pyrow) : list (string * Z) :=
    fold_left count_order data [].

  (** [repeat_customers]: the customers with more than one order. *)
Definition repeat_customers (data : list pyrow) : Z :=
    Z.of_nat (length (filter (fun kv => 1 <? kv.2) (customer_orders data))).

  (** [results['repeat_customer_rate']] *)
Definition repeat_customer_rate (data : list pyrow) : Py.result Py.pynum :=
    let n := Z.of_nat (length (customer_orders data)) in
    if 0 <? n
    then q ← Py.truediv (repeat_customers data) n;
         match q with
         | Py.PFloat f => mret (Py.PFloat (PrimFloat.mul f 100%float))
         | Py.PInt z => mret (Py.PInt (z * 100))
         end
    else mret (Py.PInt 0).

  (** [results['avg_orders_per_customer']] *)
Definition avg_orders_per_customer (data : list pyrow) : Py.result Py.pynum :=
    let n := Z.of_nat (length (customer_orders data)) in
    if 0 <? n
    then Py.truediv (foldr Z.add 0 (map snd (customer_orders data))) n
    else mret (Py.PInt 0).

  (** [Counter.most_common(n)]: by count, largest first, ties in insertion
      order. *)
Definition more_common {K} (a b : K * Z) : Prop := b.2 <= a.2.

#[global] Instance more_common_dec {K} : RelDecision (@more_common K).
  Proof. intros a b; unfold more_common; apply _. Defined.

Definition most_common {K} (n : nat) (c : list (K * Z)) : list (K * Z) :=
    take n (merge_sort more_common c).

  (** [max(c, key=c.get)]: the first key whose count is largest. *)
Definition argmax {K} (c : list (K * Z)) : option K :=
    match c with
    | [] => None
    | kv :: c' =>
        Some (fold_left (fun best x => if best.2 <? x.2 then x else best) c' kv).1
    end.

  (** [results['ticket_quantities']] before [dict()]: the counter over the
      parsed quantities of the rows that have one. *)
Definition quantity_counts (data : list pyrow) : Py.result (list (Z * Z)) :=
    qs ← Py.mapM (ticket_quantity 1)
                 (filter (fun row => Py.truthy (get_str row "Ticket quantity")) data);
    mret (Py.Counter qs).

Definition caught (e : Py.exn) : bool :=
    match e with
    | Py.ValueError | Py.KeyError => true
    | _ => false
    end.

Section Analyze.
    (** [float(s)] for text, and [datetime.strptime] with the two formats of
        the time loop, each giving the instant in seconds. *)
Variable float_of_str : string -> Py.result float.
Variable strptime_datetime : string -> Py.result Z.
Variable strptime_date : string -> Py.result Z.

    (** [results['total_revenue']]: the rows with a non-empty Gross sales,
        summed from the integer 0. *)
Definition total_revenue (data : list pyrow) : Py.result Py.pynum :=
      fs ← Py.mapM (fun row => float_of_str (get_str row "Gross sales"))
                   (filter (fun row => Py.truthy (get_str row "Gross sales")) data);
      match fs with
      | [] => mret (Py.PInt 0)
      | _ => mret (Py.PFloat (fold_left PrimFloat.add fs 0%float))
      end.

    (** [customer_spending] after the customer loop: a Gross sales that
        does not parse leaves the customer's sum as it is. *)
Definition customer_spending (data : list pyrow) : list (string * float) :=
      fold_left
        (fun acc row =>
           let email := Py.lower (get_str row "Buyer email") in
           if Py.truthy email then
             let old := default 0%float (Py.dict_get email acc) in
             match row !! "Gross sales" with
             | Some s =>
                 match float_of_str s with
                 | Py.Ok f => Py.dict_set email (PrimFloat.add old f) acc
                 | Py.Raise _ => Py.dict_set email old acc
                 end
             | None => Py.dict_set email (PrimFloat.add old 0%float) acc
             end
           else acc)
        data [].

    (** One pass of the time loop: the order instant and the event instant
        of a row, or nothing when a date is absent or does not parse. *)
Definition row_times (row : pyrow) : Py.result (option (Z * Z)) :=
      Py.try_except
        (s ← getitem row "Order date";
         order_date ← strptime_datetime s;
         s' ← getitem row "Event start date";
         event_date ← strptime_date s';
         mret (Some (order_date, event_date)))
        caught
        (mret None).

    (** [analyze_data(data)] *)
Definition analyze_data (data : list pyrow) : Py.result results :=
      let total_orders := Z.of_nat (length data) in
      tickets ← total_tickets data;
      revenue ← total_revenue data;
      let basic :=
        [("total_orders", Scalar (SInt total_orders));
         ("total_tickets", Scalar (SInt tickets));
         ("total_revenue", Scalar (of_num revenue));
         ("unique_customers", Scalar (SInt (unique_customers data)))] in
      times ← Py.mapM row_times data;
      let times := omap id times in
      let days_before_event := map (fun oe => (oe.2 - oe.1) / 86400) times in
      let order_hours := map (fun oe => (oe.1 mod 86400) / 3600) times in
      timing ←
        match days_before_event with
        | [] => mret []
        | _ =>
            avg ← Py.truediv (foldr Z.add 0 days_before_event)
                             (Z.of_nat (length days_before_event));
            mret
              [("avg_days_before_event", Scalar (of_num avg));
               ("same_day_purchases",
                Scalar (SInt (Z.of_nat (length (filter (fun d => d = 0) days_before_event)))));
               ("last_minute_purchases",
                Scalar (SInt (Z.of_nat (length (filter (fun d => d <= 1) days_before_event)))));
               ("advance_purchases",
                Scalar (SInt (Z.of_nat (length (filter (fun d => 7 <= d) days_before_event)))))]
        end;
      let hour_counts := Py.Counter order_hours in
      let hourly :=
        [("peak_hour",
          Scalar (match argmax hour_counts with Some h => SInt h | None => SNone end));
         ("hourly_distribution", counts_dict KInt hour_counts)] in
      days ← Py.mapM (fun row => getitem row "day_of_week") data;
      let by_day := [("orders_by_day", counts_dict KStr (Py.Counter days))] in
      rate ← repeat_customer_rate data;
      avg_orders ← avg_orders_per_customer data;
      let customers :=
        [("repeat_customer_rate", Scalar (of_num rate));
         ("avg_orders_per_customer", Scalar (of_num avg_orders))] in
      let counted (col : string) :=
        Py.Counter (map (fun row => default "Unknown" (row !! col)) data) in
      let places :=
        [("top_states", counts_dict KStr (most_common 10 (counted "Purchaser state")));
         ("top_cities", counts_dict KStr (most_common 10 (counted "Purchaser city")));
         ("payment_methods", counts_dict KStr (counted "Payment type"))] in
      quantities ← quantity_counts data;
      mret (basic ++ timing ++ hourly ++ by_day ++ customers ++ places
            ++ [("ticket_quantities", counts_dict KInt quantities)])%list.
End Analyze.

  (** *** The JSON snapshot

      [json.dump] turns the result dictionary into a JSON document and
      [json.load] turns a document into dictionaries.  The document is
      modelled as a tree; writing the tree as text and reading the text back
      (float literals included) is the [json] module's and loses nothing. *)

Inductive jscalar : Type :=
  | JNull
  | JInt (z : Z)
  | JFloat (f : float).

Inductive jvalue : Type :=
  | JScalar (x : jscalar)
  | JObject (members : list (string * jscalar)).

Definition json_doc : Type := list (string * jvalue).

  (** A dict key as the encoder writes it: member names are strings, an
      [int] key is written as [str(key)]. *)
Definition key_name (k : key) : string :=
    match k with
    | KStr s => s
    | KInt z => pretty z
    end.

Definition encode_scalar (x : scalar) : jscalar :=
    match x with
    | SNone => JNull
    | SInt z => JInt z
    | SFloat f => JFloat f
    end.

Definition decode_scalar (x : jscalar) : scalar :=
    match x with
    | JNull => SNone
    | JInt z => SInt z
    | JFloat f => SFloat f
    end.

Definition encode_value (v : value) : jvalue :=
    match v with
    | Scalar x => JScalar (encode_scalar x)
    | Dict d => JObject (map (fun kv => (key_name kv.1, encode_scalar kv.2)) d)
    end.

  (** An object becomes a dict with [str] keys, built member by member. *)
Definition decode_value (j : jvalue) : value :=
    match j with
    | JScalar x => Scalar (decode_scalar x)
    | JObject ms =>
        Dict (Py.dict_of_pairs (map (fun m => (KStr m.1, decode_scalar m.2)) ms))
    end.

  (** [save_results_json(results)]: the document written to the file. *)
Definition save_results_json (r : results) : json_doc :=
    map (fun kv => (kv.1, encode_value kv.2)) r.

  (** [json.load(f)] on that file. *)
Definition json_load (doc : json_doc) : results :=
    Py.dict_of_pairs (map (fun m => (m.1, decode_value m.2)) doc).

  (** The value at [name] and then [k] in a result dictionary. *)
Definition lookup2 (r : results) (name : string) (k : key) : option scalar :=
    match Py.dict_get name r with
    | Some (Dict d) => Py.dict_get k d
    | _ => None
    end.

  (** A result dictionary as Python holds it: one entry per name, and in
      each inner dict no two keys that are written as the same member
      name. *)
Definition distinct_names (v : value) : Prop :=
    match v with
    | Scalar _ => True
    | Dict d => NoDup (map (fun kv => key_name kv.1) d)
    end.

Definition wf_results (r : results) : Prop :=
    NoDup (map fst r) /\ Forall (fun kv => distinct_names kv.2) r.

End BasicAnalysis.


(** ** The specification's own wording, for comparison with the code *)
Module Spec.

  (** A booking-window bucket: its label and its inclusive range of
      [days_before_event]; [None] is an open end. *)
Record bucket : Type := {
    label : string;
    low : option Z;
    high : option Z }.

  (** The buckets as the specification lists them:
      {<=0, 1, 2-3, 4-7, 8-14, 15-30, 31+}. *)
Definition buckets : list bucket :=
    [ {| label := "Same Day";  low := None;      high := Some 0 |};
      {| label := "1 Day";     low := Some 1;    high := Some 1 |};
      {| label := "2-3 Days";  low := Some 2;    high := Some 3 |};
      {| label := "4-7 Days";  low := Some 4;    high := Some 7 |};
      {| label := "1-2 Weeks"; low := Some 8;    high := Some 14 |};
      {| label := "2-4 Weeks"; low := Some 15;   high := Some 30 |};
      {| label := "1+ Month";  low := Some 31;   high := None |} ].

Definition in_bucket (b : bucket) (d : Z) : bool :=
    match low b with Some l => l <=? d | None => true end
    && match high b with Some h => d <=? h | None => true end.

  (** The bucket of a value: the first (and only) one whose range holds it. *)
Definition bucket_of (d : Z) : option string :=
    label <$> List.find (fun b => in_bucket b d) buckets.

  (** The repeat-customer threshold of the specification. *)
Definition repeat_order_threshold : Z := 3.

End Spec.

(** ** Sample data for the worked examples *)
Module Sample.
Import Frame.

  (** An order for an event starting at day 20 000 of the epoch, bought
      [before] whole days ahead, 600 seconds after midnight. *)
Definition order (id : string) (email : option string) (before : Z)
      (payment : string) (gross : float) (day : string) : row :=
    let event := 20000 * 86400 in
    let ordered := event - before * 86400 + 600 - 86400 in
    {| Order_ID := Some id;
       Order_date := Some ordered;
       Event_start_date := Some event;
       Event_name := Some "Open Mic";
       Buyer_email := email;
       Purchaser_city := Some "Washington";
       Purchaser_state := Some "DC";
       Payment_type := Some payment;
       Ticket_quantity := 1%float;
       Gross_sales := gross;
       day_of_week := day;
       days_before_event := days_between (Some event) (Some ordered);
       customer_id := Py.lower <$> email |}.

  (** A CSV row whose buyer email cell is empty. *)
Definition csv_no_email : csv_row :=
    {| csv_Order_ID := Some "B7";
       csv_Order_date := Some (19999 * 86400 + 600);
       csv_Event_start_date := Some (20000 * 86400);
       csv_Event_name := Some "Open Mic";
       csv_Buyer_email := None;
       csv_Purchaser_city := Some "Washington";
       csv_Purchaser_state := Some "DC";
       csv_Payment_type := Some "Paid";
       csv_Ticket_quantity := 1%float;
       csv_Gross_sales := CStr "25.00";
       csv_day_of_week := "Monday" |}.

  (** A daily series with a single peak, and a longer one. *)
Definition impulse : list (Z * Q) :=
    [(0, 0%Q); (1, 0%Q); (2, 1%Q); (3, 0%Q); (4, 0%Q)].

Definition ramp : list (Z * Q) :=
    [(0, 0%Q); (1, 0%Q); (2, 1%Q); (3, 0%Q); (4, 0%Q); (5, 0%Q); (6, 0%Q)].

  (** A frame with a single order, placed the day before the event. *)
Definition one_order : list row :=
    [order "A1" (Some "A@X.com") 0 "Paid" 25%float "Monday"].

  (** Three orders of one customer, one on each of three show days. *)
Definition spread_orders : list row :=
    [order "S1" (Some "A@X.com") 1 "Paid" 25%float "Monday";
     order "S2" (Some "a@x.com") 2 "Paid" 25%float "Friday";
     order "S3" (Some "a@x.com") 3 "Paid" 25%float "Saturday"].

End Sample.

Module SpecRates.

  (** A rate "with a guarded division": 0 on a zero denominator, the
      quotient otherwise. *)
Definition guarded_rate (part total : Z) : Py.pynum :=
    if total =? 0 then Py.PInt 0
    else Py.PFloat (PrimFloat.div (Py.float_of_Z part) (Py.float_of_Z total)).

  (** The same-day orders and the free orders of a group. *)
Definition same_day_count (show_data : list Frame.row) : Z :=
    Z.of_nat (length (filter (fun r => Frame.days_before_event r = Some 0)
                             show_data)).

Definition free_count (show_data : list Frame.row) : Z :=
    Z.of_nat (length (filter (fun r => Frame.Payment_type r = Some "Free")
                             show_data)).

End SpecRates.

(** ** Order counts the claims speak of *)
Module Customers.
Import Frame.

  (** The orders of a customer in a frame: its rows that carry an Order ID,
      which is what ['Order ID': 'count'] counts. *)
Definition orders_of (df : list row) (c : string) : nat :=
    Pandas.count (map Order_ID (filter (fun r => customer_id r = Some c) df)).

  (** The same with the Order date column, as the lifecycle chart counts. *)
Definition dated_orders_of (df : list row) (c : string) : nat :=
    Pandas.count (map Order_date (filter (fun r => customer_id r = Some c) df)).

  (** The rows of the batch data whose lowercased buyer email is [e]. *)
Definition email_orders (data : list (gmap string string)) (e : string) : Z :=
    Z.of_nat (length (filter
      (fun row => BasicAnalysis.buyer_email row = e) data)).

  (** Two orders of one customer, under two spellings of the email, and an
      order without a buyer email. *)
Definition two_orders : list (gmap string string) :=
    [ list_to_map [("Order ID", "1"); ("Buyer email", "A@X.com");
                   ("Ticket quantity", "2"); ("Gross sales", "20.00");
                   ("day_of_week", "Monday")];
      list_to_map [("Order ID", "2"); ("Buyer email", "a@x.com");
                   ("Ticket quantity", "1"); ("Gross sales", "10.00");
                   ("day_of_week", "Friday")] ].

Definition no_email_order : gmap string string :=
    list_to_map [("Order ID", "3"); ("Buyer email", "");
                 ("Ticket quantity", "1"); ("Gross sales", "10.00");
                 ("day_of_week", "Saturday")].

  (** An order whose Ticket quantity cell does not hold a number. *)
Definition bad_quantity_order : gmap string string :=
    list_to_map [("Order ID", "4"); ("Buyer email", "b@y.org");
                 ("Ticket quantity", "N/A"); ("Gross sales", "10.00");
                 ("day_of_week", "Monday")].

  (** An order whose Ticket quantity cell is empty. *)
Definition empty_quantity_order : gmap string string :=
    list_to_map [("Order ID", "5"); ("Buyer email", "b@y.org");
                 ("Ticket quantity", ""); ("Gross sales", "10.00");
                 ("day_of_week", "Monday")].

  (** An order whose Gross sales cell does not hold a number. *)
Definition bad_gross_order : gmap string string :=
    list_to_map [("Order ID", "6"); ("Buyer email", "b@y.org");
                 ("Ticket quantity", "1"); ("Gross sales", "N/A");
                 ("day_of_week", "Monday")].


  (** [float(s)] on the text of a whole number, refusing anything else. *)
Definition whole_number (s : string) : Py.result float :=
    z ← Py.int_of_str s; mret (Py.float_of_Z z).

  (** Three orders with their dates: two bought in the 19th hour, one in
      the 9th, for an event on 2024-10-07. *)
Definition dated_orders : list (gmap string string) :=
    [ list_to_map [("Order ID", "9"); ("Buyer email", "d@w.org");
                   ("Order date", "2024-10-05 19:30:00");
                   ("Event start date", "2024-10-07");
                   ("Ticket quantity", "2"); ("Gross sales", "20");
                   ("day_of_week", "Monday")];
      list_to_map [("Order ID", "10"); ("Buyer email", "e@w.org");
                   ("Order date", "2024-10-06 09:05:00");
                   ("Event start date", "2024-10-07");
                   ("Ticket quantity", "1"); ("Gross sales", "10");
                   ("day_of_week", "Monday")];
      list_to_map [("Order ID", "11"); ("Buyer email", "d@w.org");
                   ("Order date", "2024-10-06 19:45:00");
                   ("Event start date", "2024-10-07");
                   ("Ticket quantity", "2"); ("Gross sales", "20");
                   ("day_of_week", "Monday")] ].

  (** [datetime.strptime(s, '%Y-%m-%d %H:%M:%S')] and
      [datetime.strptime(s, '%Y-%m-%d')] on the dates of [dated_orders], as
      seconds since 1970-01-01 (2024-10-07 is day 20003); other text is
      refused. *)
Definition sample_datetime (s : string) : Py.result Z :=
    if String.eqb s "2024-10-05 19:30:00" then Py.Ok (20001 * 86400 + 70200)
    else if String.eqb s "2024-10-06 09:05:00" then Py.Ok (20002 * 86400 + 32700)
    else if String.eqb s "2024-10-06 19:45:00" then Py.Ok (20002 * 86400 + 71100)
    else Py.Raise Py.ValueError.

Definition sample_date (s : string) : Py.result Z :=
    if String.eqb s "2024-10-07" then Py.Ok (20003 * 86400)
    else Py.Raise Py.ValueError.


End Customers.


(** ** Orders that fall in a booking window *)
Module Windows.

(** The orders whose [days_before_event] is known and not negative. *)
Definition has_window (r : Frame.row) : bool :=
  match Frame.days_before_event r with
  | Some d => 0 <=? d
  | None => false
  end.

End Windows.
(* ===================================================================== *)
(** * Part II: lemmas and theorems                                         *)
(* ===================================================================== *)

(** ** Strings and paths *)
Section StringFacts.

#[local] Arguments String.append !_ _ / : simpl nomatch.

Lemma lower_app (a b : string) :
    Py.lower (a +:+ b) = Py.lower a +:+ Py.lower b.
  Proof. induction a as [|c a IH]; simpl; [reflexivity | now rewrite IH]. Qed.

Lemma prefix_nil (s : string) : String.prefix "" s = true.
  Proof. now destruct s. Qed.

Lemma prefix_app (p a b : string) :
    String.prefix p a = true -> String.prefix p (a +:+ b) = true.
  Proof.
    revert p; induction a as [|c a IH]; intros [|x p]; simpl; try easy.
    - now destruct b.
    - destruct (ascii_dec x c); [apply IH | easy].
  Qed.

Lemma contains_prefix (p s : string) :
    String.prefix p s = true -> Py.contains p s = true.
  Proof. intros H; destruct s; cbn [Py.contains]; rewrite H; reflexivity. Qed.

Lemma contains_cons (p : string) (c : ascii) (s : string) :
    Py.contains p s = true -> Py.contains p (String c s) = true.
  Proof. intros H; cbn [Py.contains]. rewrite H. apply orb_true_r. Qed.

Lemma contains_app_l (p a b : string) :
    Py.contains p a = true -> Py.contains p (a +:+ b) = true.
  Proof.
    induction a as [|c a IH]; cbn [Py.contains]; intros H.
    - rewrite orb_false_r in H. apply contains_prefix.
      destruct p; [now destruct b | discriminate].
    - apply orb_true_iff in H as [H|H].
      + apply contains_prefix. now apply prefix_app.
      + change (String c a +:+ b) with (String c (a +:+ b)).
        apply contains_cons. now apply IH.
  Qed.

Lemma lower_ascii_sep (c : ascii) :
    Py.is_sep (Py.lower_ascii c) = Py.is_sep c.
  Proof.
    destruct c as [[] [] [] [] [] [] [] []]; reflexivity.
  Qed.

Lemma truthy_lower (s : string) : Py.truthy (Py.lower s) = Py.truthy s.
  Proof. destruct s; reflexivity. Qed.

Lemma lower_rstrip_sep (s : string) :
    Py.lower (Py.rstrip_sep s) = Py.rstrip_sep (Py.lower s).
  Proof.
    induction s as [|c s IH]; simpl; [reflexivity|].
    rewrite lower_ascii_sep, <- IH, truthy_lower.
    destruct (Py.is_sep c && negb (Py.truthy (Py.rstrip_sep s))); reflexivity.
  Qed.

Lemma prefix_rstrip_sep (p s : string) :
    Py.no_sep p = true -> String.prefix p s = true ->
    String.prefix p (Py.rstrip_sep s) = true.
  Proof.
    revert p; induction s as [|c s IH]; intros [|x p] Hp H; simpl in *;
      try easy.
    - apply prefix_nil.
    - destruct (ascii_dec x c) as [->|]; [|discriminate].
      apply andb_true_iff in Hp as [Hc Hp].
      apply negb_true_iff in Hc. rewrite Hc. simpl.
      destruct (ascii_dec c c); [|contradiction]. now apply IH.
  Qed.

Lemma contains_rstrip_sep (p s : string) :
    Py.no_sep p = true -> Py.truthy p = true -> Py.contains p s = true ->
    Py.contains p (Py.rstrip_sep s) = true.
  Proof.
    intros Hp Hne. induction s as [|c s IH]; intros H.
    - destruct p; [discriminate | exact H].
    - cbn [Py.contains] in H. apply orb_true_iff in H as [H|H].
      + apply contains_prefix. now apply prefix_rstrip_sep.
      + specialize (IH H). cbn [Py.rstrip_sep].
        destruct (Py.rstrip_sep s) as [|d r] eqn:E.
        * destruct p; discriminate.
        * rewrite andb_false_r. now apply contains_cons.
  Qed.

Lemma rsplit_no_sep (t : string) :
    Py.no_sep t = true -> Py.rsplit_sep t = (EmptyString, t).
  Proof.
    induction t as [|c t IH]; simpl; intros H; [reflexivity|].
    apply andb_true_iff in H as [Hc Ht]. rewrite (IH Ht). simpl.
    apply negb_true_iff in Hc. now rewrite Hc.
  Qed.

Lemma rsplit_app_sep (h t : string) :
    Py.no_sep t = true ->
    Py.rsplit_sep (h +:+ "/" +:+ t) = (h +:+ "/", t).
  Proof.
    intros Ht. induction h as [|c h IH].
    - cbn. rewrite (rsplit_no_sep t Ht). reflexivity.
    - change (String c h +:+ "/" +:+ t) with (String c (h +:+ "/" +:+ t)).
      cbn [Py.rsplit_sep]. rewrite IH. now destruct h.
  Qed.

Lemma endswith_sep (a : string) :
    Py.endswith a "/" = true -> exists h, a = h +:+ "/".
  Proof.
    induction a as [|c a IH]; cbn [Py.endswith]; intros H.
    - discriminate.
    - apply orb_true_iff in H as [H|H].
      + apply String.eqb_eq in H. exists EmptyString. exact H.
      + destruct (IH H) as [h ->]. now exists (String c h).
  Qed.

Lemma app_assoc_str (a b c : string) : (a +:+ b) +:+ c = a +:+ (b +:+ c).
  Proof. induction a; simpl; congruence. Qed.

  (** The directory part of the pattern [glob] is given keeps every
      separator-free substring of the folder. *)
Lemma split_join_pattern (p folder : string) :
    Py.no_sep p = true -> Py.truthy p = true ->
    Py.contains p (Py.lower folder) = true ->
    exists dirname tail,
      Py.path_split (Py.path_join folder "*.csv") = (dirname, tail)
      /\ Py.contains p (Py.lower dirname) = true.
  Proof.
    intros Hp Hne Hc.
    assert (Hhead : exists head,
               Py.rsplit_sep (Py.path_join folder "*.csv") = (head, "*.csv")
               /\ Py.contains p (Py.lower head) = true).
    { unfold Py.path_join. cbn [Py.startswith String.prefix].
      destruct (ascii_dec "/" "*"); [discriminate|].
      destruct folder as [|c f] eqn:Ef.
      - destruct p; discriminate.
      - rewrite <- Ef in *. replace (Py.truthy folder) with true by now subst.
        cbn [negb orb].
        destruct (Py.endswith folder "/") eqn:E.
        + destruct (endswith_sep _ E) as [h Hh].
          exists folder. split; [|exact Hc].
          rewrite Hh at 1. rewrite app_assoc_str.
          rewrite (rsplit_app_sep h "*.csv" eq_refl). now rewrite Hh.
        + exists (folder +:+ "/"). split.
          * rewrite <- app_assoc_str. rewrite app_assoc_str.
            apply (rsplit_app_sep folder "*.csv" eq_refl).
          * rewrite lower_app. now apply contains_app_l. }
    destruct Hhead as (head & Hs & Hhc).
    unfold Py.path_split. rewrite Hs.
    destruct (Py.truthy head && Py.truthy (Py.rstrip_sep head)).
    - eexists _, _. split; [reflexivity|].
      rewrite lower_rstrip_sep. now apply contains_rstrip_sep.
    - eexists _, _. split; [reflexivity | exact Hhc].
  Qed.

Lemma join_entry_contains (p dirname name : string) :
    Py.entry_name name = true ->
    Py.contains p (Py.lower dirname) = true ->
    Py.contains p (Py.lower (Py.path_join dirname name)) = true.
  Proof.
    intros Hn Hc. unfold Py.path_join.
    assert (Hs : Py.startswith name "/" = false).
    { unfold Py.entry_name in Hn. apply andb_true_iff in Hn as [_ Hn].
      apply negb_true_iff in Hn. unfold Py.startswith.
      destruct name; simpl in Hn; [reflexivity|].
      now apply orb_false_iff in Hn as [Hn _]. }
    rewrite Hs.
    destruct (negb (Py.truthy dirname) || Py.endswith dirname "/");
      rewrite !lower_app; now apply contains_app_l.
  Qed.

End StringFacts.

(** ** The loaders *)
Section Loaders.

Lemma pandas_selection_nil (dirname : string) (names : list string) :
    Py.contains "eda" (Py.lower dirname) = true ->
    Forall (fun n => Py.entry_name n = true) names ->
    filter (fun file => Py.endswith file ".csv"
                        && negb (Py.contains "eda" (Py.lower file)))
           (map (Py.path_join dirname)
                (filter (fun x => negb (Py.ishidden x) && Py.endswith x ".csv")
                        names)) = [].
  Proof.
    intros Hd Hn. induction Hn as [|n names Hname _ IH]; [reflexivity|].
    rewrite filter_cons. case_decide; [|exact IH].
    rewrite fmap_cons, filter_cons.
    rewrite (join_entry_contains "eda" dirname n Hname Hd).
    rewrite andb_false_r. case_decide; [contradiction | exact IH].
  Qed.

Lemma selected_files_eda (data_folder : string) (names : list string) :
    Forall (fun n => Py.entry_name n = true) names ->
    Py.contains "eda" (Py.lower data_folder) = true ->
    ShowInsights.selected_files data_folder names = [].
  Proof.
    intros Hn Hc. unfold ShowInsights.selected_files, Py.glob_csv.
    destruct (split_join_pattern "eda" data_folder eq_refl eq_refl Hc)
      as (dirname & tail & -> & Hd).
    now apply pandas_selection_nil.
  Qed.

End Loaders.

(** C10: when the data folder's path contains "eda" (in any case), the
    loaders of [ShowInsights] and [ShowLevelAnalysis], which test the full
    path [glob] returns, select no file at all, whatever the names in the
    folder, and [load_data] then fails in [pd.concat]; [load_csv_data] of
    [basic_analysis] tests the bare file name, so it still selects and loads
    every [.csv] file of that folder whose own name is free of "eda".  The
    folder is a literal directory path and [names] its listing. *)
Theorem C10_eda_marker_tests_full_path
    (read_csv : string -> list Frame.csv_row)
    (parse : string -> option float)
    (read_rows : string -> list (gmap string string))
    (data_folder : string) (names : list string) :
  Py.has_magic data_folder = false ->
  Forall (fun n => Py.entry_name n = true) names ->
  Py.contains "eda" (Py.lower data_folder) = true ->
  ShowInsights.selected_files data_folder names = []
  /\ ShowLevelAnalysis.selected_files data_folder names = []
  /\ ShowInsights.load_data read_csv parse data_folder names
     = Py.Raise Py.ValueError
  /\ ShowLevelAnalysis.load_data read_csv parse data_folder names
     = Py.Raise Py.ValueError
  /\ (forall f, f ∈ names -> Py.endswith f ".csv" = true ->
        Py.contains "eda" (Py.lower f) = false ->
        f ∈ BasicAnalysis.csv_files names
        /\ forall row, row ∈ read_rows (Py.path_join data_folder f) ->
             <["day_of_week" := Py.replace f ".csv" ""]> row
             ∈ BasicAnalysis.load_csv_data read_rows data_folder names).
Proof.
  intros _ Hn Hc.
  pose proof (selected_files_eda data_folder names Hn Hc) as Hsel.
  assert (Hsel' : ShowLevelAnalysis.selected_files data_folder names = [])
    by exact Hsel.
  repeat split.
  - exact Hsel.
  - exact Hsel'.
  - unfold ShowInsights.load_data. now rewrite Hsel.
  - unfold ShowLevelAnalysis.load_data. now rewrite Hsel'.
  - unfold BasicAnalysis.csv_files. apply list_elem_of_filter. split; [|assumption].
    rewrite H0, H1. exact I.
  - intros row Hrow. unfold BasicAnalysis.load_csv_data.
    apply list_elem_of_In, in_flat_map. exists f. split.
    + apply list_elem_of_In. unfold BasicAnalysis.csv_files.
      apply list_elem_of_filter. split; [|assumption].
      rewrite H0, H1. exact I.
    + apply list_elem_of_In. apply list_elem_of_fmap. now exists row.
Qed.

(** A folder named [src/eda_data] holding [Monday.csv]: the pandas loaders
    select nothing, [load_csv_data] reads the file. *)
Lemma C10_witness :
  ShowInsights.selected_files "src/eda_data" ["Monday.csv"] = []
  /\ ShowLevelAnalysis.selected_files "src/eda_data" ["Monday.csv"] = []
  /\ ShowInsights.load_data (fun _ => []) (fun _ => None)
       "src/eda_data" ["Monday.csv"] = Py.Raise Py.ValueError
  /\ ShowLevelAnalysis.load_data (fun _ => []) (fun _ => None)
       "src/eda_data" ["Monday.csv"] = Py.Raise Py.ValueError
  /\ (forall f, f ∈ ["Monday.csv"] -> Py.endswith f ".csv" = true ->
        Py.contains "eda" (Py.lower f) = false ->
        f ∈ BasicAnalysis.csv_files ["Monday.csv"]
        /\ forall row, row ∈ (fun _ : string => [(∅ : gmap string string)])
                               (Py.path_join "src/eda_data" f) ->
             <["day_of_week" := Py.replace f ".csv" ""]> row
             ∈ BasicAnalysis.load_csv_data (fun _ => [∅])
                 "src/eda_data" ["Monday.csv"]).
Proof.
  apply (C10_eda_marker_tests_full_path (fun _ => []) (fun _ => None)
           (fun _ => [∅]) "src/eda_data" ["Monday.csv"]).
  - reflexivity.
  - repeat constructor.
  - reflexivity.
Defined.

Example eda_folder_contrast :
  ShowInsights.selected_files "src/eda_data" ["Monday.csv"; "eda_notes.csv"] = []
  /\ BasicAnalysis.csv_files ["Monday.csv"; "eda_notes.csv"] = ["Monday.csv"]
  /\ ShowInsights.selected_files "src/data" ["Monday.csv"; "eda_notes.csv"]
     = ["src/data/Monday.csv"].
Proof. repeat split. Qed.

(** ** Booking windows *)
Section BookingWindows.

Lemma booking_window_eq (d : Z) :
    ShowInsights.booking_window (Some d)
    = if d <? 0 then None else Spec.bucket_of d.
  Proof.
    unfold ShowInsights.booking_window, Pandas.cut, Spec.bucket_of,
      Spec.buckets, ShowInsights.booking_bins.
    cbn [Pandas.searchsorted_left Pandas.edge_ltb List.find].
    unfold Spec.in_bucket.
    cbn [Spec.low Spec.high andb].
    assert (Hcases : d < 0 \/ d = 0 \/ d = 1 \/ 2 <= d <= 3 \/ 4 <= d <= 7
                     \/ 8 <= d <= 14 \/ 15 <= d <= 30 \/ 31 <= d) by lia.
    repeat destruct Hcases as [Hd|Hcases]; try rename Hcases into Hd;
      repeat match goal with
             | |- context [?a <? ?b] =>
                 first [ rewrite (proj2 (Z.ltb_lt a b)) by lia
                       | rewrite (proj2 (Z.ltb_ge a b)) by lia ]
             | |- context [?a <=? ?b] =>
                 first [ rewrite (proj2 (Z.leb_le a b)) by lia
                       | rewrite (proj2 (Z.leb_gt a b)) by lia ]
             end; reflexivity.
  Qed.

Lemma booking_window_same (d : option Z) :
    ShowLevelAnalysis.booking_window d = ShowInsights.booking_window d.
  Proof. reflexivity. Qed.

Lemma buckets_disjoint (d : Z) (b b' : Spec.bucket) :
    b ∈ Spec.buckets -> b' ∈ Spec.buckets ->
    Spec.in_bucket b d = true -> Spec.in_bucket b' d = true -> b = b'.
  Proof.
    unfold Spec.buckets. intros Hb Hb'.
    repeat (apply elem_of_cons in Hb as [->|Hb]);
      try (now apply elem_of_nil in Hb);
      repeat (apply elem_of_cons in Hb' as [->|Hb']);
      try (now apply elem_of_nil in Hb');
      unfold Spec.in_bucket; cbn; intros H1 H2; try reflexivity; lia.
  Qed.

End BookingWindows.

(** C1, as stated, fails on the code: a purchase dated one day after the
    event start ([days_before_event = -1]) lies in the specification's
    "<= 0" bucket, yet [pd.cut] with first edge [-1] gives it no label in
    either module, so not every value has a bucket. *)
Lemma C1_counterexample :
  Spec.bucket_of (-1) = Some "Same Day"
  /\ ShowInsights.booking_window (Some (-1)) = None
  /\ ShowLevelAnalysis.booking_window (Some (-1)) = None
  /\ ~ (forall d : Z, exists l, ShowInsights.booking_window (Some d) = Some l).
Proof.
  repeat split; try reflexivity.
  intros H. destruct (H (-1)) as [l Hl]. discriminate Hl.
Qed.

(** C1, amended: for every record set, the booking-window bucketing gives
    every value of [days_before_event] that is at least 0 the label of
    exactly one of the buckets {0, 1, 2-3, 4-7, 8-14, 15-30, 31+} (the
    specification's buckets, of which "<= 0" is met at 0 only); a negative
    value, like a missing one, gets no label and so lies outside every
    bucket. *)
Theorem C1_booking_window_partition :
  (forall d : Z,
      (d < 0 ->
       ShowInsights.booking_window (Some d) = None
       /\ ShowLevelAnalysis.booking_window (Some d) = None)
      /\ (0 <= d ->
          exists b, b ∈ Spec.buckets
            /\ Spec.in_bucket b d = true
            /\ ShowInsights.booking_window (Some d) = Some (Spec.label b)
            /\ ShowLevelAnalysis.booking_window (Some d) = Some (Spec.label b)
            /\ forall b', b' ∈ Spec.buckets -> Spec.in_bucket b' d = true ->
                          b' = b))
  /\ (forall df : list Frame.row,
         ShowInsights.booking_windows df
         = map (fun r =>
                  match Frame.days_before_event r with
                  | Some d => if d <? 0 then None else Spec.bucket_of d
                  | None => None
                  end) df).
Proof.
  split.
  - intros d. split.
    + intros Hd. change (ShowLevelAnalysis.booking_window (Some d))
        with (ShowInsights.booking_window (Some d)).
      rewrite booking_window_eq.
      destruct (Z.ltb_spec d 0); [split; reflexivity | lia].
    + intros Hd. change (ShowLevelAnalysis.booking_window (Some d))
        with (ShowInsights.booking_window (Some d)).
      rewrite booking_window_eq.
      destruct (Z.ltb_spec d 0); [lia|].
      unfold Spec.bucket_of.
      destruct (List.find (fun b => Spec.in_bucket b d) Spec.buckets)
        as [b|] eqn:E.
      * apply find_some in E as [Hin Hb]. exists b.
        apply list_elem_of_In in Hin.
        repeat split; try assumption; try reflexivity.
        intros b' Hb' Hd'. now apply (buckets_disjoint d).
      * exfalso.
        pose proof (find_none _ _ E) as Hnone.
        assert (H1 := Hnone _ (or_introl eq_refl)).
        assert (H2 := Hnone _ (or_intror (or_introl eq_refl))).
        assert (H3 := Hnone _ (or_intror (or_intror (or_introl eq_refl)))).
        assert (H4 := Hnone _ (or_intror (or_intror (or_intror (or_introl eq_refl))))).
        assert (H5 := Hnone _ (or_intror (or_intror (or_intror (or_intror (or_introl eq_refl)))))).
        assert (H6 := Hnone _ (or_intror (or_intror (or_intror (or_intror (or_intror (or_introl eq_refl))))))).
        assert (H7 := Hnone _ (or_intror (or_intror (or_intror (or_intror (or_intror (or_intror (or_introl eq_refl)))))))).
        unfold Spec.in_bucket in *. cbn in *. lia.
  - intros df. unfold ShowInsights.booking_windows.
    apply map_ext. intros r.
    destruct (Frame.days_before_event r) as [d|]; [|reflexivity].
    apply booking_window_eq.
Qed.

(** ** [groupby] *)
Lemma map_fst_tagged {A B : Type} (f : A -> B) (l : list A) :
  map fst (map (fun k => (k, f k)) l) = l.
Proof. induction l as [|x l IH]; simpl; [reflexivity | now rewrite IH]. Qed.

Section GroupByFacts.
Context {Row K : Type} `{EqDecision K}.
Variable key : Row -> option K.
Variable le : K -> K -> Prop.
Context `{!RelDecision le}.

Lemma elem_of_group_rows (df : list Row) (k : K) (r : Row) :
    r ∈ Pandas.group_rows key df k <-> r ∈ df /\ key r = Some k.
  Proof. unfold Pandas.group_rows. rewrite list_elem_of_filter. tauto. Qed.

Lemma elem_of_groupby (df : list Row) (k : K) (g : list Row) :
    (k, g) ∈ Pandas.groupby key le df
    <-> (exists r, r ∈ df /\ key r = Some k) /\ g = Pandas.group_rows key df k.
  Proof.
    unfold Pandas.groupby. rewrite list_elem_of_fmap. split.
    - intros (k' & [= -> ->] & Hk). split; [|reflexivity].
      rewrite merge_sort_Permutation, elem_of_remove_dups in Hk.
      now apply list_elem_of_omap in Hk.
    - intros [Hr ->]. exists k. split; [reflexivity|].
      rewrite merge_sort_Permutation, elem_of_remove_dups.
      now apply list_elem_of_omap.
  Qed.

  (** A group of [groupby] holds at least one row. *)
Lemma groupby_nonempty (df : list Row) (k : K) (g : list Row) :
    (k, g) ∈ Pandas.groupby key le df -> g <> [].
  Proof.
    intros [(r & Hr & Hk) ->]%elem_of_groupby Hnil.
    assert (Hin : r ∈ Pandas.group_rows key df k)
      by now apply elem_of_group_rows.
    rewrite Hnil in Hin. now apply elem_of_nil in Hin.
  Qed.

  (** A row whose key is missing is in no group. *)
Lemma groupby_drops_missing (df : list Row) (r : Row) :
    key r = None ->
    forall k g, (k, g) ∈ Pandas.groupby key le df -> r ∉ g.
  Proof.
    intros Hr k g [_ ->]%elem_of_groupby [_ Hk]%elem_of_group_rows.
    congruence.
  Qed.

Lemma groupby_keys_NoDup (df : list Row) :
    NoDup (map fst (Pandas.groupby key le df)).
  Proof.
    unfold Pandas.groupby. rewrite map_fst_tagged.
    rewrite merge_sort_Permutation. apply NoDup_remove_dups.
  Qed.

  (** With [observed=True] every group of a categorical grouper holds a
      row; with [observed=False] there is one group per category. *)
Lemma groupby_observed_nonempty (cats : list K) (df : list Row) (k : K)
      (g : list Row) :
    (k, g) ∈ Pandas.groupby_categorical key cats true df -> g <> [].
  Proof.
    unfold Pandas.groupby_categorical.
    intros (k' & [= -> ->] & Hk)%list_elem_of_fmap Hnil.
    apply list_elem_of_filter in Hk as [Hk _].
    apply list_elem_of_fmap in Hk as (r & Hr & Hin).
    assert (Hg : r ∈ Pandas.group_rows key df k')
      by now apply elem_of_group_rows.
    rewrite Hnil in Hg. now apply elem_of_nil in Hg.
  Qed.

Lemma groupby_unobserved_keys (cats : list K) (df : list Row) :
    map fst (Pandas.groupby_categorical key cats false df) = cats.
  Proof.
    unfold Pandas.groupby_categorical. apply map_fst_tagged.
  Qed.

End GroupByFacts.

(** ** Grouped summaries and empty groups *)
Section EmptyGroups.

  (** Whatever the frame, the booking-window summary of [ShowInsights] has
      one row per label. *)
Lemma booking_analysis_all_labels (df : list Frame.row) :
    map ShowInsights.window (ShowInsights.booking_analysis df)
    = ShowInsights.booking_labels.
  Proof.
    unfold ShowInsights.booking_analysis, Pandas.observed_default,
      Pandas.groupby_categorical.
    rewrite <- !list_fmap_compose. reflexivity.
  Qed.

  (** A label no row falls under still gets a row, with count 0 and sum 0. *)
Lemma booking_analysis_zero_row (df : list Frame.row) (l : string) :
    l ∈ ShowInsights.booking_labels ->
    (forall r, r ∈ df ->
       ShowInsights.booking_window (Frame.days_before_event r) <> Some l) ->
    {| ShowInsights.window := l;
       ShowInsights.window_orders := 0;
       ShowInsights.window_gross := 0%float |}
    ∈ ShowInsights.booking_analysis df.
  Proof.
    intros Hl Hno.
    unfold ShowInsights.booking_analysis, Pandas.observed_default,
      Pandas.groupby_categorical.
    apply list_elem_of_fmap. eexists (l, []). split; [reflexivity|].
    apply list_elem_of_fmap. exists l. split; [|exact Hl].
    f_equal. symmetry. unfold Pandas.group_rows.
    induction df as [|r df IH]; [reflexivity|].
    rewrite filter_cons. case_decide as Hr.
    - exfalso. apply (Hno r); [left | exact Hr].
    - apply IH. intros r' Hr'. apply Hno. now right.
  Qed.

  (** The dashboard passes [observed=True]: each row of its summary stands
      for at least one order. *)
Lemma dashboard_booking_rows_observed (df : list Frame.row)
      (b : Dashboard.booking_row) :
    b ∈ Dashboard.booking_analysis df ->
    exists r, r ∈ df
      /\ ShowInsights.booking_window (Frame.days_before_event r)
         = Some (Dashboard.window b).
  Proof.
    unfold Dashboard.booking_analysis, Pandas.groupby_categorical.
    intros ([k g] & -> & Hg)%list_elem_of_fmap.
    apply list_elem_of_fmap in Hg as (k' & [= -> ->] & Hk).
    apply list_elem_of_filter in Hk as [Hk _].
    apply list_elem_of_fmap in Hk as (r & Hr & Hin).
    exists r. split; [exact Hin | now symmetry].
  Qed.

End EmptyGroups.

(** C3, on the failing input: for a frame with a single order, bought in
    the "Same Day" window, the booking-window summaries of [ShowInsights]
    and [ShowLevelAnalysis] still list all seven labels, six of them as
    zero-filled rows (count 0, sum 0), whereas the same grouping in
    [dashboard.py], which passes [observed=True], yields the one observed
    row only. *)
Theorem C3_booking_summary_zero_filled_rows :
  ShowInsights.booking_analysis Sample.one_order
  = [ {| ShowInsights.window := "Same Day"; ShowInsights.window_orders := 1;
         ShowInsights.window_gross := 25%float |};
      {| ShowInsights.window := "1 Day"; ShowInsights.window_orders := 0;
         ShowInsights.window_gross := 0%float |};
      {| ShowInsights.window := "2-3 Days"; ShowInsights.window_orders := 0;
         ShowInsights.window_gross := 0%float |};
      {| ShowInsights.window := "4-7 Days"; ShowInsights.window_orders := 0;
         ShowInsights.window_gross := 0%float |};
      {| ShowInsights.window := "1-2 Weeks"; ShowInsights.window_orders := 0;
         ShowInsights.window_gross := 0%float |};
      {| ShowInsights.window := "2-4 Weeks"; ShowInsights.window_orders := 0;
         ShowInsights.window_gross := 0%float |};
      {| ShowInsights.window := "1+ Month"; ShowInsights.window_orders := 0;
         ShowInsights.window_gross := 0%float |} ]
  /\ map (fun b => (ShowLevelAnalysis.window b, ShowLevelAnalysis.window_orders b))
         (ShowLevelAnalysis.booking_analysis Sample.one_order)
     = [("Same Day", 1%nat); ("1 Day", 0%nat); ("2-3 Days", 0%nat);
        ("4-7 Days", 0%nat); ("1-2 Weeks", 0%nat); ("2-4 Weeks", 0%nat);
        ("1+ Month", 0%nat)]
  /\ map (fun b => (Dashboard.window b, Dashboard.window_orders b))
         (Dashboard.booking_analysis Sample.one_order)
     = [("Same Day", 1%nat)].
Proof. repeat split; vm_compute; reflexivity. Qed.

(** ** Rates of a show group *)
Section Rates.

Lemma guarded_truediv (part total : Z) :
    0 <= total ->
    (if 0 <? total then Py.truediv part total else mret (Py.PInt 0))
    = Py.Ok (SpecRates.guarded_rate part total).
  Proof.
    intros Ht. unfold Py.truediv, SpecRates.guarded_rate.
    destruct (Z.ltb_spec 0 total), (Z.eqb_spec total 0); try lia; reflexivity.
  Qed.

Lemma mapM_ok {A B : Type} (f : A -> Py.result B) (l : list A) :
    (forall x, x ∈ l -> exists y, f x = Py.Ok y) ->
    exists ys, Py.mapM f l = Py.Ok ys /\ length ys = length l.
  Proof.
    induction l as [|x l IH]; intros H; simpl.
    - now exists [].
    - destruct (H x) as [y Hy]; [left|].
      destruct IH as (ys & Hys & Hlen); [intros; apply H; now right|].
      exists (y :: ys). rewrite Hy, Hys. simpl. now rewrite Hlen.
  Qed.

Lemma show_insights_entry (date : Z) (day : string)
      (show_data : list Frame.row) :
    exists r, ShowInsights.show_entry date day show_data = Py.Ok r
      /\ ShowInsights.same_day_rate r
         = SpecRates.guarded_rate (SpecRates.same_day_count show_data)
             (Z.of_nat (length show_data))
      /\ ShowInsights.free_rate r
         = SpecRates.guarded_rate (SpecRates.free_count show_data)
             (Z.of_nat (length show_data)).
  Proof.
    unfold ShowInsights.show_entry.
    rewrite !guarded_truediv by lia.
    eexists. split; [reflexivity|]. split; reflexivity.
  Qed.

Lemma show_level_entry (key : Z * string * string)
      (show_data : list Frame.row) :
    exists m, ShowLevelAnalysis.show_entry key show_data = Py.Ok m
      /\ ShowLevelAnalysis.same_day_rate m
         = SpecRates.guarded_rate (SpecRates.same_day_count show_data)
             (Z.of_nat (length show_data))
      /\ ShowLevelAnalysis.free_rate m
         = SpecRates.guarded_rate (SpecRates.free_count show_data)
             (Z.of_nat (length show_data)).
  Proof.
    unfold ShowLevelAnalysis.show_entry.
    rewrite !guarded_truediv by lia.
    eexists. split; [reflexivity|]. split; reflexivity.
  Qed.

End Rates.

(** C6: for every show group, in [ShowInsights] and in [ShowLevelAnalysis],
    computing the group's entry never raises, and its same-day-purchase
    rate and free-ticket rate are the guarded quotient of the count by the
    group's order count: the integer 0 when the order count is zero (an
    empty group), the quotient otherwise. *)
Theorem C6_rates_guarded_division :
  (forall date day show_data,
      exists r, ShowInsights.show_entry date day show_data = Py.Ok r
        /\ ShowInsights.same_day_rate r
           = SpecRates.guarded_rate (SpecRates.same_day_count show_data)
               (Z.of_nat (length show_data))
        /\ ShowInsights.free_rate r
           = SpecRates.guarded_rate (SpecRates.free_count show_data)
               (Z.of_nat (length show_data)))
  /\ (forall key show_data,
         exists m, ShowLevelAnalysis.show_entry key show_data = Py.Ok m
           /\ ShowLevelAnalysis.same_day_rate m
              = SpecRates.guarded_rate (SpecRates.same_day_count show_data)
                  (Z.of_nat (length show_data))
           /\ ShowLevelAnalysis.free_rate m
              = SpecRates.guarded_rate (SpecRates.free_count show_data)
                  (Z.of_nat (length show_data)))
  /\ (forall part, SpecRates.guarded_rate part 0 = Py.PInt 0)
  /\ (forall date day,
         exists r, ShowInsights.show_entry date day [] = Py.Ok r
           /\ ShowInsights.same_day_rate r = Py.PInt 0
           /\ ShowInsights.free_rate r = Py.PInt 0)
  /\ (forall key,
         exists m, ShowLevelAnalysis.show_entry key [] = Py.Ok m
           /\ ShowLevelAnalysis.same_day_rate m = Py.PInt 0
           /\ ShowLevelAnalysis.free_rate m = Py.PInt 0)
  /\ (forall df, exists shows,
         ShowInsights.analyze_individual_shows df = Py.Ok shows)
  /\ (forall df, exists shows,
         ShowLevelAnalysis.analyze_individual_shows df = Py.Ok shows).
Proof.
  split; [exact show_insights_entry|].
  split; [exact show_level_entry|].
  split; [reflexivity|].
  split; [intros; eexists; repeat split|].
  split; [intros; eexists; repeat split|].
  split.
  - intros df. unfold ShowInsights.analyze_individual_shows.
    destruct (mapM_ok (fun g => ShowInsights.show_entry g.1.1 g.1.2 g.2)
                (Pandas.groupby ShowInsights.show_key Pandas.pair_le df))
      as (ys & -> & _).
    + intros g _. destruct (show_insights_entry g.1.1 g.1.2 g.2) as (r & Hr & _).
      now exists r.
    + eexists. reflexivity.
  - intros df. unfold ShowLevelAnalysis.analyze_individual_shows.
    destruct (mapM_ok
                (fun g => m ← ShowLevelAnalysis.show_entry g.1 g.2;
                          mret (g.1.1, m))
                (Pandas.groupby ShowLevelAnalysis.show_key Pandas.triple_le df))
      as (ys & -> & _).
    + intros g _. destruct (show_level_entry g.1 g.2) as (m & Hm & _).
      rewrite Hm. eexists. reflexivity.
    + eexists. reflexivity.
Qed.

(** ** Customer tables *)
Section CustomerTables.
Import Frame.

Lemma count_pos_inv {A B : Type} (f : A -> option B) (l : list A) :
    (0 < Pandas.count (map f l))%nat -> exists r, r ∈ l.
  Proof.
    destruct l as [|r l].
    - unfold Pandas.count. simpl. lia.
    - intros _. exists r. now left.
  Qed.

Lemma elem_of_customer_analysis (df : list row) (cust : ShowInsights.customer) :
    cust ∈ ShowInsights.customer_analysis df
    <-> exists c, (exists r, r ∈ df /\ customer_id r = Some c)
          /\ cust = ShowInsights.customer_entry
                      (c, Pandas.group_rows customer_id df c).
  Proof.
    unfold ShowInsights.customer_analysis. rewrite list_elem_of_fmap. split.
    - intros ([c g] & -> & [Hr ->]%elem_of_groupby). now exists c.
    - intros (c & Hr & ->). eexists (c, _). split; [reflexivity|].
      now apply elem_of_groupby.
  Qed.

  (** The repeat-customer table of the case studies: exactly the customers
      with three or more orders. *)
Lemma repeat_customers_iff (df : list row) (c : string) :
    c ∈ map ShowInsights.cust_id (ShowInsights.repeat_customers df)
    <-> (3 <= Customers.orders_of df c)%nat.
  Proof.
    unfold ShowInsights.repeat_customers. rewrite list_elem_of_fmap. split.
    - intros (cust & -> & [Hn Hin]%list_elem_of_filter).
      apply elem_of_customer_analysis in Hin as (c & _ & ->). exact Hn.
    - intros Hn.
      exists (ShowInsights.customer_entry (c, Pandas.group_rows customer_id df c)).
      split; [reflexivity|]. apply list_elem_of_filter. split; [exact Hn|].
      apply elem_of_customer_analysis. exists c. split; [|reflexivity].
      destruct (count_pos_inv Order_ID
                  (filter (fun r => customer_id r = Some c) df)) as [r Hr].
      + unfold Customers.orders_of in Hn. lia.
      + apply list_elem_of_filter in Hr as [Hc Hr]. now exists r.
  Qed.

Lemma filtered_orders_le (df : list row) (c : string) (P : row -> Prop)
      `{forall r, Decision (P r)} :
    (Customers.dated_orders_of (filter P df) c
     <= Customers.dated_orders_of df c)%nat.
  Proof.
    unfold Customers.dated_orders_of, Pandas.count.
    induction df as [|r df IH]; [reflexivity|].
    rewrite (filter_cons P). case_decide.
    - rewrite !(filter_cons (fun r => customer_id r = Some c)).
      case_decide; [|exact IH].
      rewrite !fmap_cons, !filter_cons.
      case_decide; simpl; [apply le_n_S|]; exact IH.
    - rewrite (filter_cons (fun r => customer_id r = Some c)).
      case_decide; [|exact IH].
      rewrite fmap_cons, filter_cons.
      case_decide; simpl; [apply le_S|]; exact IH.
  Qed.

Lemma gantt_customers (df : list row) (top_n : nat) (order : string)
      (c : string) :
    c ∈ map AdvancedTimeSeries.cust_id
          (AdvancedTimeSeries.create_customer_lifecycle_gantt df top_n order) ->
    (3 <= Customers.dated_orders_of df c)%nat.
  Proof.
    unfold AdvancedTimeSeries.create_customer_lifecycle_gantt,
      Pandas.nlargest, Pandas.nsmallest.
    intros (cust & -> & Hin)%list_elem_of_fmap.
    assert (Hrep : cust ∈ filter (fun c => (3 <= AdvancedTimeSeries.total_orders c)%nat)
                     (map AdvancedTimeSeries.customer_entry
                        (Pandas.groupby customer_id Pandas.str_le df))).
    { destruct (String.eqb order "top");
        apply subseteq_take in Hin;
        now rewrite merge_sort_Permutation in Hin. }
    apply list_elem_of_filter in Hrep as [Hn Hin'].
    apply list_elem_of_fmap in Hin' as ([k g] & -> & [_ ->]%elem_of_groupby).
    exact Hn.
  Qed.

  (** The table behind the lifecycle chart: exactly the customers with three
      or more dated orders in the frame the chart is given. *)
Lemma gantt_table_iff (df : list row) (c : string) :
    c ∈ map AdvancedTimeSeries.cust_id
          (filter (fun c => (3 <= AdvancedTimeSeries.total_orders c)%nat)
             (map AdvancedTimeSeries.customer_entry
                (Pandas.groupby customer_id Pandas.str_le df)))
    <-> (3 <= Customers.dated_orders_of df c)%nat.
  Proof.
    rewrite list_elem_of_fmap. split.
    - intros (cust & -> & [Hn Hin]%list_elem_of_filter).
      apply list_elem_of_fmap in Hin as ([k g] & -> & [_ ->]%elem_of_groupby).
      exact Hn.
    - intros Hn.
      exists (AdvancedTimeSeries.customer_entry
                (c, Pandas.group_rows customer_id df c)).
      split; [reflexivity|]. apply list_elem_of_filter. split; [exact Hn|].
      apply list_elem_of_fmap. eexists (c, _). split; [reflexivity|].
      apply elem_of_groupby. split; [|reflexivity].
      destruct (count_pos_inv Order_date
                  (filter (fun r => customer_id r = Some c) df)) as [r Hr].
      + unfold Customers.dated_orders_of in Hn. lia.
      + apply list_elem_of_filter in Hr as [Hc Hr]. now exists r.
  Qed.

Lemma omap_id_map {A B : Type} (f : A -> option B) (l : list A) :
    omap id (map f l) = omap f l.
  Proof.
    induction l as [|x l IH]; [reflexivity|].
    cbn [map]. cbn. destruct (f x); cbn; [f_equal|]; exact IH.
  Qed.

  (** A chart wide enough for every customer of its frame draws the whole
      table. *)
Lemma gantt_all (df : list row) (top_n : nat) (order : string) (c : string) :
    (Pandas.nunique (map customer_id df) <= top_n)%nat ->
    c ∈ map AdvancedTimeSeries.cust_id
          (AdvancedTimeSeries.create_customer_lifecycle_gantt df top_n order)
    <-> (3 <= Customers.dated_orders_of df c)%nat.
  Proof.
    intros Hn. rewrite <- gantt_table_iff.
    unfold AdvancedTimeSeries.create_customer_lifecycle_gantt,
      Pandas.nlargest, Pandas.nsmallest.
    set (table := filter (fun c => (3 <= AdvancedTimeSeries.total_orders c)%nat)
                    (map AdvancedTimeSeries.customer_entry
                       (Pandas.groupby customer_id Pandas.str_le df))).
    assert (Hlen : (length table <= top_n)%nat).
    { unfold table. etransitivity; [apply length_filter|].
      rewrite length_map. unfold Pandas.groupby. rewrite length_map.
      rewrite (Permutation_length (merge_sort_Permutation _ _)).
      unfold Pandas.nunique in Hn. now rewrite omap_id_map in Hn. }
    destruct (String.eqb order "top").
    - rewrite take_ge
        by (rewrite (Permutation_length (merge_sort_Permutation _ _)); exact Hlen).
      rewrite !list_elem_of_fmap.
      split; intros (cust & -> & Hin); exists cust; (split; [reflexivity|]).
      + now rewrite merge_sort_Permutation in Hin.
      + now rewrite merge_sort_Permutation.
    - rewrite take_ge
        by (rewrite (Permutation_length (merge_sort_Permutation _ _)); exact Hlen).
      rewrite !list_elem_of_fmap.
      split; intros (cust & -> & Hin); exists cust; (split; [reflexivity|]).
      + now rewrite merge_sort_Permutation in Hin.
      + now rewrite merge_sort_Permutation.
  Qed.

End CustomerTables.

(** ** Dictionaries and counters *)
Section DictFacts.
Context {K V : Type} `{EqDecision K}.

Lemma dict_get_set (k k' : K) (v : V) (d : list (K * V)) :
    Py.dict_get k' (Py.dict_set k v d)
    = if decide (k' = k) then Some v else Py.dict_get k' d.
  Proof.
    induction d as [|[k0 v0] d IH]; simpl.
    - repeat case_decide; congruence.
    - destruct (decide (k = k0)) as [->|Hne]; simpl.
      + repeat case_decide; congruence.
      + rewrite IH. repeat case_decide; congruence.
  Qed.

Lemma dict_set_keys (k : K) (v : V) (d : list (K * V)) :
    map fst (Py.dict_set k v d)
    = if decide (k ∈ map fst d) then map fst d else (map fst d ++ [k])%list.
  Proof.
    induction d as [|[k0 v0] d IH]; cbn [Py.dict_set map fst].
    - destruct (decide (k ∈ @nil K)) as [H1|H1];
        [now apply elem_of_nil in H1 | reflexivity].
    - destruct (decide (k = k0)) as [->|Hne]; cbn [map fst].
      + destruct (decide (k0 ∈ k0 :: map fst d)) as [H1|H1]; [reflexivity|].
        exfalso. apply H1. left.
      + rewrite IH.
        destruct (decide (k ∈ map fst d)) as [H1|H1],
          (decide (k ∈ k0 :: map fst d)) as [H2|H2]; try reflexivity.
        * exfalso. apply H2. now right.
        * apply elem_of_cons in H2 as [?|?]; [congruence | contradiction].
  Qed.

Lemma dict_set_NoDup (k : K) (v : V) (d : list (K * V)) :
    NoDup (map fst d) -> NoDup (map fst (Py.dict_set k v d)).
  Proof.
    intros Hd. rewrite dict_set_keys. case_decide as Hk; [exact Hd|].
    apply NoDup_app. repeat split; [exact Hd | | apply NoDup_singleton].
    intros x Hx ->%list_elem_of_singleton. contradiction.
  Qed.

Lemma dict_get_Some_elem (k : K) (v : V) (d : list (K * V)) :
    Py.dict_get k d = Some v -> (k, v) ∈ d.
  Proof.
    induction d as [|[k0 v0] d IH]; simpl; [discriminate|].
    case_decide as Hk.
    - intros [= ->]. subst. left.
    - intros Hg. right. now apply IH.
  Qed.

Lemma dict_get_None_keys (k : K) (d : list (K * V)) :
    Py.dict_get k d = None <-> k ∉ map fst d.
  Proof.
    induction d as [|[k0 v0] d IH]; simpl.
    - split; [intros _ H1; now apply elem_of_nil in H1 | reflexivity].
    - case_decide as Hk.
      + subst. split; [discriminate|]. intros H1. exfalso. apply H1. left.
      + rewrite IH. split.
        * intros Hn [?|?]%elem_of_cons; [congruence | contradiction].
        * intros Hn Hin. apply Hn. now right.
  Qed.

Lemma dict_get_NoDup_elem (k : K) (v : V) (d : list (K * V)) :
  NoDup (map fst d) -> (k, v) ∈ d -> Py.dict_get k d = Some v.
Proof.
  induction d as [|[k0 v0] d IH]; intros Hnd Hin.
  - now apply elem_of_nil in Hin.
  - cbn [map fst] in Hnd. apply NoDup_cons in Hnd as [Hk Hnd].
    cbn [Py.dict_get]. apply elem_of_cons in Hin as [[= -> ->]|Hin].
    + destruct (decide (k0 = k0)); [reflexivity | contradiction].
    + destruct (decide (k = k0)) as [->|_]; [|now apply IH].
      exfalso. apply Hk. apply list_elem_of_fmap. now exists (k0, v).
Qed.

End DictFacts.

Lemma filter_ext_elem {A : Type} (P Q : A -> Prop)
    `{forall x, Decision (P x)} `{forall x, Decision (Q x)} (l : list A) :
  (forall x, x ∈ l -> P x <-> Q x) -> filter P l = filter Q l.
Proof.
  induction l as [|x l IH]; intros Hext; [reflexivity|].
  rewrite !filter_cons.
  assert (Hx : P x <-> Q x) by (apply Hext; left).
  rewrite IH by (intros y Hy; apply Hext; now right).
  destruct (decide (P x)), (decide (Q x)); tauto.
Qed.

Section CustomerOrders.

Local Abbreviation pyrow := (gmap string string).
Local Abbreviation email_of := BasicAnalysis.buyer_email.
Local Abbreviation orders_step := BasicAnalysis.count_order.

Lemma customer_orders_fold (data : list pyrow) :
    BasicAnalysis.customer_orders data = fold_left orders_step data [].
  Proof. reflexivity. Qed.

Lemma email_orders_cons (row : pyrow) (data : list pyrow) (e : string) :
    Customers.email_orders (row :: data) e
    = (if decide (email_of row = e) then 1 else 0)
      + Customers.email_orders data e.
  Proof.
    unfold Customers.email_orders. rewrite filter_cons.
    case_decide; simpl length; lia.
  Qed.

Lemma email_orders_nonneg (data : list pyrow) (e : string) :
    0 <= Customers.email_orders data e.
  Proof. unfold Customers.email_orders. lia. Qed.

Lemma orders_fold_get (data : list pyrow) (acc : list (string * Z))
      (e : string) :
    Py.truthy e = true ->
    Py.dict_get e (fold_left orders_step data acc)
    = if Customers.email_orders data e =? 0 then Py.dict_get e acc
      else Some (default 0 (Py.dict_get e acc) + Customers.email_orders data e).
  Proof.
    intros He. revert acc. induction data as [|row data IH]; intros acc.
    - reflexivity.
    - cbn [fold_left]. rewrite IH, email_orders_cons.
      pose proof (email_orders_nonneg data e) as Hn.
      unfold BasicAnalysis.count_order. cbn zeta. destruct (Py.truthy (email_of row)) eqn:Ht.
      + unfold Py.counter_incr. rewrite dict_get_set.
        destruct (decide (email_of row = e)) as [Heq|Hne].
        * subst e. rewrite decide_True by reflexivity.
          destruct (Z.eqb_spec (Customers.email_orders data (email_of row)) 0)
            as [Hz|Hz];
            destruct (Z.eqb_spec (1 + Customers.email_orders data (email_of row)) 0);
            try lia.
          -- rewrite Hz. reflexivity.
          -- simpl. f_equal. lia.
        * rewrite decide_False by congruence. reflexivity.
      + destruct (decide (email_of row = e)) as [Heq|Hne]; [|reflexivity].
        congruence.
  Qed.

Lemma orders_fold_keys (data : list pyrow) (acc : list (string * Z)) :
    NoDup (map fst acc) ->
    Forall (fun k => Py.truthy k = true) (map fst acc) ->
    NoDup (map fst (fold_left orders_step data acc))
    /\ Forall (fun k => Py.truthy k = true)
              (map fst (fold_left orders_step data acc)).
  Proof.
    revert acc. induction data as [|row data IH]; intros acc Hnd Hall.
    - now split.
    - cbn [fold_left]. apply IH; unfold BasicAnalysis.count_order; cbn zeta;
        destruct (Py.truthy (email_of row)) eqn:Ht; try assumption.
      + now apply dict_set_NoDup.
      + unfold Py.counter_incr. rewrite dict_set_keys.
        case_decide; [assumption|].
        apply Forall_app. split; [assumption|]. now constructor.
  Qed.

  (** What [customer_orders] holds for an email: its number of orders, and
      nothing for the empty email. *)
Lemma customer_orders_get (data : list pyrow) (e : string) :
    Py.dict_get e (BasicAnalysis.customer_orders data)
    = if Py.truthy e && (0 <? Customers.email_orders data e)
      then Some (Customers.email_orders data e) else None.
  Proof.
    rewrite customer_orders_fold.
    destruct (Py.truthy e) eqn:He.
    - rewrite orders_fold_get by exact He.
      pose proof (email_orders_nonneg data e).
      destruct (Z.eqb_spec (Customers.email_orders data e) 0),
        (Z.ltb_spec 0 (Customers.email_orders data e)); try lia; reflexivity.
    - apply dict_get_None_keys. intros Hin.
      destruct (orders_fold_keys data [] (NoDup_nil_2) (Forall_nil_2 _))
        as [_ Hall].
      rewrite Forall_forall in Hall. specialize (Hall e Hin). congruence.
  Qed.

  (** A row without a buyer email leaves [customer_orders] and the count of
      unique customers as they are. *)
Lemma orders_skip_no_email (row : pyrow) (l1 l2 : list pyrow) :
    Py.truthy (BasicAnalysis.get_str row "Buyer email") = false ->
    BasicAnalysis.customer_orders (l1 ++ row :: l2)
    = BasicAnalysis.customer_orders (l1 ++ l2).
  Proof.
    intros He. rewrite !customer_orders_fold, !fold_left_app. cbn [fold_left].
    f_equal. unfold BasicAnalysis.count_order at 1. cbn zeta.
    unfold BasicAnalysis.buyer_email at 1. now rewrite truthy_lower, He.
  Qed.

Lemma unique_skip_no_email (row : pyrow) (l1 l2 : list pyrow) :
    Py.truthy (BasicAnalysis.get_str row "Buyer email") = false ->
    BasicAnalysis.unique_customers (l1 ++ row :: l2)
    = BasicAnalysis.unique_customers (l1 ++ l2).
  Proof.
    intros He. unfold BasicAnalysis.unique_customers.
    rewrite !filter_app, filter_cons, He. case_decide; [contradiction|].
    reflexivity.
  Qed.

Lemma truthy_nonempty (e : string) : Py.truthy e = true <-> e <> "".
  Proof. destruct e; cbn; split; congruence. Qed.

  (** The keys of [customer_orders]: the non-empty emails that occur. *)
Lemma customer_orders_key_iff (data : list pyrow) (e : string) :
    e ∈ map fst (BasicAnalysis.customer_orders data)
    <-> e <> "" /\ 0 < Customers.email_orders data e.
  Proof.
    pose proof (customer_orders_get data e) as Hget.
    pose proof (dict_get_None_keys e (BasicAnalysis.customer_orders data)) as Hn.
    rewrite <- truthy_nonempty.
    destruct (Py.truthy e); cbn [andb] in Hget.
    - destruct (Z.ltb_spec 0 (Customers.email_orders data e)).
      + split; [now split|]. intros _.
        destruct (decide (e ∈ map fst (BasicAnalysis.customer_orders data)))
          as [Hin|Hout]; [assumption|]. apply Hn in Hout. congruence.
      + split; [|intros [_ ?]; lia]. intros Hin. exfalso.
        now apply (proj1 Hn Hget).
    - split; [|intros [? _]; discriminate]. intros Hin. exfalso.
      now apply (proj1 Hn Hget).
  Qed.

  (** Each entry of [customer_orders] holds the number of rows of its
      email. *)
Lemma customer_orders_entry (data : list pyrow) (kv : string * Z) :
    kv ∈ BasicAnalysis.customer_orders data ->
    kv.2 = Customers.email_orders data kv.1.
  Proof.
    intros Hin. destruct kv as [e n]. cbn [fst snd].
    assert (Hget : Py.dict_get e (BasicAnalysis.customer_orders data) = Some n).
    { apply dict_get_NoDup_elem; [|exact Hin].
      rewrite customer_orders_fold. apply (orders_fold_keys data []); constructor. }
    rewrite customer_orders_get in Hget.
    destruct (Py.truthy e && (0 <? Customers.email_orders data e));
      congruence.
  Qed.

Lemma filter_keys_length (P : string -> Prop) `{forall e, Decision (P e)}
      (l : list (string * Z)) :
    length (filter (fun kv : string * Z => P kv.1) l)
    = length (filter P (map fst l)).
  Proof.
    induction l as [|kv l IH]; [reflexivity|].
    cbn [map]. rewrite !filter_cons.
    destruct (decide (P kv.1)); cbn [length]; now rewrite IH.
  Qed.

  (** [repeat_customers]: the emails with more than one row. *)
Lemma repeat_customers_count (data : list pyrow) :
    BasicAnalysis.repeat_customers data
    = Z.of_nat (length (filter (fun e => 1 < Customers.email_orders data e)
                               (map fst (BasicAnalysis.customer_orders data)))).
  Proof.
    unfold BasicAnalysis.repeat_customers. f_equal.
    rewrite <- (filter_keys_length (fun e => 1 < Customers.email_orders data e)).
    apply (f_equal (@length _)). apply filter_ext_elem.
    intros kv Hin. rewrite (customer_orders_entry data kv Hin).
    split; intros H.
    - apply Is_true_true in H. now apply Z.ltb_lt in H.
    - apply Is_true_true. now apply Z.ltb_lt.
  Qed.

Lemma repeat_customer_rate_value (data : list pyrow) :
    BasicAnalysis.repeat_customer_rate data
    = Py.Ok (match length (BasicAnalysis.customer_orders data) with
             | O => Py.PInt 0
             | S _ =>
                 Py.PFloat
                   (PrimFloat.mul
                      (PrimFloat.div
                         (Py.float_of_Z (BasicAnalysis.repeat_customers data))
                         (Py.float_of_Z
                            (Z.of_nat (length (BasicAnalysis.customer_orders data)))))
                      100%float)
             end).
  Proof.
    unfold BasicAnalysis.repeat_customer_rate, Py.truediv.
    destruct (length (BasicAnalysis.customer_orders data)) as [|n] eqn:E.
    - reflexivity.
    - destruct (Z.ltb_spec 0 (Z.of_nat (S n))); [|lia].
      destruct (Z.eqb_spec (Z.of_nat (S n)) 0); [lia|]. reflexivity.
  Qed.

End CustomerOrders.

(** C2, as stated, fails on the code in two views.  A customer with two
    orders ("A@X.com" bought twice) is below the threshold of 3, yet the
    batch analysis counts it as a repeat customer and reports a
    repeat-customer rate of 100%.  And a customer with three orders in the
    whole dataset, one on each of three show days, is in the case-study
    table but on no lifecycle chart of a single show day: the chart of the
    Monday shows is empty. *)
Lemma C2_counterexample :
  Customers.email_orders Customers.two_orders "a@x.com" = 2
  /\ 2 < Spec.repeat_order_threshold
  /\ BasicAnalysis.repeat_customers Customers.two_orders = 1
  /\ BasicAnalysis.repeat_customer_rate Customers.two_orders
     = Py.Ok (Py.PFloat 100%float)
  /\ Customers.orders_of Sample.spread_orders "a@x.com" = 3%nat
  /\ Customers.dated_orders_of Sample.spread_orders "a@x.com" = 3%nat
  /\ map ShowInsights.cust_id (ShowInsights.repeat_customers Sample.spread_orders)
     = ["a@x.com"]
  /\ map AdvancedTimeSeries.cust_id
       (AdvancedTimeSeries.show_gantt_customer_subheader
          Sample.spread_orders "All Shows" 20)
     = ["a@x.com"]
  /\ AdvancedTimeSeries.show_gantt_customer_subheader
       Sample.spread_orders "Monday" 20
     = [].
Proof. repeat split; vm_compute; reflexivity. Qed.

(** C2, amended: the repeat-customer table behind the case studies
    ([ShowInsights], [ShowLevelAnalysis], the dashboard) holds a
    customer_id if and only if it has at least 3 orders in the whole frame,
    and the rankings shown are drawn from that table.  The customer
    lifecycle chart is computed from the frame filtered by the chosen show
    day (the whole frame for "All Shows"): every customer it draws has at
    least 3 dated orders in that filtered frame, hence in the whole frame,
    and when [top_n] is at least the number of customers of the filtered
    frame it draws exactly the customers with at least 3 dated orders
    there.  In the batch analysis [customer_orders] has one entry for each
    non-empty lowercased email that occurs, [repeat_customers] is the
    number of those emails with more than 1 row, and the repeat-customer
    rate is 100 times that number over the number of emails, 0 when there
    is none. *)
Theorem C2_repeat_customer_views :
  (forall df c,
      (c ∈ map ShowInsights.cust_id (ShowInsights.repeat_customers df)
       <-> (3 <= Customers.orders_of df c)%nat)
      /\ (c ∈ map ShowInsights.cust_id (ShowLevelAnalysis.repeat_customers_table df)
          <-> (3 <= Customers.orders_of df c)%nat)
      /\ (c ∈ map ShowInsights.cust_id (Dashboard.repeat_customers df)
          <-> (3 <= Customers.orders_of df c)%nat)
      /\ (c ∈ map ShowInsights.cust_id (ShowInsights.top_spenders df)
          -> (3 <= Customers.orders_of df c)%nat)
      /\ (c ∈ map ShowInsights.cust_id (ShowInsights.most_frequent df)
          -> (3 <= Customers.orders_of df c)%nat))
  /\ (forall df show_filter top_n c,
         (c ∈ map AdvancedTimeSeries.cust_id
                (AdvancedTimeSeries.show_gantt_customer_subheader
                   df show_filter top_n)
          -> (3 <= Customers.dated_orders_of
                     (if negb (String.eqb show_filter "All Shows")
                      then filter (fun r => Frame.day_of_week r = show_filter) df
                      else df) c)%nat
             /\ (3 <= Customers.dated_orders_of df c)%nat)
         /\ ((Pandas.nunique
                (map Frame.customer_id
                   (if negb (String.eqb show_filter "All Shows")
                    then filter (fun r => Frame.day_of_week r = show_filter) df
                    else df)) <= top_n)%nat
             -> (c ∈ map AdvancedTimeSeries.cust_id
                      (AdvancedTimeSeries.show_gantt_customer_subheader
                         df show_filter top_n)
                 <-> (3 <= Customers.dated_orders_of
                            (if negb (String.eqb show_filter "All Shows")
                             then filter
                                    (fun r => Frame.day_of_week r = show_filter) df
                             else df) c)%nat)))
  /\ (forall data e,
         (exists n, Py.dict_get e (BasicAnalysis.customer_orders data) = Some n
                    /\ 1 < n)
         <-> (e <> "" /\ 1 < Customers.email_orders data e))
  /\ (forall data,
         NoDup (map fst (BasicAnalysis.customer_orders data))
         /\ (forall e,
               e ∈ map fst (BasicAnalysis.customer_orders data)
               <-> e <> "" /\ 0 < Customers.email_orders data e)
         /\ BasicAnalysis.repeat_customers data
            = Z.of_nat
                (length (filter (fun e => 1 < Customers.email_orders data e)
                                (map fst (BasicAnalysis.customer_orders data))))
         /\ BasicAnalysis.repeat_customer_rate data
            = Py.Ok
                (match length (BasicAnalysis.customer_orders data) with
                 | O => Py.PInt 0
                 | S _ =>
                     Py.PFloat
                       (PrimFloat.mul
                          (PrimFloat.div
                             (Py.float_of_Z (BasicAnalysis.repeat_customers data))
                             (Py.float_of_Z
                                (Z.of_nat
                                   (length (BasicAnalysis.customer_orders data)))))
                          100%float)
                 end)).
Proof.
  split; [|split; [|split]].
  - intros df c.
    pose proof (repeat_customers_iff df c) as Hiff.
    repeat split; try (apply Hiff).
    + intros (cust & -> & Hin)%list_elem_of_fmap. apply Hiff.
      apply list_elem_of_fmap. exists cust. split; [reflexivity|].
      unfold ShowInsights.top_spenders, Pandas.nlargest in Hin.
      apply subseteq_take in Hin. now rewrite merge_sort_Permutation in Hin.
    + intros (cust & -> & Hin)%list_elem_of_fmap. apply Hiff.
      apply list_elem_of_fmap. exists cust. split; [reflexivity|].
      unfold ShowInsights.most_frequent, Pandas.nlargest in Hin.
      apply subseteq_take in Hin. now rewrite merge_sort_Permutation in Hin.
  - intros df show_filter top_n c.
    unfold AdvancedTimeSeries.show_gantt_customer_subheader.
    destruct (negb (String.eqb show_filter "All Shows")).
    + split.
      * intros Hin. apply gantt_customers in Hin. split; [exact Hin|].
        etransitivity; [exact Hin | apply filtered_orders_le].
      * intros Hn. now apply gantt_all.
    + split.
      * intros Hin. apply gantt_customers in Hin. now split.
      * intros Hn. now apply gantt_all.
  - intros data e. rewrite customer_orders_get. split.
    + intros (n & Hn & Hgt).
      destruct (Py.truthy e) eqn:He; [|discriminate].
      destruct (0 <? Customers.email_orders data e); [|discriminate].
      injection Hn as <-. split; [|exact Hgt]. intros ->. discriminate.
    + intros [He Hgt]. exists (Customers.email_orders data e).
      split; [|exact Hgt].
      replace (Py.truthy e) with true by (destruct e; [contradiction | reflexivity]).
      destruct (Z.ltb_spec 0 (Customers.email_orders data e)); [reflexivity|lia].
  - intros data. split; [|split; [|split]].
    + rewrite customer_orders_fold.
      apply (orders_fold_keys data []); constructor.
    + intros e. apply customer_orders_key_iff.
    + apply repeat_customers_count.
    + apply repeat_customer_rate_value.
Qed.

(** C8, as stated, fails on the code: an order whose buyer email is empty
    gets no "no customer" bucket.  In the batch analysis its customer id is
    the empty string, and [customer_orders] and the unique-customer count
    skip it; in the pandas modules the id is the missing marker, not the
    empty string, and [groupby('customer_id')] yields no group for it. *)
Lemma C8_counterexample :
  BasicAnalysis.buyer_email Customers.no_email_order = ""
  /\ BasicAnalysis.customer_orders [Customers.no_email_order] = []
  /\ BasicAnalysis.unique_customers [Customers.no_email_order] = 0
  /\ Frame.customer_id (ShowInsights.prepare_row (fun _ => None) Sample.csv_no_email)
     = None
  /\ ShowInsights.customer_analysis
       [ShowInsights.prepare_row (fun _ => None) Sample.csv_no_email] = [].
Proof. repeat split; vm_compute; reflexivity. Qed.

(** C8, amended: for every record whose buyer email is missing, the derived
    customer_id is the missing marker in the pandas modules and the empty
    string in the batch analysis, and such records are left out of the
    customer-level groupings: they belong to no group of
    [groupby('customer_id')], [customer_orders] never has an entry for the
    empty id, and removing such a record changes neither [customer_orders]
    nor the number of unique customers. *)
Theorem C8_missing_email_left_out :
  (forall parse r,
      Frame.csv_Buyer_email r = None ->
      Frame.customer_id (ShowInsights.prepare_row parse r) = None)
  /\ (forall (df : list Frame.row) r,
         Frame.customer_id r = None ->
         forall k g,
           (k, g) ∈ Pandas.groupby Frame.customer_id Pandas.str_le df ->
           r ∉ g)
  /\ (forall row : gmap string string,
         row !! "Buyer email" = None \/ row !! "Buyer email" = Some "" ->
         BasicAnalysis.buyer_email row = "")
  /\ (forall data,
         Py.dict_get "" (BasicAnalysis.customer_orders data) = None)
  /\ (forall (row : gmap string string) l1 l2,
         BasicAnalysis.buyer_email row = "" ->
         BasicAnalysis.customer_orders (l1 ++ row :: l2)
         = BasicAnalysis.customer_orders (l1 ++ l2)
         /\ BasicAnalysis.unique_customers (l1 ++ row :: l2)
            = BasicAnalysis.unique_customers (l1 ++ l2)).
Proof.
  repeat split.
  - intros parse r Hr. unfold ShowInsights.prepare_row. cbn. now rewrite Hr.
  - intros df r Hr k g. now apply groupby_drops_missing.
  - intros row [Hr|Hr]; unfold BasicAnalysis.buyer_email, BasicAnalysis.get_str;
      now rewrite Hr.
  - intros data. now rewrite customer_orders_get.
  - apply orders_skip_no_email.
    unfold BasicAnalysis.buyer_email in H.
    now rewrite <- truthy_lower, H.
  - apply unique_skip_no_email.
    unfold BasicAnalysis.buyer_email in H.
    now rewrite <- truthy_lower, H.
Qed.

(** ** Anomaly detection *)
Section Anomalies.

Lemma ltb_nan_r (t : float) : PrimFloat.ltb t nan = false.
  Proof.
    rewrite FloatAxioms.ltb_spec. replace (Prim2SF nan) with S754_nan by reflexivity.
    unfold SFltb, SFcompare. destruct (Prim2SF t) as [[]|[]| |[]]; reflexivity.
  Qed.

Lemma ltb_irrefl (c : float) : PrimFloat.ltb c c = false.
  Proof.
    rewrite FloatAxioms.ltb_spec. unfold SFltb.
    destruct (Prim2SF c) as [s|s| |s m e]; simpl;
      try (destruct s; reflexivity); try reflexivity.
    destruct s; rewrite Z.compare_refl, Pos.compare_cont_refl; reflexivity.
  Qed.

Lemma eqb_refl_not_nan (c : float) :
    Pandas.isna c = false -> PrimFloat.eqb c c = true.
  Proof. unfold Pandas.isna. now intros ->%negb_false_iff. Qed.

Lemma fmin_same (c : float) : Pandas.isna c = false -> Scipy.fmin c c = c.
  Proof. intros Hc. unfold Scipy.fmin. now rewrite Hc, ltb_irrefl. Qed.

Lemma np_min_constant (c : float) (n : nat) :
    Pandas.isna c = false -> Scipy.np_min (List.repeat c (S n)) = c.
  Proof.
    intros Hc. cbn [List.repeat Scipy.np_min].
    induction n as [|n IH]; [reflexivity|].
    cbn [List.repeat fold_left]. now rewrite fmin_same.
  Qed.

Lemma forallb_constant (c : float) (n : nat) :
    Pandas.isna c = false ->
    forallb (fun x => PrimFloat.eqb x c) (List.repeat c n) = true.
  Proof.
    intros Hc. induction n as [|n IH]; [reflexivity|].
    cbn [List.repeat forallb]. now rewrite eqb_refl_not_nan, IH.
  Qed.

  (** The z-scores of a constant array are all NaN. *)
Lemma zscore_constant (c : float) (n : nat) :
    Pandas.isna c = false ->
    Scipy.zscore (List.repeat c n) = List.repeat nan n.
  Proof.
    intros Hc. destruct n as [|n]; [reflexivity|].
    unfold Scipy.zscore, Scipy.zmap.
    change (List.repeat c (S n)) with (c :: List.repeat c n) at 1.
    cbv beta iota zeta.
    rewrite (np_min_constant c n Hc), (forallb_constant c (S n) Hc).
    rewrite map_map. generalize (S n) as k. intros k.
    induction k as [|k IH]; [reflexivity|]. cbn [List.repeat map]. now rewrite IH.
  Qed.

Lemma dropna_constant (c : float) (data : list float) :
    Pandas.isna c = false ->
    Forall (fun x => x = c \/ Pandas.isna x = true) data ->
    Pandas.dropna data = List.repeat c (length (Pandas.dropna data)).
  Proof.
    intros Hc Hall. unfold Pandas.dropna.
    induction Hall as [|x data [->|Hx] _ IH].
    - reflexivity.
    - rewrite filter_cons, Hc. cbn [negb].
      case_decide as H; [|exfalso; apply H; exact I].
      cbn [length List.repeat]. now rewrite <- IH.
    - rewrite filter_cons, Hx. cbn [negb].
      case_decide as H; [exfalso; exact H|].
      exact IH.
  Qed.

End Anomalies.

(** C4: for every sequence whose entries, missing ones apart, all equal one
    value, and every threshold, [detect_anomalies] returns a mask that is
    false at every entry; the computation has no failing step (a zero
    deviation is replaced by 1 in [zmap], and the scores become NaN, which
    no threshold is below). *)
Theorem C4_constant_sequence_no_anomaly
    (data : list float) (c threshold : float) :
  Pandas.isna c = false ->
  Forall (fun x => x = c \/ Pandas.isna x = true) data ->
  AdvancedTimeSeries.detect_anomalies data threshold
  = List.repeat false (length (Pandas.dropna data)).
Proof.
  intros Hc Hall. unfold AdvancedTimeSeries.detect_anomalies.
  rewrite (dropna_constant c data Hc Hall) at 1.
  rewrite (zscore_constant c _ Hc).
  generalize (length (Pandas.dropna data)) as n. intros n.
  induction n as [|n IH]; [reflexivity|].
  cbn [List.repeat map]. rewrite IH. f_equal.
  change (PrimFloat.abs nan) with nan. apply ltb_nan_r.
Qed.

(** Ten orders on each of three days and a day without data, threshold 2. *)
Lemma C4_witness :
  AdvancedTimeSeries.detect_anomalies
    [10%float; 10%float; nan; 10%float] 2%float
  = List.repeat false
      (length (Pandas.dropna [10%float; 10%float; nan; 10%float])).
Proof.
  apply (C4_constant_sequence_no_anomaly
           [10%float; 10%float; nan; 10%float] 10%float 2%float).
  - reflexivity.
  - repeat constructor; (now left) || (now right).
Defined.

(** The specification's example: in [10, 12, 11, 50, 9, 10, 11] with
    threshold 2 exactly the entry 50 is flagged; and a constant sequence
    whose float mean is not the constant itself is still not flagged. *)
Example anomaly_examples :
  AdvancedTimeSeries.detect_anomalies
    [10; 12; 11; 50; 9; 10; 11]%float 2%float
  = [false; false; false; true; false; false; false]
  /\ AdvancedTimeSeries.detect_anomalies
       (List.repeat (PrimFloat.div 1 10)%float 10) (PrimFloat.div 1 2)%float
     = List.repeat false 10.
Proof. split; vm_compute; reflexivity. Qed.

(** ** Number parsing in the batch analysis *)
Section Parsing.

Lemma analyze_data_raises_with_tickets
      (float_of_str strptime_datetime strptime_date : string -> Py.result _)
      (data : list (gmap string string)) (e : Py.exn) :
    BasicAnalysis.total_tickets data = Py.Raise e ->
    BasicAnalysis.analyze_data float_of_str strptime_datetime strptime_date data
    = Py.Raise e.
  Proof. intros H. unfold BasicAnalysis.analyze_data. now rewrite H. Qed.

  (** A Gross sales cell that [float] refuses aborts the total revenue, and
      with it the whole analysis. *)
Lemma total_revenue_raises
      (float_of_str : string -> Py.result float)
      (row : gmap string string) (s : string) (e : Py.exn) :
    row !! "Gross sales" = Some s -> Py.truthy s = true ->
    float_of_str s = Py.Raise e ->
    BasicAnalysis.total_revenue float_of_str [row] = Py.Raise e.
  Proof.
    intros Hs Ht He.
    assert (Hg : BasicAnalysis.get_str row "Gross sales" = s)
      by (unfold BasicAnalysis.get_str; now rewrite Hs).
    unfold BasicAnalysis.total_revenue.
    rewrite filter_cons, Hg, Ht.
    destruct (decide (Is_true true)) as [_|H]; [|exfalso; apply H; exact I].
    cbn [Py.mapM]. rewrite Hg, He. reflexivity.
  Qed.

  (** In the customer loop the same conversion is guarded: the spending
      table is built whatever [float] does. *)
Lemma customer_spending_guarded
      (float_of_str : string -> Py.result float) :
    (forall s, float_of_str s = Py.Raise Py.ValueError) ->
    BasicAnalysis.customer_spending float_of_str [Customers.bad_gross_order]
    = [("b@y.org", 0%float)].
  Proof.
    intros H. unfold BasicAnalysis.customer_spending. cbn [fold_left].
    vm_compute Py.truthy. cbn iota.
    replace (Customers.bad_gross_order !! "Gross sales") with (Some "N/A")
      by (vm_compute; reflexivity).
    rewrite H. vm_compute. reflexivity.
  Qed.

  (** [pd.to_numeric(errors='coerce')]: text the parser refuses becomes the
      missing marker. *)
Lemma to_numeric_coerce_missing (parse : string -> option float) (s : string) :
    parse s = None -> Frame.to_numeric_coerce parse (Frame.CStr s) = nan.
  Proof. intros H. cbn. now rewrite H. Qed.

End Parsing.

(** C5, on the failing input: a row whose Ticket quantity cell does not hold
    a number ("N/A", or an empty cell) makes [int(...)] raise [ValueError]
    in the total-tickets aggregate, which aborts [analyze_data] whatever the
    other parsers do: the aggregate is not defined on such a record.  (The
    pandas modules coerce Gross sales with [errors='coerce'], and the
    customer loop of the same function guards the same conversion.) *)
Theorem C5_unparsable_quantity_raises :
  BasicAnalysis.total_tickets [Customers.bad_quantity_order]
  = Py.Raise Py.ValueError
  /\ BasicAnalysis.total_tickets [Customers.empty_quantity_order]
     = Py.Raise Py.ValueError
  /\ (forall float_of_str strptime_datetime strptime_date,
         BasicAnalysis.analyze_data float_of_str strptime_datetime strptime_date
           [Customers.bad_quantity_order]
         = Py.Raise Py.ValueError)
  /\ (forall float_of_str strptime_datetime strptime_date,
         BasicAnalysis.analyze_data float_of_str strptime_datetime strptime_date
           (Customers.two_orders ++ [Customers.empty_quantity_order])
         = Py.Raise Py.ValueError).
Proof.
  repeat split; try (vm_compute; reflexivity);
    intros; apply analyze_data_raises_with_tickets; vm_compute; reflexivity.
Qed.

(** ** Smoothing *)
Section SmoothingFacts.
Context {A P : Type}.
Variable rolling_mean : AdvancedTimeSeries.series A -> Z
                          -> Py.result (AdvancedTimeSeries.series A).
Variable ewm_mean : AdvancedTimeSeries.series A -> P
                      -> Py.result (AdvancedTimeSeries.series A).
Variable savgol_filter : list A -> Z -> Z -> Py.result (list A).

Abbreviation smooth :=
    (AdvancedTimeSeries.apply_smoothing rolling_mean ewm_mean savgol_filter).

Lemma savgol_branch (data : AdvancedTimeSeries.series A) (window : Z)
      (alpha : P) :
    smooth data "savgol" window alpha
    = if window <? Z.of_nat (length data)
      then arr ← savgol_filter (AdvancedTimeSeries.values data) window 3;
           AdvancedTimeSeries.mk_series arr (AdvancedTimeSeries.index data)
      else Py.Ok data.
  Proof. reflexivity. Qed.

Lemma mk_series_same_length (arr : list A) (idx : list Z) :
    length arr = length idx ->
    exists out, AdvancedTimeSeries.mk_series arr idx = Py.Ok out
      /\ AdvancedTimeSeries.index out = idx
      /\ AdvancedTimeSeries.values out = arr
      /\ length out = length idx.
  Proof.
    intros Hlen. unfold AdvancedTimeSeries.mk_series.
    rewrite Hlen, Nat.eqb_refl. exists (zip idx arr). split; [reflexivity|].
    unfold AdvancedTimeSeries.index, AdvancedTimeSeries.values.
    split; [apply fst_zip; lia|]. split; [apply snd_zip; lia|].
    rewrite length_zip_with. lia.
  Qed.

Lemma savgol_fallback (data : AdvancedTimeSeries.series A) (window : Z)
      (alpha : P) :
    Z.of_nat (length data) <= window ->
    smooth data "savgol" window alpha = Py.Ok data.
  Proof.
    intros H. rewrite savgol_branch.
    destruct (Z.ltb_spec window (Z.of_nat (length data))); [lia | reflexivity].
  Qed.

Lemma savgol_applied (data : AdvancedTimeSeries.series A) (window : Z)
      (alpha : P) (arr : list A) :
    window < Z.of_nat (length data) ->
    savgol_filter (AdvancedTimeSeries.values data) window 3 = Py.Ok arr ->
    length arr = length data ->
    exists out, smooth data "savgol" window alpha = Py.Ok out
      /\ AdvancedTimeSeries.index out = AdvancedTimeSeries.index data
      /\ AdvancedTimeSeries.values out = arr
      /\ length out = length data.
  Proof.
    intros Hw Harr Hlen. rewrite savgol_branch.
    destruct (Z.ltb_spec window (Z.of_nat (length data))); [|lia].
    rewrite Harr.
    destruct (mk_series_same_length arr (AdvancedTimeSeries.index data))
      as (out & Hout & Hi & Hv & Hl).
    - unfold AdvancedTimeSeries.index. now rewrite length_map.
    - exists out. repeat split; try assumption.
      rewrite Hl. unfold AdvancedTimeSeries.index. apply length_map.
  Qed.

End SmoothingFacts.

(** The exact filter returns as many values as it is given. *)
Lemma savgol_filter_length (x : list Q) (window polyorder : Z) (arr : list Q) :
  Scipy.savgol_filter x window polyorder = Py.Ok arr -> length arr = length x.
Proof.
  unfold Scipy.savgol_filter.
  destruct (negb (Z.odd window) || (window <=? 0)); [discriminate|].
  destruct (window <=? polyorder); [discriminate|].
  destruct (Z.of_nat (length x) <? window); [discriminate|].
  intros [= <-]. now rewrite length_map, length_seq.
Qed.

Lemma savgol_filter_accepts (x : list Q) (window : Z) :
  Z.odd window = true -> 3 < window -> window <= Z.of_nat (length x) ->
  exists arr, Scipy.savgol_filter x window 3 = Py.Ok arr.
Proof.
  intros Hodd H3 Hlen. unfold Scipy.savgol_filter. rewrite Hodd. cbn [negb orb].
  destruct (Z.leb_spec window 0); [lia|].
  destruct (Z.leb_spec window 3); [lia|].
  destruct (Z.ltb_spec (Z.of_nat (length x)) window); [lia|].
  eexists. reflexivity.
Qed.

(** C7, as stated, fails on the code.  With the odd window 5 on a series of
    length 5 the window does not exceed the length, yet [apply_smoothing]
    returns the raw series, while the degree-3 filter of that series has
    other values (17/35 at the peak, not 1).  And with the odd window 3 on
    a longer series the filter is called and refuses the arguments (the
    degree 3 is not below the window), so no filtered sequence comes
    back. *)
Lemma C7_counterexample :
  Z.odd 5 = true
  /\ ~ (5 > Z.of_nat (length Sample.impulse))
  /\ (forall (P : Type) rolling_mean ewm_mean (alpha : P),
         AdvancedTimeSeries.apply_smoothing rolling_mean ewm_mean
           Scipy.savgol_filter Sample.impulse "savgol" 5 alpha
         = Py.Ok Sample.impulse)
  /\ Scipy.savgol_filter (AdvancedTimeSeries.values Sample.impulse) 5 3
     = Py.Ok [(-3 # 35)%Q; (12 # 35)%Q; (17 # 35)%Q; (12 # 35)%Q; (-3 # 35)%Q]
  /\ AdvancedTimeSeries.values Sample.impulse = [0%Q; 0%Q; 1%Q; 0%Q; 0%Q]
  /\ Z.odd 3 = true
  /\ 3 < Z.of_nat (length Sample.ramp)
  /\ (forall (P : Type) rolling_mean ewm_mean (alpha : P),
         AdvancedTimeSeries.apply_smoothing rolling_mean ewm_mean
           Scipy.savgol_filter Sample.ramp "savgol" 3 alpha
         = Py.Raise Py.ValueError).
Proof.
  split; [reflexivity|]. split; [vm_compute; intros H; discriminate H|].
  split; [intros; vm_compute; reflexivity|].
  split; [vm_compute; reflexivity|]. split; [reflexivity|].
  split; [reflexivity|]. split; [reflexivity|].
  intros. vm_compute. reflexivity.
Qed.

(** C7, amended: for every series and every window, the Savitzky-Golay
    branch of [apply_smoothing] returns the raw series unchanged whenever
    the window is at least the series length, and otherwise hands the
    values to the degree-3 filter and returns what it yields over the
    index of the input: a series of the same length and index whenever the
    filter returns as many values as it was given, which the filter does
    for every odd window above 3 (with a window of 3 or less the filter
    refuses and the call fails). *)
Theorem C7_savgol_window_fallback :
  (forall (A P : Type) rolling_mean ewm_mean savgol_filter
          (data : AdvancedTimeSeries.series A) (window : Z) (alpha : P),
      (Z.of_nat (length data) <= window ->
       AdvancedTimeSeries.apply_smoothing rolling_mean ewm_mean savgol_filter
         data "savgol" window alpha = Py.Ok data)
      /\ (window < Z.of_nat (length data) ->
          AdvancedTimeSeries.apply_smoothing rolling_mean ewm_mean savgol_filter
            data "savgol" window alpha
          = (arr ← savgol_filter (AdvancedTimeSeries.values data) window 3;
             AdvancedTimeSeries.mk_series arr (AdvancedTimeSeries.index data)))
      /\ (window < Z.of_nat (length data) ->
          forall arr,
            savgol_filter (AdvancedTimeSeries.values data) window 3 = Py.Ok arr ->
            length arr = length data ->
            exists out,
              AdvancedTimeSeries.apply_smoothing rolling_mean ewm_mean
                savgol_filter data "savgol" window alpha = Py.Ok out
              /\ AdvancedTimeSeries.index out = AdvancedTimeSeries.index data
              /\ AdvancedTimeSeries.values out = arr
              /\ length out = length data))
  /\ (forall (P : Type) rolling_mean ewm_mean
             (data : AdvancedTimeSeries.series Q) (window : Z) (alpha : P),
         Z.odd window = true -> 3 < window ->
         window < Z.of_nat (length data) ->
         exists arr out,
           Scipy.savgol_filter (AdvancedTimeSeries.values data) window 3
           = Py.Ok arr
           /\ AdvancedTimeSeries.apply_smoothing rolling_mean ewm_mean
                Scipy.savgol_filter data "savgol" window alpha = Py.Ok out
           /\ AdvancedTimeSeries.index out = AdvancedTimeSeries.index data
           /\ AdvancedTimeSeries.values out = arr
           /\ length out = length data)
  /\ (forall (P : Type) rolling_mean ewm_mean
             (data : AdvancedTimeSeries.series Q) (window : Z) (alpha : P),
         window <= 3 -> window < Z.of_nat (length data) ->
         AdvancedTimeSeries.apply_smoothing rolling_mean ewm_mean
           Scipy.savgol_filter data "savgol" window alpha
         = Py.Raise Py.ValueError).
Proof.
  split; [|split].
  - intros A P rolling_mean ewm_mean savgol_filter data window alpha.
    split; [apply savgol_fallback|]. split.
    + intros Hw. rewrite savgol_branch.
      destruct (Z.ltb_spec window (Z.of_nat (length data))); [reflexivity|lia].
    + intros Hw arr Harr Hlen. now apply savgol_applied.
  - intros P rolling_mean ewm_mean data window alpha Hodd H3 Hw.
    destruct (savgol_filter_accepts (AdvancedTimeSeries.values data) window
                Hodd H3) as [arr Harr].
    { unfold AdvancedTimeSeries.values. rewrite length_map. lia. }
    assert (Hlen : length arr = length data).
    { apply savgol_filter_length in Harr.
      unfold AdvancedTimeSeries.values in Harr. now rewrite length_map in Harr. }
    destruct (savgol_applied rolling_mean ewm_mean Scipy.savgol_filter
                data window alpha arr Hw Harr Hlen) as (out & Hout & Hrest).
    exists arr, out. now repeat split.
  - intros P rolling_mean ewm_mean data window alpha H3 Hw.
    rewrite savgol_branch.
    destruct (Z.ltb_spec window (Z.of_nat (length data))); [|lia].
    unfold Scipy.savgol_filter.
    destruct (negb (Z.odd window) || (window <=? 0)); [reflexivity|].
    destruct (Z.leb_spec window 3); [reflexivity|lia].
Qed.

(** On a series of seven days with window 5 the filter is applied: the
    result keeps the index and smooths the peak. *)
Example savgol_applied_example :
  AdvancedTimeSeries.apply_smoothing
    (fun d _ => Py.Ok d) (fun d (_ : unit) => Py.Ok d)
    Scipy.savgol_filter Sample.ramp "savgol" 5 tt
  = Py.Ok [(0, (-3 # 35)%Q); (1, (12 # 35)%Q); (2, (17 # 35)%Q);
           (3, (12 # 35)%Q); (4, (-3 # 35)%Q); (5, (2 # 35)%Q);
           (6, (-1 # 70)%Q)].
Proof. vm_compute. reflexivity. Qed.

(** ** The JSON snapshot *)
Section DictPairs.
Context {K V : Type} `{EqDecision K}.

Lemma dict_set_fresh (k : K) (v : V) (d : list (K * V)) :
    k ∉ map fst d -> Py.dict_set k v d = (d ++ [(k, v)])%list.
  Proof.
    induction d as [|[k0 v0] d IH]; cbn [Py.dict_set map fst]; intros Hk.
    - reflexivity.
    - destruct (decide (k = k0)) as [->|Hne].
      + exfalso. apply Hk. left.
      + rewrite IH; [reflexivity|]. intros Hin. apply Hk. now right.
  Qed.

Lemma dict_of_pairs_app (l acc : list (K * V)) :
    NoDup (map fst (acc ++ l)) ->
    fold_left (fun d kv => Py.dict_set kv.1 kv.2 d) l acc = (acc ++ l)%list.
  Proof.
    revert acc. induction l as [|[k v] l IH]; intros acc Hnd.
    - cbn. now rewrite app_nil_r.
    - cbn [fold_left fst snd].
      assert (Hk : k ∉ map fst acc).
      { rewrite map_app in Hnd. apply NoDup_app in Hnd as (_ & Hd & _).
        intros Hin. apply (Hd k Hin). left. }
      rewrite (dict_set_fresh k v acc Hk), IH.
      + now rewrite <- app_assoc.
      + now rewrite <- app_assoc.
  Qed.

  (** Building a dict from pairs with distinct keys keeps the pairs. *)
Lemma dict_of_pairs_NoDup (l : list (K * V)) :
    NoDup (map fst l) -> Py.dict_of_pairs l = l.
  Proof. intros H1. unfold Py.dict_of_pairs. now rewrite dict_of_pairs_app. Qed.

Lemma dict_get_map_values {W : Type} (f : V -> W) (k : K) (d : list (K * V)) :
    Py.dict_get k (map (fun kv => (kv.1, f kv.2)) d) = f <$> Py.dict_get k d.
  Proof.
    induction d as [|[k0 v0] d IH]; cbn; [reflexivity|].
    destruct (decide (k = k0)); [reflexivity | exact IH].
  Qed.

Lemma Counter_NoDup (l : list K) : NoDup (map fst (Py.Counter l)).
  Proof.
    unfold Py.Counter.
    assert (Hgen : forall acc : list (K * Z), NoDup (map fst acc) ->
              NoDup (map fst (fold_left (fun c k => Py.counter_incr k c) l acc))).
    { induction l as [|k l IH]; intros acc Hacc; [exact Hacc|].
      cbn [fold_left]. apply IH. unfold Py.counter_incr.
      now apply dict_set_NoDup. }
    apply Hgen. constructor.
  Qed.

End DictPairs.

(** ** Group totals *)
Section GroupTotals.
Context {Row K : Type} `{EqDecision K}.
Variable key : Row -> option K.

Lemma sum_list_with_add {A : Type} (f g : A -> nat) (l : list A) :
  sum_list_with (fun x => f x + g x)%nat l
  = (sum_list_with f l + sum_list_with g l)%nat.
Proof. induction l as [|x l IH]; cbn; [reflexivity | rewrite IH; lia]. Qed.

Lemma indicator_sum (keys : list K) (x : option K) (a : nat) :
  NoDup keys ->
  sum_list_with (fun k => if decide (x = Some k) then a else 0%nat) keys
  = if decide (x ∈ map Some keys) then a else 0%nat.
Proof.
  induction 1 as [|k keys Hk Hnd IH]; cbn [sum_list_with map].
  - destruct (decide (x ∈ @nil (option K))) as [Hin|]; [|reflexivity].
    now apply elem_of_nil in Hin.
  - rewrite IH.
    destruct (decide (x = Some k)) as [->|Hne].
    + destruct (decide (Some k ∈ map Some keys)) as [Hin|_].
      * exfalso. apply Hk. apply list_elem_of_fmap in Hin as (k' & [= ->] & Hin).
        exact Hin.
      * destruct (decide (Some k ∈ Some k :: map Some keys)) as [_|Hout];
          [lia|]. exfalso. apply Hout. left.
    + destruct (decide (x ∈ map Some keys)) as [Hin|Hout],
        (decide (x ∈ Some k :: map Some keys)) as [Hin'|Hout']; try lia.
      * exfalso. apply Hout'. now right.
      * exfalso. apply elem_of_cons in Hin' as [?|?]; [congruence|contradiction].
Qed.

(** Over distinct keys, the per-group totals of a weight add up to its
    total over the rows whose key is one of them. *)
Lemma group_weight_sum (w : Row -> nat) (keys : list K) (df : list Row) :
  NoDup keys ->
  sum_list_with (fun k => sum_list_with w (Pandas.group_rows key df k)) keys
  = sum_list_with w (filter (fun r => key r ∈ map Some keys) df).
Proof.
  intros Hnd. induction df as [|r df IH].
  - cbn. induction keys as [|k keys IHk]; [reflexivity|].
    cbn. apply IHk. now apply NoDup_cons in Hnd as [_ ?].
  - rewrite filter_cons.
    transitivity
      (sum_list_with
         (fun k => (if decide (key r = Some k) then w r else 0)
                   + sum_list_with w (Pandas.group_rows key df k))%nat keys).
    + clear IH Hnd. induction keys as [|k keys IHk]; [reflexivity|].
      cbn [sum_list_with]. rewrite IHk. f_equal.
      unfold Pandas.group_rows. rewrite filter_cons.
      destruct (decide (key r = Some k)); reflexivity.
    + rewrite sum_list_with_add, IH, (indicator_sum keys (key r) (w r) Hnd).
      destruct (decide (key r ∈ map Some keys)); reflexivity.
Qed.

Lemma count_as_sum {B : Type} (f : Row -> option B) (l : list Row) :
  Pandas.count (map f l)
  = sum_list_with (fun r => if f r is Some _ then 1 else 0)%nat l.
Proof.
  unfold Pandas.count. induction l as [|r l IH]; [reflexivity|].
  cbn [map sum_list_with]. rewrite filter_cons, <- IH.
  destruct (f r); cbn; reflexivity.
Qed.

Variable le : K -> K -> Prop.
Context `{!RelDecision le}.

(** The groups of [groupby] split the rows that have a key: their counts
    of a column add up to the count over those rows. *)
Lemma groupby_count_sum {B : Type} (f : Row -> option B) (df : list Row) :
  sum_list_with (fun g => Pandas.count (map f g.2)) (Pandas.groupby key le df)
  = Pandas.count (map f (filter (fun r => is_Some (key r)) df)).
Proof.
  unfold Pandas.groupby.
  set (keys := merge_sort le (remove_dups (omap key df))).
  assert (Hnd : NoDup keys).
  { unfold keys. rewrite merge_sort_Permutation. apply NoDup_remove_dups. }
  assert (Hkeys : forall k, k ∈ keys <-> exists r, r ∈ df /\ key r = Some k).
  { intros k. unfold keys.
    rewrite merge_sort_Permutation, elem_of_remove_dups.
    apply list_elem_of_omap. }
  transitivity
    (sum_list_with
       (fun k => sum_list_with (fun r => if f r is Some _ then 1 else 0)%nat
                   (Pandas.group_rows key df k)) keys).
  - clear Hnd Hkeys. induction keys as [|k keys IHk]; [reflexivity|].
    cbn [map sum_list_with snd]. now rewrite IHk, count_as_sum.
  - rewrite (group_weight_sum _ keys df Hnd), count_as_sum. f_equal.
    apply filter_ext_elem. intros r Hr. split.
    + intros (k & Hk & _)%list_elem_of_fmap. rewrite Hk. now exists k.
    + intros [k Hk]. apply list_elem_of_fmap. exists k. split; [exact Hk|].
      apply Hkeys. now exists r.
Qed.

End GroupTotals.

(** ** Totals of the summaries *)
Section SummaryTotals.
Import Frame.

Lemma bucket_of_label (d : Z) :
  exists l, Spec.bucket_of d = Some l /\ l ∈ ShowInsights.booking_labels.
Proof.
  unfold Spec.bucket_of, Spec.buckets. cbn [List.find]. unfold Spec.in_bucket.
  cbn [Spec.low Spec.high andb].
  assert (Hcases : d <= 0 \/ d = 1 \/ 2 <= d <= 3 \/ 4 <= d <= 7
                   \/ 8 <= d <= 14 \/ 15 <= d <= 30 \/ 31 <= d) by lia.
  repeat destruct Hcases as [Hd|Hcases]; try rename Hcases into Hd;
    repeat match goal with
           | |- context [?a <=? ?b] =>
               first [ rewrite (proj2 (Z.leb_le a b)) by lia
                     | rewrite (proj2 (Z.leb_gt a b)) by lia ]
           end;
    cbn; eexists; (split; [reflexivity|]);
    unfold ShowInsights.booking_labels; apply list_elem_of_In; cbn; tauto.
Qed.

Lemma booking_label_iff (r : row) :
  ShowInsights.booking_window (days_before_event r)
    ∈ map Some ShowInsights.booking_labels
  <-> Windows.has_window r.
Proof.
  unfold Windows.has_window. destruct (days_before_event r) as [d|].
  - rewrite booking_window_eq.
    destruct (Z.ltb_spec d 0), (Z.leb_spec 0 d); try lia.
    + split; [|contradiction].
      intros (l & Hl & _)%list_elem_of_fmap. discriminate.
    + split; [intros _; exact I | intros _].
      destruct (bucket_of_label d) as (l & -> & Hl).
      apply list_elem_of_fmap. now exists l.
  - split; [|contradiction].
    intros (l & Hl & _)%list_elem_of_fmap. discriminate.
Qed.

Lemma booking_labels_NoDup : NoDup ShowInsights.booking_labels.
Proof.
  apply (bool_decide_unpack (NoDup ShowInsights.booking_labels)).
  vm_compute. exact I.
Qed.

Lemma categorical_count_sum (observed : bool) (df : list row) :
  sum_list_with (fun g => Pandas.count (map Order_ID g.2))
    (Pandas.groupby_categorical
       (fun r => ShowInsights.booking_window (days_before_event r))
       ShowInsights.booking_labels observed df)
  = Pandas.count (map Order_ID (filter (fun r => Windows.has_window r) df)).
Proof.
  unfold Pandas.groupby_categorical.
  set (key := fun r => ShowInsights.booking_window (days_before_event r)).
  set (keys := if observed
               then filter (fun k => Some k ∈ map key df)
                           ShowInsights.booking_labels
               else ShowInsights.booking_labels).
  assert (Hnd : NoDup keys).
  { unfold keys. destruct observed; [apply NoDup_filter|];
      apply booking_labels_NoDup. }
  transitivity
    (sum_list_with
       (fun k => sum_list_with (fun r => if Order_ID r is Some _ then 1 else 0)%nat
                   (Pandas.group_rows key df k)) keys).
  - clear Hnd. induction keys as [|k ks IHk]; [reflexivity|].
    cbn [map sum_list_with snd]. now rewrite IHk, count_as_sum.
  - rewrite (group_weight_sum key _ keys df Hnd), count_as_sum. f_equal.
    apply filter_ext_elem. intros r Hr.
    rewrite <- booking_label_iff. fold (key r). unfold keys.
    destruct observed; [|reflexivity].
    split.
    + intros (l & Hl & Hin)%list_elem_of_fmap.
      apply list_elem_of_filter in Hin as [_ Hin].
      apply list_elem_of_fmap. now exists l.
    + intros (l & Hl & Hin)%list_elem_of_fmap.
      apply list_elem_of_fmap. exists l. split; [exact Hl|].
      apply list_elem_of_filter. split; [|exact Hin].
      rewrite <- Hl. apply list_elem_of_fmap. now exists r.
Qed.

End SummaryTotals.

Section Rankings.
Import Frame.






Lemma length_remove_dups_zero {A : Type} `{EqDecision A} (l : list A) :
  length (remove_dups l) = 0%nat <-> l = [].
Proof.
  split; [|now intros ->].
  destruct l as [|x l]; [reflexivity|]. intros Hlen.
  assert (Hx : x ∈ remove_dups (x :: l)) by (apply elem_of_remove_dups; left).
  destruct (remove_dups (x :: l)); [now apply elem_of_nil in Hx | discriminate].
Qed.

End Rankings.

(** X1: the customer table of the case studies has exactly one row per
    customer_id that occurs in the frame, and its order counts add up to
    the number of orders (rows with an Order ID) that carry a customer_id:
    no order is dropped or counted twice, orders without a buyer email
    apart. *)
Theorem X1_customer_table_partitions_orders (df : list Frame.row) :
  NoDup (map ShowInsights.cust_id (ShowInsights.customer_analysis df))
  /\ (forall c, c ∈ map ShowInsights.cust_id (ShowInsights.customer_analysis df)
                <-> exists r, r ∈ df /\ Frame.customer_id r = Some c)
  /\ sum_list_with ShowInsights.total_orders (ShowInsights.customer_analysis df)
     = Pandas.count
         (map Frame.Order_ID
              (filter (fun r => is_Some (Frame.customer_id r)) df)).
Proof.
  unfold ShowInsights.customer_analysis. split; [|split].
  - pose proof (groupby_keys_NoDup Frame.customer_id Pandas.str_le df) as Hnd.
    replace (map ShowInsights.cust_id
               (map ShowInsights.customer_entry
                  (Pandas.groupby Frame.customer_id Pandas.str_le df)))
      with (map fst (Pandas.groupby Frame.customer_id Pandas.str_le df));
      [exact Hnd|].
    generalize (Pandas.groupby Frame.customer_id Pandas.str_le df).
    intros gs. induction gs as [|g gs IH]; [reflexivity|].
    cbn [map]. now rewrite IH.
  - intros c. rewrite map_map, list_elem_of_fmap. split.
    + intros ([k g] & -> & [Hr _]%elem_of_groupby). exact Hr.
    + intros Hr. eexists (c, _). split; [reflexivity|].
      apply elem_of_groupby. split; [exact Hr | reflexivity].
  - rewrite <- (groupby_count_sum Frame.customer_id Pandas.str_le
                  Frame.Order_ID df).
    generalize (Pandas.groupby Frame.customer_id Pandas.str_le df).
    intros gs. induction gs as [|g gs IH]; [reflexivity|].
    cbn [map sum_list_with]. now rewrite IH.
Qed.

(** X2: the order counts of the booking-window summary add up to the number
    of orders (rows with an Order ID) whose [days_before_event] is known
    and not negative, in [ShowInsights], [ShowLevelAnalysis] and the
    dashboard alike; orders bought after the event start, and orders with a
    missing date, are in no row of the summary. *)
Theorem X2_booking_summary_totals (df : list Frame.row) :
  sum_list_with ShowInsights.window_orders (ShowInsights.booking_analysis df)
  = Pandas.count (map Frame.Order_ID (filter (fun r => Windows.has_window r) df))
  /\ sum_list_with ShowLevelAnalysis.window_orders
       (ShowLevelAnalysis.booking_analysis df)
     = Pandas.count (map Frame.Order_ID (filter (fun r => Windows.has_window r) df))
  /\ sum_list_with Dashboard.window_orders (Dashboard.booking_analysis df)
     = Pandas.count (map Frame.Order_ID (filter (fun r => Windows.has_window r) df)).
Proof.
  repeat split.
  - rewrite <- (categorical_count_sum Pandas.observed_default df).
    unfold ShowInsights.booking_analysis.
    generalize (Pandas.groupby_categorical
       (fun r => ShowInsights.booking_window (Frame.days_before_event r))
       ShowInsights.booking_labels Pandas.observed_default df).
    intros gs. induction gs as [|g gs IH]; [reflexivity|].
    cbn [map sum_list_with]. now rewrite IH.
  - rewrite <- (categorical_count_sum Pandas.observed_default df).
    unfold ShowLevelAnalysis.booking_analysis.
    change (fun r => ShowLevelAnalysis.booking_window (Frame.days_before_event r))
      with (fun r => ShowInsights.booking_window (Frame.days_before_event r)).
    generalize (Pandas.groupby_categorical
       (fun r => ShowInsights.booking_window (Frame.days_before_event r))
       ShowInsights.booking_labels Pandas.observed_default df).
    intros gs. induction gs as [|g gs IH]; [reflexivity|].
    cbn [map sum_list_with]. now rewrite IH.
  - rewrite <- (categorical_count_sum true df).
    unfold Dashboard.booking_analysis.
    generalize (Pandas.groupby_categorical
       (fun r => ShowInsights.booking_window (Frame.days_before_event r))
       ShowInsights.booking_labels true df).
    intros gs. induction gs as [|g gs IH]; [reflexivity|].
    cbn [map sum_list_with]. now rewrite IH.
Qed.


(** X4: [days_before_event], as [prepare_data] derives it, is 0 exactly for
    an order placed within the 24 hours up to the event's start instant.
    An order placed after that instant (with a date-only event start: any
    time on the event's own calendar day, after midnight) gets a negative
    value, hence no booking window, and is not counted among the same-day
    purchases, which test for 0. *)
Theorem X4_same_day_is_the_day_before :
  (forall parse r,
      Frame.days_before_event (ShowInsights.prepare_row parse r)
      = Frame.days_between (Frame.csv_Event_start_date r)
                           (Frame.csv_Order_date r))
  /\ (forall e o,
         Frame.days_between (Some e) (Some o) = Some 0 <-> 0 <= e - o < 86400)
  /\ (forall e o,
         e < o ->
         exists d, Frame.days_between (Some e) (Some o) = Some d
           /\ d < 0
           /\ ShowInsights.booking_window (Some d) = None
           /\ forall date day rest r,
                Frame.days_before_event r = Some d ->
                exists s s',
                  ShowInsights.show_entry date day (r :: rest) = Py.Ok s
                  /\ ShowInsights.show_entry date day rest = Py.Ok s'
                  /\ SpecRates.same_day_count (r :: rest)
                     = SpecRates.same_day_count rest).
Proof.
  split; [reflexivity|]. split.
  - intros e o. unfold Frame.days_between. split.
    + intros [= H]. apply Z.div_small_iff in H; lia.
    + intros H. f_equal. apply Z.div_small. lia.
  - intros e o Hlt. unfold Frame.days_between.
    exists ((e - o) / 86400).
    assert (Hneg : (e - o) / 86400 < 0) by (apply Z.div_lt_upper_bound; lia).
    split; [reflexivity|]. split; [exact Hneg|]. split.
    + rewrite booking_window_eq.
      destruct (Z.ltb_spec ((e - o) / 86400) 0); [reflexivity | lia].
    + intros date day rest r Hr.
      destruct (show_insights_entry date day (r :: rest)) as (s & Hs & _).
      destruct (show_insights_entry date day rest) as (s' & Hs' & _).
      exists s, s'. split; [exact Hs|]. split; [exact Hs'|].
      unfold SpecRates.same_day_count. rewrite filter_cons.
      destruct (decide (Frame.days_before_event r = Some 0)) as [H0|_];
        [|reflexivity].
      rewrite Hr in H0. injection H0 as H0. lia.
Qed.

(** ** Customers: shares, rates and labels *)
Section CustomerShares.
Import Frame.

Lemma omap_id_nil {A B : Type} (f : A -> option B) (l : list A) :
  omap id (map f l) = [] <-> forall r, r ∈ l -> f r = None.
Proof.
  induction l as [|x l IH]; cbn [map omap].
  - split; [intros _ r Hr; now apply elem_of_nil in Hr | reflexivity].
  - destruct (f x) as [b|] eqn:E; cbn.
    + split; [discriminate|]. intros H. specialize (H x (list_elem_of_here _ _)).
      congruence.
    + rewrite IH. split.
      * intros H r [->|Hr]%elem_of_cons; [exact E | now apply H].
      * intros H r Hr. apply H. now right.
Qed.

Lemma nunique_zero {B : Type} `{EqDecision B} (f : row -> option B)
    (df : list row) :
  Pandas.nunique (map f df) = 0%nat <-> forall r, r ∈ df -> f r = None.
Proof.
  unfold Pandas.nunique. rewrite length_remove_dups_zero. apply omap_id_nil.
Qed.

Lemma dict_set_not_nil {K V : Type} `{EqDecision K} (k : K) (v : V)
    (d : list (K * V)) : Py.dict_set k v d <> [].
Proof.
  destruct d as [|[k0 v0] d]; cbn; [discriminate|].
  destruct (decide (k = k0)); discriminate.
Qed.

Lemma Counter_nil {K : Type} `{EqDecision K} (l : list K) :
  Py.Counter l = [] <-> l = [].
Proof.
  split; [|now intros ->]. unfold Py.Counter.
  assert (Hgen : forall (acc : list (K * Z)),
             fold_left (fun c k => Py.counter_incr k c) l acc = [] ->
             l = [] /\ acc = []).
  { induction l as [|k l IH]; intros acc H; [now split|].
    cbn [fold_left] in H. apply IH in H as [_ H].
    now apply dict_set_not_nil in H. }
  intros H. now apply Hgen in H.
Qed.

Lemma dict_set_Forall {K V : Type} `{EqDecision K} (P : V -> Prop)
    (k : K) (v : V) (d : list (K * V)) :
  P v -> Forall (fun kv => P kv.2) d ->
  Forall (fun kv => P kv.2) (Py.dict_set k v d).
Proof.
  intros Hv. induction 1 as [|[k0 v0] d H0 Hd IH]; cbn [Py.dict_set].
  - now repeat constructor.
  - destruct (decide (k = k0)); constructor; assumption.
Qed.

Lemma dict_get_Forall {K V : Type} `{EqDecision K} (P : V -> Prop)
    (k : K) (v : V) (d : list (K * V)) :
  Forall (fun kv => P kv.2) d -> Py.dict_get k d = Some v -> P v.
Proof.
  induction 1 as [|[k0 v0] d H0 Hd IH]; cbn [Py.dict_get]; [discriminate|].
  destruct (decide (k = k0)); [intros [= <-]; exact H0 | exact IH].
Qed.

(** Every count of a counter is at least 1. *)
Lemma Counter_positive {K : Type} `{EqDecision K} (l : list K) :
  Forall (fun kv => 1 <= kv.2) (Py.Counter l).
Proof.
  unfold Py.Counter.
  assert (Hgen : forall (acc : list (K * Z)),
             Forall (fun kv => 1 <= kv.2) acc ->
             Forall (fun kv => 1 <= kv.2)
                    (fold_left (fun c k => Py.counter_incr k c) l acc)).
  { induction l as [|k l IH]; intros acc Hacc; [exact Hacc|].
    cbn [fold_left]. apply IH. unfold Py.counter_incr.
    apply (dict_set_Forall (fun v => 1 <= v)); [|exact Hacc].
    destruct (Py.dict_get k acc) as [v|] eqn:E; cbn; [|lia].
    pose proof (dict_get_Forall (fun v => 1 <= v) k v acc Hacc E) as Hv.
    cbn beta in Hv. lia. }
  apply Hgen. constructor.
Qed.

Lemma split_new_returning (c : list (string * Z)) :
  Forall (fun kv => 1 <= kv.2) c ->
  Nat.add (length (filter (fun kv => kv.2 = 1) c))
          (length (filter (fun kv => 1 < kv.2) c)) = length c.
Proof.
  induction 1 as [|kv c Hkv _ IH]; [reflexivity|].
  rewrite !filter_cons. cbn beta in Hkv.
  destruct (decide (kv.2 = 1)), (decide (1 < kv.2)); cbn [length];
    rewrite <- IH; lia.
Qed.

Lemma filter_cell_eq (df : list row) (c : string) :
  filter (fun r' => ShowLevelAnalysis.cell_eq (customer_id r') (Some c)) df
  = filter (fun r' => customer_id r' = Some c) df.
Proof.
  apply filter_ext_elem. intros r _. unfold ShowLevelAnalysis.cell_eq.
  destruct (customer_id r) as [x|]; cbn.
  - destruct (String.eqb_spec x c) as [->|Hne]; cbn.
    + split; [reflexivity | intros _; exact I].
    + split; [contradiction | intros [= ?]; contradiction].
  - split; [contradiction | discriminate].
Qed.

Lemma filter_cell_eq_missing (df : list row) :
  filter (fun r' => ShowLevelAnalysis.cell_eq (customer_id r') None) df = [].
Proof.
  induction df as [|r df IH]; [reflexivity|].
  rewrite filter_cons. unfold ShowLevelAnalysis.cell_eq at 1.
  destruct (customer_id r); cbn; exact IH.
Qed.

End CustomerShares.

(** X5: the dashboard's "Repeat Rate" divides the number of repeat
    customers by the number of distinct customer ids without a guard: on a
    frame in which no order has a buyer email it raises
    [ZeroDivisionError], and on every other frame it returns a rate. *)
Theorem X5_dashboard_repeat_rate_division (df : list Frame.row) :
  ((forall r, r ∈ df -> Frame.customer_id r = None) ->
   Dashboard.repeat_rate df = Py.Raise Py.ZeroDivisionError)
  /\ ((exists r, r ∈ df /\ is_Some (Frame.customer_id r)) ->
      exists rate, Dashboard.repeat_rate df = Py.Ok rate).
Proof.
  unfold Dashboard.repeat_rate, Py.truediv. split.
  - intros Hnone. apply nunique_zero in Hnone. rewrite Hnone. reflexivity.
  - intros (r & Hr & Hid).
    destruct (Z.eqb_spec
                (Z.of_nat (Pandas.nunique (map Frame.customer_id df))) 0)
      as [Hz|Hnz].
    + exfalso. assert (Hn : Pandas.nunique (map Frame.customer_id df) = 0%nat)
        by lia.
      rewrite nunique_zero in Hn. rewrite (Hn r Hr) in Hid.
      destruct Hid as [? ?]. discriminate.
    + eexists. reflexivity.
Qed.

(** X6: the acquisition block of [controllable_variables_analysis] in
    [ShowInsights] counts every customer id as new (one order) or returning
    (more than one), so the two numbers add up to the number of distinct
    ids; the shares it prints divide by that sum without a guard and
    raise [ZeroDivisionError] exactly when no order has a buyer email. *)
Theorem X6_acquisition_shares (df : list Frame.row) :
  ShowInsights.new_customers df + ShowInsights.returning_customers df
  = Z.of_nat (length (ShowInsights.customer_order_counts df))
  /\ NoDup (map fst (ShowInsights.customer_order_counts df))
  /\ ((forall r, r ∈ df -> Frame.customer_id r = None) ->
      ShowInsights.customer_shares df = Py.Raise Py.ZeroDivisionError)
  /\ ((exists r, r ∈ df /\ is_Some (Frame.customer_id r)) ->
      exists shares, ShowInsights.customer_shares df = Py.Ok shares).
Proof.
  assert (Hsum : ShowInsights.new_customers df
                 + ShowInsights.returning_customers df
                 = Z.of_nat (length (ShowInsights.customer_order_counts df))).
  { unfold ShowInsights.new_customers, ShowInsights.returning_customers.
    rewrite <- (split_new_returning (ShowInsights.customer_order_counts df))
      by apply Counter_positive. lia. }
  split; [exact Hsum|]. split; [apply Counter_NoDup|].
  unfold ShowInsights.customer_shares, Py.truediv. rewrite Hsum. split.
  - intros Hnone. apply omap_id_nil in Hnone.
    unfold ShowInsights.customer_order_counts. rewrite Hnone. reflexivity.
  - intros (r & Hr & Hid).
    destruct (Z.eqb_spec
                (Z.of_nat (length (ShowInsights.customer_order_counts df))) 0)
      as [Hz|Hnz].
    + exfalso.
      assert (Hnil : ShowInsights.customer_order_counts df = [])
        by (destruct (ShowInsights.customer_order_counts df);
            [reflexivity | cbn in Hz; lia]).
      unfold ShowInsights.customer_order_counts in Hnil.
      apply (proj1 (Counter_nil _)) in Hnil.
      pose proof (proj1 (omap_id_nil Frame.customer_id df) Hnil r Hr) as Hn.
      rewrite Hn in Hid. destruct Hid as [? ?]. discriminate.
    + eexists. reflexivity.
Qed.

(** X7: in the acquisition analysis of [ShowLevelAnalysis] an order is
    labelled New exactly when its customer_id is present and exactly one
    row of the frame carries that id; an order without a buyer email
    matches no row, itself included, and is labelled Returning. *)
Theorem X7_customer_type_labels (df : list Frame.row) (r : Frame.row) :
  (Frame.customer_id r = None ->
   ShowLevelAnalysis.customer_type_of df r = ShowLevelAnalysis.Returning)
  /\ (forall c, Frame.customer_id r = Some c ->
        (ShowLevelAnalysis.customer_type_of df r = ShowLevelAnalysis.New
         <-> length (filter (fun r' => Frame.customer_id r' = Some c) df)
             = 1%nat))
  /\ length (ShowLevelAnalysis.customer_types df) = length df.
Proof.
  unfold ShowLevelAnalysis.customer_type_of. split; [|split].
  - intros ->. now rewrite filter_cell_eq_missing.
  - intros c ->. rewrite filter_cell_eq.
    destruct (Nat.eqb_spec
                (length (filter (fun r' => Frame.customer_id r' = Some c) df)) 1).
    + split; [intros _; assumption | reflexivity].
    + split; [discriminate | contradiction].
  - unfold ShowLevelAnalysis.customer_types. apply length_map.
Qed.

(** ** The customer counters of the batch analysis *)
Section BatchCustomers.

Local Abbreviation pyrow := (gmap string string).

Lemma dict_set_sum {K : Type} `{EqDecision K} (k : K) (v : Z)
    (d : list (K * Z)) :
  foldr Z.add 0 (map snd (Py.dict_set k v d))
  = foldr Z.add 0 (map snd d) - default 0 (Py.dict_get k d) + v.
Proof.
  induction d as [|[k0 v0] d IH]; cbn [Py.dict_set Py.dict_get map foldr snd].
  - cbn. lia.
  - destruct (decide (k = k0)); cbn; [lia|].
    cbn in IH. rewrite IH. lia.
Qed.

Lemma orders_fold_sum (data : list pyrow) (acc : list (string * Z)) :
  foldr Z.add 0 (map snd (fold_left BasicAnalysis.count_order data acc))
  = foldr Z.add 0 (map snd acc)
    + Z.of_nat (length (filter
        (fun row => Py.truthy (BasicAnalysis.buyer_email row)) data)).
Proof.
  revert acc. induction data as [|row data IH]; intros acc.
  - cbn. lia.
  - cbn [fold_left]. rewrite IH, filter_cons.
    unfold BasicAnalysis.count_order. cbn zeta.
    destruct (Py.truthy (BasicAnalysis.buyer_email row)) eqn:Ht.
    + destruct (decide (Is_true true)) as [_|H]; [|exfalso; apply H; exact I].
      unfold Py.counter_incr. rewrite dict_set_sum. cbn [length]. lia.
    + destruct (decide (Is_true false)) as [H|_]; [destruct H|]. lia.
Qed.

Lemma email_orders_pos (data : list pyrow) (e : string) :
  0 < Customers.email_orders data e
  <-> exists row, row ∈ data /\ BasicAnalysis.buyer_email row = e.
Proof.
  unfold Customers.email_orders. split.
  - intros H.
    destruct (filter (fun row => BasicAnalysis.buyer_email row = e) data)
      as [|row l] eqn:E; [cbn in H; lia|].
    assert (Hin : row ∈ filter (fun row => BasicAnalysis.buyer_email row = e) data)
      by (rewrite E; left).
    apply list_elem_of_filter in Hin as [He Hin]. now exists row.
  - intros (row & Hin & He).
    assert (Hf : row ∈ filter (fun row => BasicAnalysis.buyer_email row = e) data)
      by now apply list_elem_of_filter.
    destruct (filter (fun row => BasicAnalysis.buyer_email row = e) data);
      [now apply elem_of_nil in Hf | cbn; lia].
Qed.

Lemma customer_orders_keys (data : list pyrow) (e : string) :
  e ∈ map fst (BasicAnalysis.customer_orders data)
  <-> Py.truthy e = true
      /\ exists row, row ∈ data /\ BasicAnalysis.buyer_email row = e.
Proof.
  rewrite <- email_orders_pos.
  pose proof (customer_orders_get data e) as Hget.
  pose proof (dict_get_None_keys e (BasicAnalysis.customer_orders data)) as Hn.
  destruct (Py.truthy e); cbn [andb] in Hget.
  - destruct (Z.ltb_spec 0 (Customers.email_orders data e)).
    + split; [now split|]. intros _.
      destruct (decide (e ∈ map fst (BasicAnalysis.customer_orders data)));
        [assumption|]. apply Hn in n. congruence.
    + split; [|intros [_ ?]; lia]. intros Hin. exfalso.
      now apply (proj1 Hn Hget).
  - split; [|intros [? _]; discriminate]. intros Hin. exfalso.
    now apply (proj1 Hn Hget).
Qed.

Lemma unique_customers_keys (data : list pyrow) :
  remove_dups
    (map (fun row => Py.lower (BasicAnalysis.get_str row "Buyer email"))
       (filter (fun row => Py.truthy (BasicAnalysis.get_str row "Buyer email"))
               data))
  ≡ₚ map fst (BasicAnalysis.customer_orders data).
Proof.
  apply NoDup_Permutation.
  - apply NoDup_remove_dups.
  - apply (orders_fold_keys data []); constructor.
  - intros e. rewrite elem_of_remove_dups, list_elem_of_fmap, customer_orders_keys.
    unfold BasicAnalysis.buyer_email. split.
    + intros (row & -> & [Ht Hin]%list_elem_of_filter).
      split; [|now exists row]. rewrite truthy_lower.
      now destruct (Py.truthy (BasicAnalysis.get_str row "Buyer email")).
    + intros (Ht & row & Hin & <-). exists row. split; [reflexivity|].
      apply list_elem_of_filter. split; [|exact Hin].
      rewrite truthy_lower in Ht. now rewrite Ht.
Qed.

Lemma customer_rates_defined (data : list pyrow) :
  (exists rate, BasicAnalysis.repeat_customer_rate data = Py.Ok rate)
  /\ (exists avg, BasicAnalysis.avg_orders_per_customer data = Py.Ok avg).
Proof.
  unfold BasicAnalysis.repeat_customer_rate,
    BasicAnalysis.avg_orders_per_customer, Py.truediv.
  destruct (Z.ltb_spec 0 (Z.of_nat (length (BasicAnalysis.customer_orders data))));
    [|split; eexists; reflexivity].
  destruct (Z.eqb_spec (Z.of_nat (length (BasicAnalysis.customer_orders data))) 0);
    [lia|]. split; eexists; reflexivity.
Qed.

End BatchCustomers.

(** X8: in the batch analysis, [unique_customers] equals the number of
    entries of [customer_orders] (both count the distinct lowercased,
    non-empty buyer emails), the counts of [customer_orders] add up to the
    number of rows with a buyer email, the number of repeat customers lies
    between 0 and the number of customers, and the two customer rates
    never raise. *)
Theorem X8_batch_customer_counts (data : list (gmap string string)) :
  BasicAnalysis.unique_customers data
  = Z.of_nat (length (BasicAnalysis.customer_orders data))
  /\ foldr Z.add 0 (map snd (BasicAnalysis.customer_orders data))
     = Z.of_nat (length (filter
         (fun row => Py.truthy (BasicAnalysis.buyer_email row)) data))
  /\ 0 <= BasicAnalysis.repeat_customers data
       <= BasicAnalysis.unique_customers data
  /\ (exists rate, BasicAnalysis.repeat_customer_rate data = Py.Ok rate)
  /\ (exists avg, BasicAnalysis.avg_orders_per_customer data = Py.Ok avg).
Proof.
  assert (Huniq : BasicAnalysis.unique_customers data
                  = Z.of_nat (length (BasicAnalysis.customer_orders data))).
  { unfold BasicAnalysis.unique_customers.
    rewrite (unique_customers_keys data). now rewrite length_map. }
  split; [exact Huniq|]. split.
  - rewrite customer_orders_fold, orders_fold_sum. cbn. lia.
  - split; [|split].
    + rewrite Huniq. unfold BasicAnalysis.repeat_customers.
      pose proof (length_filter (fun kv : string * Z => 1 <? kv.2)
                    (BasicAnalysis.customer_orders data)). lia.
    + apply customer_rates_defined.
    + apply customer_rates_defined.
Qed.

(** ** The batch loader and the analysis it feeds *)
Section BatchLoad.

Local Abbreviation pyrow := (gmap string string).

Lemma mapM_Ok_iff {A B : Type} (f : A -> Py.result B) (l : list A) :
  (exists ys, Py.mapM f l = Py.Ok ys) <-> (forall x, x ∈ l -> exists y, f x = Py.Ok y).
Proof.
  split.
  - induction l as [|x l IH]; intros [ys H] y Hy.
    + now apply elem_of_nil in Hy.
    + cbn [Py.mapM] in H. destruct (f x) as [b|e] eqn:Hx; [|discriminate].
      cbn [Py.bind] in H.
      destruct (Py.mapM f l) as [bs|e] eqn:Hl; [|discriminate].
      apply elem_of_cons in Hy as [->|Hy]; [now exists b|].
      apply IH; [now exists bs | exact Hy].
  - intros H. destruct (mapM_ok f l H) as (ys & Hys & _). now exists ys.
Qed.

Lemma load_csv_data_length (read_rows : string -> list pyrow)
    (folder : string) (files : list string) :
  length (flat_map
            (fun filename =>
               map (fun row : pyrow =>
                      <["day_of_week" := Py.replace filename ".csv" ""]> row)
                   (read_rows (Py.path_join folder filename)))
            files)
  = sum_list_with
      (fun filename => length (read_rows (Py.path_join folder filename)))
      files.
Proof.
  induction files as [|f files IH]; [reflexivity|].
  cbn [flat_map sum_list_with]. rewrite length_app, length_map.
  f_equal. exact IH.
Qed.

End BatchLoad.

(** X9: [load_csv_data] returns as many rows as the selected files hold
    together; every row it returns carries the tag [day_of_week] of a
    selected file (the file name with every ".csv" removed), whatever the
    file's own columns are, so the day-of-week counter of [analyze_data],
    which reads [row['day_of_week']] without a guard, raises no
    [KeyError] on loaded data. *)
Theorem X9_loader_tags_every_row (read_rows : string -> list (gmap string string))
    (folder : string) (names : list string) :
  length (BasicAnalysis.load_csv_data read_rows folder names)
  = sum_list_with
      (fun filename => length (read_rows (Py.path_join folder filename)))
      (BasicAnalysis.csv_files names)
  /\ (forall row, row ∈ BasicAnalysis.load_csv_data read_rows folder names ->
        exists filename,
          filename ∈ names
          /\ Py.endswith filename ".csv" = true
          /\ Py.contains "eda" (Py.lower filename) = false
          /\ row !! "day_of_week" = Some (Py.replace filename ".csv" ""))
  /\ (exists days,
        Py.mapM (fun row => BasicAnalysis.getitem row "day_of_week")
                (BasicAnalysis.load_csv_data read_rows folder names)
        = Py.Ok days).
Proof.
  assert (Htag : forall row,
             row ∈ BasicAnalysis.load_csv_data read_rows folder names ->
             exists filename,
               filename ∈ names
               /\ Py.endswith filename ".csv" = true
               /\ Py.contains "eda" (Py.lower filename) = false
               /\ row !! "day_of_week" = Some (Py.replace filename ".csv" "")).
  { intros row Hrow. unfold BasicAnalysis.load_csv_data in Hrow.
    apply list_elem_of_In, in_flat_map in Hrow as (f & Hf & Hrow).
    apply list_elem_of_In in Hf. apply in_map_iff in Hrow as (row0 & <- & _).
    unfold BasicAnalysis.csv_files in Hf.
    apply list_elem_of_filter in Hf as [Hp Hf].
    apply Is_true_true, andb_true_iff in Hp as [He Hc].
    apply negb_true_iff in Hc.
    exists f. repeat split; try assumption. apply lookup_insert_eq. }
  split; [apply load_csv_data_length|]. split; [exact Htag|].
  apply mapM_Ok_iff. intros row Hrow.
  destruct (Htag row Hrow) as (f & _ & _ & _ & Hd).
  unfold BasicAnalysis.getitem. rewrite Hd. eexists. reflexivity.
Qed.

(** ** When the batch analysis is defined *)
Ltac py_unfold := unfold mbind, result_bind, mret, result_ret in *.

Section AnalysisDefined.

Local Abbreviation pyrow := (gmap string string).

Variable float_of_str : string -> Py.result float.
Variable strptime_datetime : string -> Py.result Z.
Variable strptime_date : string -> Py.result Z.

Lemma bind_Ok_inv {A B : Type} (m : Py.result A) (k : A -> Py.result B) (b : B) :
  Py.bind m k = Py.Ok b -> exists a, m = Py.Ok a /\ k a = Py.Ok b.
Proof. destruct m as [a|e]; [|discriminate]. intros H. now exists a. Qed.








End AnalysisDefined.



(** ** The shape of the result dictionary *)
Section ResultShape.

Local Abbreviation pyrow := (gmap string string).

Variable float_of_str : string -> Py.result float.
Variable strptime_datetime : string -> Py.result Z.
Variable strptime_date : string -> Py.result Z.

Lemma analyze_data_shape (data : list pyrow) (r : BasicAnalysis.results) :
  BasicAnalysis.analyze_data float_of_str strptime_datetime strptime_date data
  = Py.Ok r ->
  exists tickets revenue times timing days rate avg_orders quantities,
    Py.mapM (BasicAnalysis.row_times strptime_datetime strptime_date) data
    = Py.Ok times
    /\ BasicAnalysis.quantity_counts data = Py.Ok quantities
    /\ ((omap id times = [] /\ timing = [])
        \/ (omap id times <> [] /\
            exists a b c d,
              timing = [("avg_days_before_event", BasicAnalysis.Scalar a);
                        ("same_day_purchases", BasicAnalysis.Scalar b);
                        ("last_minute_purchases", BasicAnalysis.Scalar c);
                        ("advance_purchases", BasicAnalysis.Scalar d)]))
    /\ r = ([("total_orders",
              BasicAnalysis.Scalar (BasicAnalysis.SInt (Z.of_nat (length data))));
             ("total_tickets", BasicAnalysis.Scalar (BasicAnalysis.SInt tickets));
             ("total_revenue", BasicAnalysis.Scalar (BasicAnalysis.of_num revenue));
             ("unique_customers",
              BasicAnalysis.Scalar
                (BasicAnalysis.SInt (BasicAnalysis.unique_customers data)))]
            ++ timing
            ++ [("peak_hour",
                 BasicAnalysis.Scalar
                   (match BasicAnalysis.argmax
                            (Py.Counter (map (fun oe : Z * Z => (oe.1 mod 86400) / 3600)
                                             (omap id times))) with
                    | Some h => BasicAnalysis.SInt h
                    | None => BasicAnalysis.SNone
                    end));
                ("hourly_distribution",
                 BasicAnalysis.counts_dict BasicAnalysis.KInt
                   (Py.Counter (map (fun oe : Z * Z => (oe.1 mod 86400) / 3600)
                                    (omap id times))))]
            ++ [("orders_by_day",
                 BasicAnalysis.counts_dict BasicAnalysis.KStr (Py.Counter days))]
            ++ [("repeat_customer_rate",
                 BasicAnalysis.Scalar (BasicAnalysis.of_num rate));
                ("avg_orders_per_customer",
                 BasicAnalysis.Scalar (BasicAnalysis.of_num avg_orders))]
            ++ [("top_states",
                 BasicAnalysis.counts_dict BasicAnalysis.KStr
                   (BasicAnalysis.most_common 10
                      (Py.Counter (map (fun row : pyrow =>
                                          default "Unknown" (row !! "Purchaser state"))
                                       data))));
                ("top_cities",
                 BasicAnalysis.counts_dict BasicAnalysis.KStr
                   (BasicAnalysis.most_common 10
                      (Py.Counter (map (fun row : pyrow =>
                                          default "Unknown" (row !! "Purchaser city"))
                                       data))));
                ("payment_methods",
                 BasicAnalysis.counts_dict BasicAnalysis.KStr
                   (Py.Counter (map (fun row : pyrow =>
                                       default "Unknown" (row !! "Payment type"))
                                    data)))]
            ++ [("ticket_quantities",
                 BasicAnalysis.counts_dict BasicAnalysis.KInt quantities)])%list.
Proof.
  unfold BasicAnalysis.analyze_data. py_unfold. intros Hr.
  apply bind_Ok_inv in Hr as (tickets & Ht & Hr).
  apply bind_Ok_inv in Hr as (revenue & Hrev & Hr).
  apply bind_Ok_inv in Hr as (times & Htimes & Hr).
  apply bind_Ok_inv in Hr as (timing & Htiming & Hr).
  apply bind_Ok_inv in Hr as (days & Hdays & Hr).
  apply bind_Ok_inv in Hr as (rate & Hrate & Hr).
  apply bind_Ok_inv in Hr as (avg_orders & Havg & Hr).
  apply bind_Ok_inv in Hr as (quantities & Hq & Hr).
  injection Hr as <-.
  exists tickets, revenue, times, timing, days, rate, avg_orders, quantities.
  split; [exact Htimes|]. split; [exact Hq|]. split; [|reflexivity].
  destruct (omap id times) as [|oe oes]; cbn [map] in Htiming.
  - left. injection Htiming as <-. now split.
  - right. split; [discriminate|].
    apply bind_Ok_inv in Htiming as (avg & _ & Htiming).
    injection Htiming as <-. do 4 eexists. reflexivity.
Qed.

End ResultShape.

(** ** Well-formed results and the snapshot *)
Section Snapshot.

Local Abbreviation pyrow := (gmap string string).

Lemma counts_dict_distinct {K : Type} (mk : K -> BasicAnalysis.key)
    (c : list (K * Z)) :
  (forall a b, BasicAnalysis.key_name (mk a) = BasicAnalysis.key_name (mk b) ->
               a = b) ->
  NoDup (map fst c) ->
  BasicAnalysis.distinct_names (BasicAnalysis.counts_dict mk c).
Proof.
  intros Hinj Hnd. cbn [BasicAnalysis.distinct_names BasicAnalysis.counts_dict].
  induction c as [|[k v] c IH]; cbn [map fst] in *; [constructor|].
  apply NoDup_cons in Hnd as [Hk Hnd]. apply NoDup_cons. split; [|now apply IH].
  intros Hin. apply Hk.
  apply list_elem_of_fmap in Hin as ([k' m] & Heq & Hin).
  apply list_elem_of_fmap in Hin as ([k'' v'] & [= -> ->] & Hin).
  cbn in Heq. apply Hinj in Heq as ->.
  apply list_elem_of_fmap. now exists (k'', v').
Qed.

Lemma key_name_KStr_inj (a b : string) :
  BasicAnalysis.key_name (BasicAnalysis.KStr a)
  = BasicAnalysis.key_name (BasicAnalysis.KStr b) -> a = b.
Proof. trivial. Qed.

Lemma key_name_KInt_inj (a b : Z) :
  BasicAnalysis.key_name (BasicAnalysis.KInt a)
  = BasicAnalysis.key_name (BasicAnalysis.KInt b) -> a = b.
Proof. cbn. apply (inj pretty). Qed.

Lemma most_common_NoDup {K : Type} (n : nat) (c : list (K * Z)) :
  NoDup (map fst c) -> NoDup (map fst (BasicAnalysis.most_common n c)).
Proof.
  intros Hnd. unfold BasicAnalysis.most_common.
  apply (sublist_NoDup _ (map fst (merge_sort BasicAnalysis.more_common c))).
  - assert (Hp : map fst (merge_sort BasicAnalysis.more_common c) ≡ₚ map fst c)
      by apply (fmap_Permutation fst), merge_sort_Permutation.
    now rewrite Hp.
  - apply (fmap_sublist fst), sublist_take.
Qed.

Lemma quantity_counts_NoDup (data : list pyrow) (q : list (Z * Z)) :
  BasicAnalysis.quantity_counts data = Py.Ok q -> NoDup (map fst q).
Proof.
  unfold BasicAnalysis.quantity_counts. py_unfold. intros H.
  apply bind_Ok_inv in H as (qs & _ & H). injection H as <-.
  apply Counter_NoDup.
Qed.

Lemma analyze_data_wf
    (float_of_str : string -> Py.result float)
    (strptime_datetime strptime_date : string -> Py.result Z)
    (data : list pyrow) (r : BasicAnalysis.results) :
  BasicAnalysis.analyze_data float_of_str strptime_datetime strptime_date data
  = Py.Ok r ->
  BasicAnalysis.wf_results r.
Proof.
  intros Hr.
  apply analyze_data_shape in Hr
    as (tickets & revenue & times & timing & days & rate & avg & quantities
        & _ & Hq & Htiming & ->).
  apply quantity_counts_NoDup in Hq.
  assert (Hc : forall (l : list string),
             BasicAnalysis.distinct_names
               (BasicAnalysis.counts_dict BasicAnalysis.KStr (Py.Counter l)))
    by (intros l; apply counts_dict_distinct;
        [apply key_name_KStr_inj | apply Counter_NoDup]).
  assert (Hm : forall (l : list string),
             BasicAnalysis.distinct_names
               (BasicAnalysis.counts_dict BasicAnalysis.KStr
                  (BasicAnalysis.most_common 10 (Py.Counter l))))
    by (intros l; apply counts_dict_distinct;
        [apply key_name_KStr_inj | apply most_common_NoDup, Counter_NoDup]).
  assert (Hi : forall (l : list Z),
             BasicAnalysis.distinct_names
               (BasicAnalysis.counts_dict BasicAnalysis.KInt (Py.Counter l)))
    by (intros l; apply counts_dict_distinct;
        [apply key_name_KInt_inj | apply Counter_NoDup]).
  assert (Hqd : BasicAnalysis.distinct_names
                  (BasicAnalysis.counts_dict BasicAnalysis.KInt quantities))
    by (apply counts_dict_distinct; [apply key_name_KInt_inj | exact Hq]).
  split.
  - destruct Htiming as [[_ ->]|[_ (a & b & c & d & ->)]];
      cbn [app map fst];
      apply (bool_decide_unpack _); vm_compute; exact I.
  - destruct Htiming as [[_ ->]|[_ (a & b & c & d & ->)]];
      cbn [app]; repeat (apply Forall_cons; split); try apply Forall_nil;
      cbn [snd]; try exact I; auto.
Qed.

End Snapshot.

(** ** Reading the result dictionary *)
Section ResultLookups.

Lemma best_fold (c : list (Z * Z)) (best : Z * Z) :
  let b := fold_left (fun best x : Z * Z => if best.2 <? x.2 then x else best)
                     c best in
  (b = best \/ b ∈ c) /\ best.2 <= b.2 /\ (forall x, x ∈ c -> x.2 <= b.2).
Proof.
  revert best. induction c as [|x c IH]; intros best; cbn zeta.
  - cbn [fold_left]. split; [now left|]. split; [lia|].
    intros x Hx. now apply elem_of_nil in Hx.
  - cbn [fold_left].
    specialize (IH (if best.2 <? x.2 then x else best)). cbn zeta in IH.
    destruct IH as (Hb & Hle & Hall).
    destruct (Z.ltb_spec best.2 x.2) as [Hlt|Hge].
    + split; [right; destruct Hb as [->|Hb]; [left | now right]|].
      split; [lia|]. intros y [->|Hy]%elem_of_cons; [exact Hle | now apply Hall].
    + split; [destruct Hb as [Hb|Hb]; [now left | right; now right]|].
      split; [exact Hle|].
      intros y [->|Hy]%elem_of_cons; [lia | now apply Hall].
Qed.

(** [max(c, key=c.get)] is a key of [c] whose count no other count
    exceeds. *)
Lemma argmax_spec (c : list (Z * Z)) :
  NoDup (map fst c) -> c <> [] ->
  exists h n, BasicAnalysis.argmax c = Some h
              /\ Py.dict_get h c = Some n
              /\ (forall k m, Py.dict_get k c = Some m -> m <= n).
Proof.
  intros Hnd Hne. destruct c as [|kv c]; [congruence|].
  pose proof (best_fold c kv) as Hb. cbn zeta in Hb.
  destruct Hb as (Hb & Hle & Hall).
  set (b := fold_left (fun best x : Z * Z => if best.2 <? x.2 then x else best)
                      c kv) in *.
  exists b.1, b.2. split; [reflexivity|]. split.
  - apply dict_get_NoDup_elem; [exact Hnd|].
    destruct b as [b1 b2]. cbn [fst snd].
    destruct Hb as [Hb|Hb]; [rewrite <- Hb; left | now right].
  - intros k m Hk. apply dict_get_Some_elem in Hk.
    apply elem_of_cons in Hk as [Hk|Hk].
    + subst kv. exact Hle.
    + apply (Hall (k, m) Hk).
Qed.

Lemma counts_dict_get_int (c : list (Z * Z)) (h : Z) :
  Py.dict_get (BasicAnalysis.KInt h)
    (map (fun kv : Z * Z => (BasicAnalysis.KInt kv.1, BasicAnalysis.SInt kv.2)) c)
  = BasicAnalysis.SInt <$> Py.dict_get h c.
Proof.
  induction c as [|[k v] c IH]; [reflexivity|].
  cbn [map Py.dict_get fst snd].
  destruct (decide (BasicAnalysis.KInt h = BasicAnalysis.KInt k)) as [E|E],
           (decide (h = k)) as [E'|E']; try congruence; first [exact IH | reflexivity].
Qed.

Lemma counts_dict_get_str (c : list (Z * Z)) (s : string) :
  Py.dict_get (BasicAnalysis.KStr s)
    (map (fun kv : Z * Z => (BasicAnalysis.KInt kv.1, BasicAnalysis.SInt kv.2)) c)
  = None.
Proof.
  induction c as [|[k v] c IH]; [reflexivity|].
  cbn [map Py.dict_get fst snd].
  destruct (decide (BasicAnalysis.KStr s = BasicAnalysis.KInt k));
    [discriminate | exact IH].
Qed.

End ResultLookups.

Ltac dict_lookup :=
  repeat (cbn [Py.dict_get app];
          match goal with
          | |- context [decide (?a = ?b)] =>
              let E := fresh "E" in
              destruct (decide (a = b)) as [E|E];
              [try discriminate E | try (exfalso; apply E; reflexivity)]
          end).

(** X11: in a result of [analyze_data], either [peak_hour] is [None], the
    hourly distribution is empty and the timing entries are absent (no
    row had two parsable dates), or [peak_hour] is a key of
    [hourly_distribution] whose count is at least 1 and is not exceeded by
    any other count, and the timing entries are present. *)
Theorem X11_peak_hour_is_a_largest_count
    (float_of_str : string -> Py.result float)
    (strptime_datetime strptime_date : string -> Py.result Z)
    (data : list (gmap string string)) (r : BasicAnalysis.results) :
  BasicAnalysis.analyze_data float_of_str strptime_datetime strptime_date data
  = Py.Ok r ->
  (Py.dict_get "peak_hour" r = Some (BasicAnalysis.Scalar BasicAnalysis.SNone)
   /\ Py.dict_get "hourly_distribution" r = Some (BasicAnalysis.Dict [])
   /\ Py.dict_get "avg_days_before_event" r = None)
  \/ (exists h n,
        Py.dict_get "peak_hour" r
        = Some (BasicAnalysis.Scalar (BasicAnalysis.SInt h))
        /\ BasicAnalysis.lookup2 r "hourly_distribution" (BasicAnalysis.KInt h)
           = Some (BasicAnalysis.SInt n)
        /\ 1 <= n
        /\ (forall k x,
              BasicAnalysis.lookup2 r "hourly_distribution" k = Some x ->
              exists m, x = BasicAnalysis.SInt m /\ m <= n)
        /\ is_Some (Py.dict_get "avg_days_before_event" r)).
Proof.
  intros Hr.
  apply analyze_data_shape in Hr
    as (tickets & revenue & times & timing & days & rate & avg & quantities
        & _ & _ & Htiming & ->).
  destruct Htiming as [[Hnil ->]|[Hne (a & b & c & d & ->)]].
  - left. rewrite Hnil. cbn [map]. unfold BasicAnalysis.lookup2.
    repeat split; dict_lookup; reflexivity.
  - right.
    set (hours := Py.Counter (map (fun oe : Z * Z => (oe.1 mod 86400) / 3600)
                                  (omap id times))).
    destruct (argmax_spec hours) as (h & n & Harg & Hget & Hmax).
    { apply Counter_NoDup. }
    { unfold hours. intros E. apply (proj1 (Counter_nil _)) in E.
      apply Hne. now destruct (omap id times). }
    exists h, n. rewrite Harg. unfold BasicAnalysis.lookup2.
    split; [dict_lookup; reflexivity|].
    split; [dict_lookup; cbn [BasicAnalysis.counts_dict];
            rewrite counts_dict_get_int, Hget; reflexivity|].
    split; [apply (dict_get_Forall (fun v => 1 <= v) h n hours);
            [apply Counter_positive | exact Hget]|].
    split; [|dict_lookup; eexists; reflexivity].
    intros k x. dict_lookup. cbn [BasicAnalysis.counts_dict].
    destruct k as [s|z].
    + rewrite counts_dict_get_str. discriminate.
    + rewrite counts_dict_get_int.
      destruct (Py.dict_get z hours) as [m|] eqn:Hz; [|discriminate].
      intros [= <-]. exists m. split; [reflexivity | now apply (Hmax z)].
Qed.

Lemma X11_witness :
  exists r,
    BasicAnalysis.analyze_data Customers.whole_number Customers.sample_datetime
      Customers.sample_date Customers.dated_orders = Py.Ok r
    /\ Py.dict_get "peak_hour" r
       = Some (BasicAnalysis.Scalar (BasicAnalysis.SInt 19))
    /\ ((Py.dict_get "peak_hour" r
         = Some (BasicAnalysis.Scalar BasicAnalysis.SNone)
         /\ Py.dict_get "hourly_distribution" r = Some (BasicAnalysis.Dict [])
         /\ Py.dict_get "avg_days_before_event" r = None)
        \/ (exists h n,
              Py.dict_get "peak_hour" r
              = Some (BasicAnalysis.Scalar (BasicAnalysis.SInt h))
              /\ BasicAnalysis.lookup2 r "hourly_distribution"
                   (BasicAnalysis.KInt h)
                 = Some (BasicAnalysis.SInt n)
              /\ 1 <= n
              /\ (forall k x,
                    BasicAnalysis.lookup2 r "hourly_distribution" k = Some x ->
                    exists m, x = BasicAnalysis.SInt m /\ m <= n)
              /\ is_Some (Py.dict_get "avg_days_before_event" r))).
Proof.
  eexists. split; [vm_compute; reflexivity|].
  split; [vm_compute; reflexivity|].
  apply (X11_peak_hour_is_a_largest_count Customers.whole_number
           Customers.sample_datetime Customers.sample_date
           Customers.dated_orders).
  vm_compute. reflexivity.
Defined.

(** ** Writing the snapshot and loading it again *)
Section Reload.

Lemma decode_encode_scalar (x : BasicAnalysis.scalar) :
  BasicAnalysis.decode_scalar (BasicAnalysis.encode_scalar x) = x.
Proof. now destruct x. Qed.

Lemma reload_entries (r : BasicAnalysis.results) :
  NoDup (map fst r) ->
  BasicAnalysis.json_load (BasicAnalysis.save_results_json r)
  = map (fun kv => (kv.1,
                    BasicAnalysis.decode_value (BasicAnalysis.encode_value kv.2)))
        r.
Proof.
  intros Hnd. unfold BasicAnalysis.json_load, BasicAnalysis.save_results_json.
  rewrite List.map_map. cbn [fst snd].
  apply dict_of_pairs_NoDup. rewrite List.map_map. exact Hnd.
Qed.

Lemma reload_dict (d : list (BasicAnalysis.key * BasicAnalysis.scalar)) :
  NoDup (map (fun kv => BasicAnalysis.key_name kv.1) d) ->
  BasicAnalysis.decode_value (BasicAnalysis.encode_value (BasicAnalysis.Dict d))
  = BasicAnalysis.Dict
      (map (fun kv => (BasicAnalysis.KStr (BasicAnalysis.key_name kv.1), kv.2)) d).
Proof.
  intros Hnd. cbn [BasicAnalysis.decode_value BasicAnalysis.encode_value].
  f_equal. rewrite List.map_map. cbn [fst snd].
  rewrite (List.map_ext _
             (fun kv => (BasicAnalysis.KStr (BasicAnalysis.key_name kv.1), kv.2)))
    by (intros kv; now rewrite decode_encode_scalar).
  apply dict_of_pairs_NoDup. rewrite List.map_map. cbn [fst].
  rewrite <- (List.map_map (fun kv => BasicAnalysis.key_name kv.1)
                           BasicAnalysis.KStr).
  assert (Hinj : Inj eq eq BasicAnalysis.KStr) by (intros a b [= ?]; assumption).
  apply (NoDup_fmap_2 BasicAnalysis.KStr). exact Hnd.
Qed.

Lemma renamed_get (d : list (BasicAnalysis.key * BasicAnalysis.scalar))
    (k : BasicAnalysis.key) (x : BasicAnalysis.scalar) :
  NoDup (map (fun kv => BasicAnalysis.key_name kv.1) d) ->
  Py.dict_get k d = Some x ->
  Py.dict_get (BasicAnalysis.KStr (BasicAnalysis.key_name k))
    (map (fun kv => (BasicAnalysis.KStr (BasicAnalysis.key_name kv.1), kv.2)) d)
  = Some x.
Proof.
  induction d as [|[k0 v0] d IH]; intros Hnd Hget; [discriminate|].
  cbn [map fst] in Hnd. apply NoDup_cons in Hnd as [Hk Hnd].
  cbn [map Py.dict_get fst snd] in *.
  destruct (decide (k = k0)) as [->|Hne].
  - destruct (decide (BasicAnalysis.KStr (BasicAnalysis.key_name k0)
                      = BasicAnalysis.KStr (BasicAnalysis.key_name k0)));
      [exact Hget | contradiction].
  - destruct (decide (BasicAnalysis.KStr (BasicAnalysis.key_name k)
                      = BasicAnalysis.KStr (BasicAnalysis.key_name k0)))
      as [[= E]|_]; [|now apply IH].
    exfalso. apply Hk. rewrite <- E.
    apply dict_get_Some_elem in Hget.
    apply list_elem_of_fmap. now exists (k, x).
Qed.

Lemma renamed_get_int (d : list (BasicAnalysis.key * BasicAnalysis.scalar))
    (z : Z) :
  Py.dict_get (BasicAnalysis.KInt z)
    (map (fun kv => (BasicAnalysis.KStr (BasicAnalysis.key_name kv.1), kv.2)) d)
  = None.
Proof.
  induction d as [|[k0 v0] d IH]; [reflexivity|].
  cbn [map Py.dict_get fst snd].
  destruct (decide (BasicAnalysis.KInt z
                    = BasicAnalysis.KStr (BasicAnalysis.key_name k0)));
    [discriminate | exact IH].
Qed.

Lemma reload_get (r : BasicAnalysis.results) (name : string) :
  BasicAnalysis.wf_results r ->
  Py.dict_get name (BasicAnalysis.json_load (BasicAnalysis.save_results_json r))
  = match Py.dict_get name r with
    | Some (BasicAnalysis.Scalar x) => Some (BasicAnalysis.Scalar x)
    | Some (BasicAnalysis.Dict d) =>
        Some (BasicAnalysis.Dict
                (map (fun kv => (BasicAnalysis.KStr (BasicAnalysis.key_name kv.1),
                                 kv.2)) d))
    | None => None
    end.
Proof.
  intros [Hnd Hall]. rewrite (reload_entries r Hnd).
  rewrite (dict_get_map_values
             (fun v => BasicAnalysis.decode_value (BasicAnalysis.encode_value v))).
  destruct (Py.dict_get name r) as [[x|d]|] eqn:Hget; cbn [fmap option_fmap option_map].
  - cbn. now rewrite decode_encode_scalar.
  - f_equal. apply reload_dict.
    apply (dict_get_Forall BasicAnalysis.distinct_names name _ r Hall Hget).
  - reflexivity.
Qed.

Lemma reload_wf_names (r : BasicAnalysis.results) (name : string)
    (d : list (BasicAnalysis.key * BasicAnalysis.scalar)) :
  BasicAnalysis.wf_results r ->
  Py.dict_get name r = Some (BasicAnalysis.Dict d) ->
  NoDup (map (fun kv => BasicAnalysis.key_name kv.1) d).
Proof.
  intros [_ Hall] Hget.
  apply (dict_get_Forall BasicAnalysis.distinct_names name _ r Hall Hget).
Qed.

End Reload.



(** X12: the snapshot of a result of [analyze_data], written by
    [save_results_json] and loaded again with [json.load], has the same
    entries in the same order and every scalar entry unchanged; an entry
    of an inner dict is found again under the text of its key, and no
    integer key survives: the hourly distribution and the ticket
    quantities, keyed by [int] before, are keyed by [str] after. *)
Theorem X12_snapshot_reload
    (float_of_str : string -> Py.result float)
    (strptime_datetime strptime_date : string -> Py.result Z)
    (data : list (gmap string string)) (r : BasicAnalysis.results) :
  BasicAnalysis.analyze_data float_of_str strptime_datetime strptime_date data
  = Py.Ok r ->
  map fst (BasicAnalysis.json_load (BasicAnalysis.save_results_json r))
  = map fst r
  /\ (forall name x,
        Py.dict_get name r = Some (BasicAnalysis.Scalar x) ->
        Py.dict_get name
          (BasicAnalysis.json_load (BasicAnalysis.save_results_json r))
        = Some (BasicAnalysis.Scalar x))
  /\ (forall name k x,
        BasicAnalysis.lookup2 r name k = Some x ->
        BasicAnalysis.lookup2
          (BasicAnalysis.json_load (BasicAnalysis.save_results_json r))
          name (BasicAnalysis.KStr (BasicAnalysis.key_name k))
        = Some x)
  /\ (forall name z,
        BasicAnalysis.lookup2
          (BasicAnalysis.json_load (BasicAnalysis.save_results_json r))
          name (BasicAnalysis.KInt z)
        = None).
Proof.
  intros Hr. apply analyze_data_wf in Hr as Hwf.
  split; [|split; [|split]].
  - rewrite (reload_entries r (proj1 Hwf)). now rewrite List.map_map.
  - intros name x Hget. now rewrite (reload_get r name Hwf), Hget.
  - intros name k x. unfold BasicAnalysis.lookup2.
    rewrite (reload_get r name Hwf).
    destruct (Py.dict_get name r) as [[y|d]|] eqn:Hget; try discriminate.
    apply renamed_get. exact (reload_wf_names r name d Hwf Hget).
  - intros name z. unfold BasicAnalysis.lookup2.
    rewrite (reload_get r name Hwf).
    destruct (Py.dict_get name r) as [[y|d]|]; try reflexivity.
    apply renamed_get_int.
Qed.

Lemma X12_witness :
  exists r,
    BasicAnalysis.analyze_data Customers.whole_number Customers.sample_datetime
      Customers.sample_date Customers.dated_orders = Py.Ok r
    /\ BasicAnalysis.lookup2 r "hourly_distribution" (BasicAnalysis.KInt 19)
       = Some (BasicAnalysis.SInt 2)
    /\ BasicAnalysis.lookup2
         (BasicAnalysis.json_load (BasicAnalysis.save_results_json r))
         "hourly_distribution" (BasicAnalysis.KStr "19")
       = Some (BasicAnalysis.SInt 2)
    /\ BasicAnalysis.lookup2
         (BasicAnalysis.json_load (BasicAnalysis.save_results_json r))
         "hourly_distribution" (BasicAnalysis.KInt 19)
       = None.
Proof.
  eexists. split; [vm_compute; reflexivity|].
  split; [vm_compute; reflexivity|]. split.
  - apply (proj1 (proj2 (proj2
             (X12_snapshot_reload Customers.whole_number
                Customers.sample_datetime Customers.sample_date
                Customers.dated_orders _ ltac:(vm_compute; reflexivity))))
             "hourly_distribution" (BasicAnalysis.KInt 19)).
    vm_compute. reflexivity.
  - vm_compute. reflexivity.
Defined.

(** ** The time-series tab *)
Section TimeSeriesTab.

Lemma savgol_window_choices_ok (window : Z) :
  window ∈ AdvancedTimeSeries.savgol_window_choices ->
  Z.odd window = true /\ 3 < window.
Proof.
  intros H.
  assert (Hall : Forall (fun w => Z.odd w = true /\ 3 < w)
                        AdvancedTimeSeries.savgol_window_choices)
    by (repeat constructor).
  now apply (proj1 (Forall_forall _ _) Hall).
Qed.

Lemma zscore_length (a : list float) : length (Scipy.zscore a) = length a.
Proof.
  unfold Scipy.zscore, Scipy.zmap. destruct a as [|x a]; [reflexivity|].
  destruct (forallb _ _); now rewrite !length_map.
Qed.

Lemma dropna_full (data : list float) :
  length (Pandas.dropna data) = length data
  <-> (forall x, x ∈ data -> Pandas.isna x = false).
Proof.
  unfold Pandas.dropna. induction data as [|x data IH].
  - split; [intros _ x Hx; now apply elem_of_nil in Hx | reflexivity].
  - rewrite filter_cons.
    pose proof (length_filter (fun x => negb (Pandas.isna x)) data) as Hle.
    destruct (Pandas.isna x) eqn:Hx; cbn [negb].
    + destruct (decide (Is_true false)) as [[]|_]. split.
      * intros H. cbn [length] in H. lia.
      * intros H. specialize (H x ltac:(left)). congruence.
    + destruct (decide (Is_true true)) as [_|Hn]; [|exfalso; apply Hn; exact I].
      cbn [length]. split.
      * intros H y [->|Hy]%elem_of_cons; [exact Hx|].
        apply IH; [lia | exact Hy].
      * intros H. f_equal. apply IH. intros y Hy. apply H. now right.
Qed.

End TimeSeriesTab.

(** X13: every window the Savitzky-Golay slider of the time-series tab can
    return (the odd numbers from 5 to 21) is accepted: on every series the
    savgol branch of [apply_smoothing] with the exact filter returns a
    series with the index and the length of its input, either the input
    itself (series no longer than the window) or the filtered one; the
    filter's refusal of a window of 3 or less cannot be reached from the
    tab. *)
Theorem X13_slider_windows_are_accepted
    (P : Type) (rolling_mean : AdvancedTimeSeries.series Q -> Z
                               -> Py.result (AdvancedTimeSeries.series Q))
    (ewm_mean : AdvancedTimeSeries.series Q -> P
                -> Py.result (AdvancedTimeSeries.series Q))
    (alpha : P) (data : AdvancedTimeSeries.series Q) (window : Z) :
  window ∈ AdvancedTimeSeries.savgol_window_choices ->
  exists out,
    AdvancedTimeSeries.apply_smoothing rolling_mean ewm_mean
      Scipy.savgol_filter data "savgol" window alpha = Py.Ok out
    /\ AdvancedTimeSeries.index out = AdvancedTimeSeries.index data
    /\ length out = length data
    /\ (Z.of_nat (length data) <= window -> out = data).
Proof.
  intros [Hodd H3]%savgol_window_choices_ok.
  destruct (Z.le_gt_cases (Z.of_nat (length data)) window) as [Hle|Hgt].
  - exists data. rewrite savgol_fallback by exact Hle. now repeat split.
  - destruct (savgol_filter_accepts (AdvancedTimeSeries.values data) window)
      as [arr Harr]; [exact Hodd | exact H3 | |].
    { unfold AdvancedTimeSeries.values. rewrite length_map. lia. }
    assert (Hlen : length arr = length data).
    { rewrite (savgol_filter_length _ _ _ _ Harr).
      unfold AdvancedTimeSeries.values. apply length_map. }
    destruct (savgol_applied rolling_mean ewm_mean Scipy.savgol_filter
                data window alpha arr Hgt Harr Hlen)
      as (out & Hout & Hidx & _ & Hl).
    exists out. repeat split; try assumption. lia.
Qed.

Lemma X13_witness :
  exists out,
    AdvancedTimeSeries.apply_smoothing
      (fun d _ => Py.Ok d) (fun d (_ : unit) => Py.Ok d)
      Scipy.savgol_filter Sample.ramp "savgol" 7 tt = Py.Ok out
    /\ AdvancedTimeSeries.index out = AdvancedTimeSeries.index Sample.ramp
    /\ length out = length Sample.ramp
    /\ (Z.of_nat (length Sample.ramp) <= 7 -> out = Sample.ramp).
Proof.
  apply (X13_slider_windows_are_accepted unit
           (fun d _ => Py.Ok d) (fun d _ => Py.Ok d) tt Sample.ramp 7).
  vm_compute. right. left.
Defined.

(** X14: the anomaly mask has one entry for each value of the series that
    is not missing: it is never longer than the series, and it has the
    length of the series, which the dashboard assumes when it selects rows
    with it, exactly when no value is missing. *)
Theorem X14_anomaly_mask_length (data : list float) (threshold : float) :
  length (AdvancedTimeSeries.detect_anomalies data threshold)
  = length (Pandas.dropna data)
  /\ (length (AdvancedTimeSeries.detect_anomalies data threshold)
      <= length data)%nat
  /\ (length (AdvancedTimeSeries.detect_anomalies data threshold) = length data
      <-> (forall x, x ∈ data -> Pandas.isna x = false)).
Proof.
  assert (H : length (AdvancedTimeSeries.detect_anomalies data threshold)
              = length (Pandas.dropna data)).
  { unfold AdvancedTimeSeries.detect_anomalies.
    now rewrite !length_map, zscore_length. }
  split; [exact H|]. rewrite H. split.
  - apply length_filter.
  - apply dropna_full.
Qed.

(** ** The lifecycle chart of one show day *)
Section LifecycleChart.
Import Frame.

Lemma remove_dups_constant {A : Type} `{EqDecision A} (x : A) (l : list A) :
  l <> [] -> (forall y, y ∈ l -> y = x) -> remove_dups l = [x].
Proof.
  induction l as [|y l IH]; intros Hne Hall; [congruence|].
  assert (y = x) as -> by (apply Hall; left).
  cbn [remove_dups]. destruct l as [|z l].
  - destruct (decide_rel elem_of x []) as [H|_]; [|reflexivity].
    now apply elem_of_nil in H.
  - assert (z = x) as -> by (apply Hall; right; left).
    destruct (decide_rel elem_of x (x :: l)) as [_|H]; [|exfalso; apply H; left].
    apply IH; [discriminate|]. intros w Hw. apply Hall. now right.
Qed.

Lemma gantt_rows (df : list row) (top_n : nat) (order : string)
    (cust : AdvancedTimeSeries.customer) :
  cust ∈ AdvancedTimeSeries.create_customer_lifecycle_gantt df top_n order ->
  (3 <= AdvancedTimeSeries.total_orders cust)%nat
  /\ exists c, cust = AdvancedTimeSeries.customer_entry
                        (c, Pandas.group_rows customer_id df c).
Proof.
  unfold AdvancedTimeSeries.create_customer_lifecycle_gantt,
    Pandas.nlargest, Pandas.nsmallest. intros Hin.
  assert (Hrep : cust ∈ filter (fun c => (3 <= AdvancedTimeSeries.total_orders c)%nat)
                   (map AdvancedTimeSeries.customer_entry
                      (Pandas.groupby customer_id Pandas.str_le df))).
  { destruct (String.eqb order "top");
      apply subseteq_take in Hin;
      now rewrite merge_sort_Permutation in Hin. }
  apply list_elem_of_filter in Hrep as [Hn Hin'].
  split; [exact Hn|].
  apply list_elem_of_fmap in Hin' as ([k g] & -> & [_ ->]%elem_of_groupby).
  now exists k.
Qed.

Lemma gantt_ids_NoDup (df : list row) (top_n : nat) (order : string) :
  NoDup (map AdvancedTimeSeries.cust_id
           (AdvancedTimeSeries.create_customer_lifecycle_gantt df top_n order)).
Proof.
  assert (Hbase : NoDup (map AdvancedTimeSeries.cust_id
                    (filter (fun c => (3 <= AdvancedTimeSeries.total_orders c)%nat)
                       (map AdvancedTimeSeries.customer_entry
                          (Pandas.groupby customer_id Pandas.str_le df))))).
  { apply (sublist_NoDup _ (map AdvancedTimeSeries.cust_id
             (map AdvancedTimeSeries.customer_entry
                (Pandas.groupby customer_id Pandas.str_le df)))).
    - rewrite List.map_map. cbn [AdvancedTimeSeries.customer_entry
                                   AdvancedTimeSeries.cust_id].
      apply groupby_keys_NoDup.
    - apply (fmap_sublist AdvancedTimeSeries.cust_id), sublist_filter. }
  unfold AdvancedTimeSeries.create_customer_lifecycle_gantt,
    Pandas.nlargest, Pandas.nsmallest.
  destruct (String.eqb order "top").
  - eapply sublist_NoDup;
      [|apply (fmap_sublist AdvancedTimeSeries.cust_id), sublist_take].
    assert (Hp : forall l : list AdvancedTimeSeries.customer,
               map AdvancedTimeSeries.cust_id
                 (merge_sort (fun a b => Is_true (PrimFloat.leb
                                (AdvancedTimeSeries.total_spent b)
                                (AdvancedTimeSeries.total_spent a))) l)
               ≡ₚ map AdvancedTimeSeries.cust_id l)
      by (intros l; apply (fmap_Permutation AdvancedTimeSeries.cust_id),
                      merge_sort_Permutation).
    now rewrite Hp.
  - eapply sublist_NoDup;
      [|apply (fmap_sublist AdvancedTimeSeries.cust_id), sublist_take].
    assert (Hp : forall l : list AdvancedTimeSeries.customer,
               map AdvancedTimeSeries.cust_id
                 (merge_sort (fun a b => Is_true (PrimFloat.leb
                                (AdvancedTimeSeries.total_spent a)
                                (AdvancedTimeSeries.total_spent b))) l)
               ≡ₚ map AdvancedTimeSeries.cust_id l)
      by (intros l; apply (fmap_Permutation AdvancedTimeSeries.cust_id),
                      merge_sort_Permutation).
    now rewrite Hp.
Qed.

Lemma gantt_length (df : list row) (top_n : nat) (order : string) :
  (length (AdvancedTimeSeries.create_customer_lifecycle_gantt df top_n order)
   <= top_n)%nat.
Proof.
  unfold AdvancedTimeSeries.create_customer_lifecycle_gantt,
    Pandas.nlargest, Pandas.nsmallest.
  destruct (String.eqb order "top"); rewrite length_take; lia.
Qed.

End LifecycleChart.

(** X15: the customer lifecycle chart draws at most [top_n] customers, no
    customer twice; when a show day is chosen, the chart is computed from
    that day's orders alone: each customer drawn has at least 3 dated
    orders on that day (orders on other days do not count towards the
    threshold of 3), its order count is the count on that day, and its
    list of days attended is that day alone. *)
Theorem X15_lifecycle_chart_of_a_show_day
    (df : list Frame.row) (show_filter : string) (top_n : nat) :
  (length (AdvancedTimeSeries.show_gantt_customer_subheader df show_filter top_n)
   <= top_n)%nat
  /\ NoDup (map AdvancedTimeSeries.cust_id
              (AdvancedTimeSeries.show_gantt_customer_subheader
                 df show_filter top_n))
  /\ (show_filter <> "All Shows" ->
      forall cust,
        cust ∈ AdvancedTimeSeries.show_gantt_customer_subheader
                 df show_filter top_n ->
        AdvancedTimeSeries.days_attended cust = [show_filter]
        /\ AdvancedTimeSeries.total_orders cust
           = Customers.dated_orders_of
               (filter (fun r => Frame.day_of_week r = show_filter) df)
               (AdvancedTimeSeries.cust_id cust)
        /\ (3 <= AdvancedTimeSeries.total_orders cust)%nat).
Proof.
  unfold AdvancedTimeSeries.show_gantt_customer_subheader.
  split; [apply gantt_length|]. split; [apply gantt_ids_NoDup|].
  intros Hf cust Hin.
  destruct (String.eqb_spec show_filter "All Shows") as [E|_]; [contradiction|].
  cbn [negb] in Hin.
  apply gantt_rows in Hin as [Hn (c & ->)].
  split; [|split; [reflexivity | exact Hn]].
  cbn [AdvancedTimeSeries.customer_entry AdvancedTimeSeries.days_attended snd].
  apply remove_dups_constant.
  - intros E.
    cbn [AdvancedTimeSeries.customer_entry AdvancedTimeSeries.total_orders snd] in Hn.
    apply List.map_eq_nil in E. rewrite E in Hn. cbn in Hn. lia.
  - intros d (r & -> & Hr)%list_elem_of_fmap.
    apply elem_of_group_rows in Hr as [Hr _].
    now apply list_elem_of_filter in Hr as [Hd _].
Qed.
